(** * Detection overlay rendering and the live capture loop

    A shallow embedding of the rendering and polling core of the vision
    front end:

    - [src/components/LiveStream.tsx]: the [LiveStream] component, its
      analysis loop [runAnalysisLoop], the start/stop handler
      [toggleScanning] and the HUD renderer [draw];
    - [src/components/AnalysisTool.tsx]: the static annotator
      [drawAnnotations], the handlers [handleAnalyze], [handleReset] and
      the upload progress of [handleFileChange];
    - [src/services/geminiService.ts]: [analyzeVideoFrameWithGemini] and
      [analyzeImageWithGemini];
    - the [HeatmapLayer] component: its blobs and its recolor pass;
    - the task archive of [App] and the pagination of [TaskHistory].

    JavaScript numbers are modelled exactly: coordinates, confidences and
    [performance.now()] readings are rationals ([Q]); [Date.now()] readings,
    counters and delays are integers ([Z]).  Canvas drawing is modelled as
    the list of drawing commands a renderer issues, in issue order. *)

From Stdlib Require Import ZArith QArith Qminmax Qround Lia Lqa.
From Stdlib Require Import String Ascii List DecimalString.
From stdpp Require Import gmap strings.
Import ListNotations.

Local Open Scope Q_scope.

(** ** JavaScript primitives used by the sources *)

Module JS.

(** [a < b] on numbers, as a boolean. *)
Definition ltb (a b : Q) : bool := negb (Qle_bool b a).

(** [a > b] on numbers. *)
Definition gtb (a b : Q) : bool := ltb b a.

(** [Math.round]: the nearest integer, halves going up. *)
Definition Math_round (q : Q) : Z := Qfloor (q + (1 # 2)).

(** [Math.max] and [Math.min] on two numbers. *)
Definition Math_max (a b : Q) : Q := if ltb a b then b else a.
Definition Math_min (a b : Q) : Q := if ltb b a then b else a.

(** Template-literal rendering of an integer. *)
Definition string_of_Z (z : Z) : string := NilEmpty.string_of_int (Z.to_int z).

(** [String.prototype.toUpperCase] on ASCII text. *)
Definition upper_ascii (c : ascii) : ascii :=
  let n := nat_of_ascii c in
  if (97 <=? n)%nat && (n <=? 122)%nat then ascii_of_nat (n - 32) else c.

Fixpoint toUpperCase (s : string) : string :=
  match s with
  | EmptyString => EmptyString
  | String c r => String (upper_ascii c) (toUpperCase r)
  end.

(** Storing a number into a [Uint8ClampedArray] cell: round to the nearest
    integer, ties to even, then clamp to [0, 255]. *)
Definition toUint8Clamped (q : Q) : Z :=
  let f := Qfloor q in
  let n := match Qcompare (q - inject_Z f) (1 # 2) with
           | Lt => f
           | Gt => (f + 1)%Z
           | Eq => if Z.even f then f else (f + 1)%Z
           end in
  Z.max 0 (Z.min 255 n).

End JS.

(** ** Data model ([types.ts]) *)

(** [box_2d: number[]], read by both renderers through the destructuring
    [const [ymin, xmin, ymax, xmax] = obj.box_2d]. *)
Record Box := mkBox { ymin : Q; xmin : Q; ymax : Q; xmax : Q }.

Record DetectedObject := mkObj {
  label : string;
  confidence : Q;
  box_2d : Box
}.

(** ** Geometry mapper

    The four lines that both [draw] (LiveStream.tsx 235-238) and
    [drawAnnotations] (AnalysisTool.tsx 219-222) run on every box. *)

Record Rect := mkRect { rx : Q; ry : Q; rw : Q; rh : Q }.

Definition mapBox (b : Box) (width height : Q) : Rect :=
  {| rx := (xmin b / 1000) * width;
     ry := (ymin b / 1000) * height;
     rw := ((xmax b - xmin b) / 1000) * width;
     rh := ((ymax b - ymin b) / 1000) * height |}.

(** [const hue = (idx * 137) % 360], for an array index [idx]. *)
Definition hue (idx : Z) : Z := Z.rem (idx * 137) 360.

(** ** Stale-detection fader (LiveStream.tsx 223-225) *)

Definition opacity (now lastDetectionAt : Z) : Q :=
  let timeSinceLastDetection := (now - lastDetectionAt)%Z in
  JS.Math_max 0 (1 - inject_Z timeSinceLastDetection / 1500).

(** The contract in the words of the specification, for comparison. *)
Definition clamp (v lo hi : Q) : Q := Qmin hi (Qmax lo v).

Definition GRACE_WINDOW : Z := 1500.

Definition opacity_contract (now lastDetectionAt : Z) : Q :=
  clamp (1 - inject_Z (now - lastDetectionAt) / inject_Z GRACE_WINDOW) 0 1.

(** ** Drawing surface *)

Inductive Style :=
| Hsl (h : Z) (s l : Z)
| Hsla (h : Z) (s l : Z) (a : Q)
| Rgba (r g b : Z) (a : Q)
| White
| ScanGradient (y0 y1 : Q).

Inductive PathOp :=
| MoveTo (x y : Q)
| LineTo (x y : Q).

Inductive DrawCmd :=
| ClearRect (x y w h : Q)
| StrokeRect (style : Style) (x y w h : Q)
| FillRect (style : Style) (x y w h : Q)
| StrokePath (style : Style) (path : list PathOp)
| FillRoundRect (style : Style) (x y w h r : Q)
| FillText (style : Style) (text : string) (x y : Q).

(** [array.forEach((obj, idx) => ...)], collecting what each call draws. *)
Fixpoint forEach {A B : Type} (f : A -> nat -> list B) (idx : nat) (l : list A)
  : list B :=
  match l with
  | [] => []
  | a :: r => f a idx ++ forEach f (S idx) r
  end.

Section Renderers.

(** [ctx.measureText(text).width] for the font both renderers set. *)
Variable measureText : string -> Q.

(** *** Static annotator: [drawAnnotations] (AnalysisTool.tsx 192-258) *)

Record Chip := mkChip { chipX : Q; chipY : Q; chipW : Q; chipH : Q }.

(** Lines 236-247: where the label chip of a box at [(x, y)] goes. *)
Definition annotLabel (text : string) (x y width : Q) : Chip :=
  let padding := 6 in
  let textWidth := measureText text + padding * 2 in
  let textHeight := 22 in
  let labelY := y - textHeight in
  let labelY := if JS.ltb labelY 0 then y else labelY in
  let labelX := x in
  let labelX := if JS.gtb (labelX + textWidth) width
                then width - textWidth else labelX in
  mkChip labelX labelY textWidth textHeight.

Definition annotText (obj : DetectedObject) : string :=
  (label obj ++ " " ++ JS.string_of_Z (JS.Math_round (confidence obj * 100))
     ++ "%")%string.

Definition drawAnnotation (width height : Q) (obj : DetectedObject) (idx : nat)
  : list DrawCmd :=
  let r := mapBox (box_2d obj) width height in
  let x := rx r in let y := ry r in let w := rw r in let h := rh r in
  let hue := hue (Z.of_nat idx) in
  let color := Hsl hue 80 50 in
  let bgFill := Hsla hue 80 50 (1 # 10) in
  let text := annotText obj in
  let c := annotLabel text x y width in
  [ StrokeRect color x y w h;
    FillRect bgFill x y w h;
    FillRoundRect color (chipX c) (chipY c) (chipW c) (chipH c) 4;
    FillText White text (chipX c + 6) (chipY c + chipH c / 2) ].


(** [drawAnnotations]: [showing] is false when there is no result or the
    view mode is not ['boxes']; the surface is then only cleared.
    Coordinates are in CSS pixels (the context is scaled by the device
    pixel ratio before drawing). *)
Definition drawAnnotations (showing : bool) (canvasW canvasH width height : Q)
    (objects : list DetectedObject) : list DrawCmd :=
  if showing
  then ClearRect 0 0 width height :: forEach (drawAnnotation width height) 0 objects
  else [ClearRect 0 0 canvasW canvasH].

(** *** Live HUD renderer: [draw] (LiveStream.tsx 187-287) *)

(** Lines 269-270: the vertical position of the label chip. *)
Definition hudLabelY (y h : Q) : Q :=
  let ly := y - 22 in
  if JS.ltb ly 0 then y + h + 8 else ly.

Definition hudText (obj : DetectedObject) : string :=
  (JS.toUpperCase (label obj) ++ " "
     ++ JS.string_of_Z (JS.Math_round (confidence obj * 100)) ++ "%")%string.

(** Lines 275: the chip rectangle handed to [ctx.roundRect]. *)
Definition hudLabel (text : string) (x y h : Q) : Chip :=
  mkChip x (hudLabelY y h) (measureText text + 12) 22.

Definition bracketPath (x y w h : Q) : list PathOp :=
  let bracketLen := JS.Math_min w h * (2 # 10) in
  [ MoveTo x (y + bracketLen); LineTo x y; LineTo (x + bracketLen) y;
    MoveTo (x + w - bracketLen) y; LineTo (x + w) y; LineTo (x + w) (y + bracketLen);
    MoveTo (x + w) (y + h - bracketLen); LineTo (x + w) (y + h);
    LineTo (x + w - bracketLen) (y + h);
    MoveTo (x + bracketLen) (y + h); LineTo x (y + h); LineTo x (y + h - bracketLen) ].

Definition drawObject (confidenceThreshold : Q) (showLabels : bool)
    (opacity width height : Q) (obj : DetectedObject) (idx : nat) : list DrawCmd :=
  if JS.ltb (confidence obj) confidenceThreshold then [] else
  let r := mapBox (box_2d obj) width height in
  let x := rx r in let y := ry r in let w := rw r in let h := rh r in
  let hue := hue (Z.of_nat idx) in
  let color := Hsla hue 80 60 opacity in
  let colorOpac := Hsla hue 80 60 ((15 # 100) * opacity) in
  let textColor := Rgba 0 0 0 opacity in
  [ StrokePath color (bracketPath x y w h);
    FillRect colorOpac x y w h ]
  ++ (if showLabels
      then let labelText := hudText obj in
           let c := hudLabel labelText x y h in
           [ FillRoundRect color (chipX c) (chipY c) (chipW c) (chipH c) 4;
             FillText textColor labelText (x + 6) (chipY c + 12) ]
      else []).

(** The scan line of step 1; [sinTime] stands for
    [Math.sin(Date.now() / 1500)]. *)
Definition scanLine (sinTime width height : Q) : list DrawCmd :=
  let scanY := (sinTime * (1 # 2) + (1 # 2)) * height in
  [FillRect (ScanGradient (scanY - 20) (scanY + 20)) 0 (scanY - 20) width 40].

(** [draw], once the canvas, the video and the container exist and the
    video is ready ([ready]); otherwise it returns without drawing. *)
Definition draw (ready : bool) (isScanningRef : bool) (sinTime : Q)
    (now lastDetectionTimeRef : Z) (confidenceThreshold : Q) (showLabels : bool)
    (width height : Q) (detectedObjectsRef : list DetectedObject) : list DrawCmd :=
  if negb ready then [] else
  ClearRect 0 0 width height
  :: (if isScanningRef then scanLine sinTime width height else [])
  ++ (let opacity := opacity now lastDetectionTimeRef in
      if JS.gtb opacity 0
      then forEach (drawObject confidenceThreshold showLabels opacity width height)
                   0 detectedObjectsRef
      else []).

End Renderers.

(** ** Heat-map recolor pass ([HeatmapLayer], the loop over [imageData.data]) *)

Module Heatmap.

(** One RGBA pixel of the [Uint8ClampedArray]. *)
Record Pixel := mkPixel { R : Z; G : Z; B : Z; A : Z }.

(** The four-stage ramp, as the numbers [(r, g, b)] computed from [t]
    before they are stored. *)
Definition ramp (t : Q) : Q * Q * Q :=
  if JS.ltb t (1 # 4) then
    (0, (t / (1 # 4)) * 255, 255)
  else if JS.ltb t (1 # 2) then
    (0, 255, (1 - (t - (1 # 4)) / (1 # 4)) * 255)
  else if JS.ltb t (3 # 4) then
    (((t - (1 # 2)) / (1 # 4)) * 255, 255, 0)
  else
    (255, (1 - (t - (3 # 4)) / (1 # 4)) * 255, 0).

(** The three numbers as stored into the pixel array. *)
Definition stored (c : Q * Q * Q) : Z * Z * Z :=
  let '(r, g, b) := c in
  (JS.toUint8Clamped r, JS.toUint8Clamped g, JS.toUint8Clamped b).

(** The body of the loop for one pixel. *)
Definition recolorPixel (p : Pixel) : Pixel :=
  let alpha := A p in
  if (alpha >? 10)%Z then
    let t := inject_Z alpha / 255 in
    let '(r, g, b) := stored (ramp t) in
    mkPixel r g b (Z.min 180 alpha)
  else
    mkPixel (R p) (G p) (B p) 0.

Definition recolor (data : list Pixel) : list Pixel := map recolorPixel data.

End Heatmap.

(** ** Inference service ([geminiService.ts]) *)

(** How a statement completes: normally with a value, or by throwing. *)
Inductive Completion (A : Type) :=
| Return (a : A)
| Throw.
Arguments Return {A} a.
Arguments Throw {A}.

(** What comes back from [ai.models.generateContent] and [JSON.parse]. *)
Inductive ApiResponse :=
| TransportError                                  (* the request rejects *)
| NoText                                          (* [response.text] is empty *)
| MalformedJson                                   (* [JSON.parse] throws *)
| Json (objects : option (list DetectedObject)).  (* parsed; [data.objects] *)

(** The [try] block of [analyzeVideoFrameWithGemini] (lines 104-139). *)
Definition analyzeVideoFrame_try (r : ApiResponse)
  : Completion (list DetectedObject) :=
  match r with
  | TransportError => Throw
  | NoText => Return []
  | MalformedJson => Throw
  | Json (Some objects) => Return objects
  | Json None => Return []
  end.

(** [analyzeVideoFrameWithGemini]: the [catch] turns every failure into an
    empty result (lines 140-145); the promise never rejects. *)
Definition analyzeVideoFrameWithGemini (r : ApiResponse) : list DetectedObject :=
  match analyzeVideoFrame_try r with
  | Return objects => objects
  | Throw => []
  end.

(** ** The [LiveStream] component *)

Local Open Scope Z_scope.

Inductive Mode := speed | accuracy.

Definition Mode_eqb (a b : Mode) : bool :=
  match a, b with
  | speed, speed | accuracy, accuracy => true
  | _, _ => false
  end.

(** The [const]s of one render of the component that [toggleScanning] and
    [runAnalysisLoop] read as plain variables (not through a ref): both
    functions are created by a render and keep the values of that render.
    The loop is not re-created from tick to tick: [setTimeout(runAnalysisLoop,
    delay)] on lines 81, 163 and 182 passes the [runAnalysisLoop] of the
    enclosing render, so a session runs from start to stop on the closure of
    the render in which Start was pressed.  Lines 34-37 mirror [isScanning],
    [detectedObjects] and [performanceMode] into refs for that reason;
    [errorCount] and [latency] are read directly. *)
Record Closure := mkClosure {
  c_isScanning : bool;
  c_errorCount : Z;
  c_latency : Z
}.

(** Callbacks handed to [setTimeout]. *)
Inductive TimerCb :=
| CbLoop (c : Closure)      (* [runAnalysisLoop] of the render [c] *)
| CbClearMessage.           (* [() => setSystemMessage(null)] *)

(** A call of [runAnalysisLoop] suspended at its [await]: its locals. *)
Record InFlight := mkInFlight {
  startTime : Q;
  currentMode : Mode;
  captureWidth : Z;
  quality : Q
}.

(** The component instance: the [useState] cells (with the updates queued so
    far applied), the [useRef] cells, the browser's pending timers and the
    suspended calls of [runAnalysisLoop].  [objectsEpoch] counts the calls of
    [setDetectedObjects]: each call passes a fresh array, so each one
    re-triggers the effect that depends on [detectedObjects]. *)
Record State := mkState {
  isScanning : bool;
  isProcessing : bool;
  detectedObjects : list DetectedObject;
  latency : Z;
  inferenceFps : Z;
  errorCount : Z;
  systemMessage : option string;
  performanceMode : Mode;
  isMountedRef : bool;
  timeoutRef : option nat;
  lastDetectionTimeRef : Z;
  frameCountRef : Z;
  lastFpsUpdateRef : Z;
  isScanningRef : bool;
  detectedObjectsRef : list DetectedObject;
  performanceModeRef : Mode;
  timers : gmap nat (Z * TimerCb);
  nextTimer : nat;
  calls : gmap nat (Closure * InFlight);
  nextCall : nat;
  objectsEpoch : nat
}.

(** *** State and ref updates *)

Definition setIsScanning (v : bool) (s : State) : State :=
  mkState v (isProcessing s) (detectedObjects s) (latency s) (inferenceFps s)
    (errorCount s) (systemMessage s) (performanceMode s) (isMountedRef s)
    (timeoutRef s) (lastDetectionTimeRef s) (frameCountRef s)
    (lastFpsUpdateRef s) (isScanningRef s) (detectedObjectsRef s)
    (performanceModeRef s) (timers s) (nextTimer s) (calls s) (nextCall s)
    (objectsEpoch s).

Definition setIsProcessing (v : bool) (s : State) : State :=
  mkState (isScanning s) v (detectedObjects s) (latency s) (inferenceFps s)
    (errorCount s) (systemMessage s) (performanceMode s) (isMountedRef s)
    (timeoutRef s) (lastDetectionTimeRef s) (frameCountRef s)
    (lastFpsUpdateRef s) (isScanningRef s) (detectedObjectsRef s)
    (performanceModeRef s) (timers s) (nextTimer s) (calls s) (nextCall s)
    (objectsEpoch s).

Definition setLatency (v : Z) (s : State) : State :=
  mkState (isScanning s) (isProcessing s) (detectedObjects s) v
    (inferenceFps s) (errorCount s) (systemMessage s) (performanceMode s)
    (isMountedRef s) (timeoutRef s) (lastDetectionTimeRef s) (frameCountRef s)
    (lastFpsUpdateRef s) (isScanningRef s) (detectedObjectsRef s)
    (performanceModeRef s) (timers s) (nextTimer s) (calls s) (nextCall s)
    (objectsEpoch s).

Definition setInferenceFps (v : Z) (s : State) : State :=
  mkState (isScanning s) (isProcessing s) (detectedObjects s) (latency s) v
    (errorCount s) (systemMessage s) (performanceMode s) (isMountedRef s)
    (timeoutRef s) (lastDetectionTimeRef s) (frameCountRef s)
    (lastFpsUpdateRef s) (isScanningRef s) (detectedObjectsRef s)
    (performanceModeRef s) (timers s) (nextTimer s) (calls s) (nextCall s)
    (objectsEpoch s).

Definition setErrorCount (v : Z) (s : State) : State :=
  mkState (isScanning s) (isProcessing s) (detectedObjects s) (latency s)
    (inferenceFps s) v (systemMessage s) (performanceMode s) (isMountedRef s)
    (timeoutRef s) (lastDetectionTimeRef s) (frameCountRef s)
    (lastFpsUpdateRef s) (isScanningRef s) (detectedObjectsRef s)
    (performanceModeRef s) (timers s) (nextTimer s) (calls s) (nextCall s)
    (objectsEpoch s).

Definition setSystemMessage (v : option string) (s : State) : State :=
  mkState (isScanning s) (isProcessing s) (detectedObjects s) (latency s)
    (inferenceFps s) (errorCount s) v (performanceMode s) (isMountedRef s)
    (timeoutRef s) (lastDetectionTimeRef s) (frameCountRef s)
    (lastFpsUpdateRef s) (isScanningRef s) (detectedObjectsRef s)
    (performanceModeRef s) (timers s) (nextTimer s) (calls s) (nextCall s)
    (objectsEpoch s).

Definition setPerformanceMode (v : Mode) (s : State) : State :=
  mkState (isScanning s) (isProcessing s) (detectedObjects s) (latency s)
    (inferenceFps s) (errorCount s) (systemMessage s) v (isMountedRef s)
    (timeoutRef s) (lastDetectionTimeRef s) (frameCountRef s)
    (lastFpsUpdateRef s) (isScanningRef s) (detectedObjectsRef s)
    (performanceModeRef s) (timers s) (nextTimer s) (calls s) (nextCall s)
    (objectsEpoch s).

Definition put_isMountedRef (v : bool) (s : State) : State :=
  mkState (isScanning s) (isProcessing s) (detectedObjects s) (latency s)
    (inferenceFps s) (errorCount s) (systemMessage s) (performanceMode s) v
    (timeoutRef s) (lastDetectionTimeRef s) (frameCountRef s)
    (lastFpsUpdateRef s) (isScanningRef s) (detectedObjectsRef s)
    (performanceModeRef s) (timers s) (nextTimer s) (calls s) (nextCall s)
    (objectsEpoch s).

Definition put_timeoutRef (v : option nat) (s : State) : State :=
  mkState (isScanning s) (isProcessing s) (detectedObjects s) (latency s)
    (inferenceFps s) (errorCount s) (systemMessage s) (performanceMode s)
    (isMountedRef s) v (lastDetectionTimeRef s) (frameCountRef s)
    (lastFpsUpdateRef s) (isScanningRef s) (detectedObjectsRef s)
    (performanceModeRef s) (timers s) (nextTimer s) (calls s) (nextCall s)
    (objectsEpoch s).

Definition put_lastDetectionTimeRef (v : Z) (s : State) : State :=
  mkState (isScanning s) (isProcessing s) (detectedObjects s) (latency s)
    (inferenceFps s) (errorCount s) (systemMessage s) (performanceMode s)
    (isMountedRef s) (timeoutRef s) v (frameCountRef s) (lastFpsUpdateRef s)
    (isScanningRef s) (detectedObjectsRef s) (performanceModeRef s) (timers s)
    (nextTimer s) (calls s) (nextCall s) (objectsEpoch s).

Definition put_frameCountRef (v : Z) (s : State) : State :=
  mkState (isScanning s) (isProcessing s) (detectedObjects s) (latency s)
    (inferenceFps s) (errorCount s) (systemMessage s) (performanceMode s)
    (isMountedRef s) (timeoutRef s) (lastDetectionTimeRef s) v
    (lastFpsUpdateRef s) (isScanningRef s) (detectedObjectsRef s)
    (performanceModeRef s) (timers s) (nextTimer s) (calls s) (nextCall s)
    (objectsEpoch s).

Definition put_lastFpsUpdateRef (v : Z) (s : State) : State :=
  mkState (isScanning s) (isProcessing s) (detectedObjects s) (latency s)
    (inferenceFps s) (errorCount s) (systemMessage s) (performanceMode s)
    (isMountedRef s) (timeoutRef s) (lastDetectionTimeRef s) (frameCountRef s)
    v (isScanningRef s) (detectedObjectsRef s) (performanceModeRef s)
    (timers s) (nextTimer s) (calls s) (nextCall s) (objectsEpoch s).

Definition put_isScanningRef (v : bool) (s : State) : State :=
  mkState (isScanning s) (isProcessing s) (detectedObjects s) (latency s)
    (inferenceFps s) (errorCount s) (systemMessage s) (performanceMode s)
    (isMountedRef s) (timeoutRef s) (lastDetectionTimeRef s) (frameCountRef s)
    (lastFpsUpdateRef s) v (detectedObjectsRef s) (performanceModeRef s)
    (timers s) (nextTimer s) (calls s) (nextCall s) (objectsEpoch s).

Definition put_detectedObjectsRef (v : list DetectedObject) (s : State) : State :=
  mkState (isScanning s) (isProcessing s) (detectedObjects s) (latency s)
    (inferenceFps s) (errorCount s) (systemMessage s) (performanceMode s)
    (isMountedRef s) (timeoutRef s) (lastDetectionTimeRef s) (frameCountRef s)
    (lastFpsUpdateRef s) (isScanningRef s) v (performanceModeRef s) (timers s)
    (nextTimer s) (calls s) (nextCall s) (objectsEpoch s).

Definition put_performanceModeRef (v : Mode) (s : State) : State :=
  mkState (isScanning s) (isProcessing s) (detectedObjects s) (latency s)
    (inferenceFps s) (errorCount s) (systemMessage s) (performanceMode s)
    (isMountedRef s) (timeoutRef s) (lastDetectionTimeRef s) (frameCountRef s)
    (lastFpsUpdateRef s) (isScanningRef s) (detectedObjectsRef s) v (timers s)
    (nextTimer s) (calls s) (nextCall s) (objectsEpoch s).

Definition put_timers (v : gmap nat (Z * TimerCb)) (s : State) : State :=
  mkState (isScanning s) (isProcessing s) (detectedObjects s) (latency s)
    (inferenceFps s) (errorCount s) (systemMessage s) (performanceMode s)
    (isMountedRef s) (timeoutRef s) (lastDetectionTimeRef s) (frameCountRef s)
    (lastFpsUpdateRef s) (isScanningRef s) (detectedObjectsRef s)
    (performanceModeRef s) v (nextTimer s) (calls s) (nextCall s)
    (objectsEpoch s).

Definition put_nextTimer (v : nat) (s : State) : State :=
  mkState (isScanning s) (isProcessing s) (detectedObjects s) (latency s)
    (inferenceFps s) (errorCount s) (systemMessage s) (performanceMode s)
    (isMountedRef s) (timeoutRef s) (lastDetectionTimeRef s) (frameCountRef s)
    (lastFpsUpdateRef s) (isScanningRef s) (detectedObjectsRef s)
    (performanceModeRef s) (timers s) v (calls s) (nextCall s)
    (objectsEpoch s).

Definition put_calls (v : gmap nat (Closure * InFlight)) (s : State) : State :=
  mkState (isScanning s) (isProcessing s) (detectedObjects s) (latency s)
    (inferenceFps s) (errorCount s) (systemMessage s) (performanceMode s)
    (isMountedRef s) (timeoutRef s) (lastDetectionTimeRef s) (frameCountRef s)
    (lastFpsUpdateRef s) (isScanningRef s) (detectedObjectsRef s)
    (performanceModeRef s) (timers s) (nextTimer s) v (nextCall s)
    (objectsEpoch s).

Definition put_nextCall (v : nat) (s : State) : State :=
  mkState (isScanning s) (isProcessing s) (detectedObjects s) (latency s)
    (inferenceFps s) (errorCount s) (systemMessage s) (performanceMode s)
    (isMountedRef s) (timeoutRef s) (lastDetectionTimeRef s) (frameCountRef s)
    (lastFpsUpdateRef s) (isScanningRef s) (detectedObjectsRef s)
    (performanceModeRef s) (timers s) (nextTimer s) (calls s) v
    (objectsEpoch s).

Definition put_objectsEpoch (v : nat) (s : State) : State :=
  mkState (isScanning s) (isProcessing s) (detectedObjects s) (latency s)
    (inferenceFps s) (errorCount s) (systemMessage s) (performanceMode s)
    (isMountedRef s) (timeoutRef s) (lastDetectionTimeRef s) (frameCountRef s)
    (lastFpsUpdateRef s) (isScanningRef s) (detectedObjectsRef s)
    (performanceModeRef s) (timers s) (nextTimer s) (calls s) (nextCall s) v.

Definition put_detectedObjects (v : list DetectedObject) (s : State) : State :=
  mkState (isScanning s) (isProcessing s) v (latency s) (inferenceFps s)
    (errorCount s) (systemMessage s) (performanceMode s) (isMountedRef s)
    (timeoutRef s) (lastDetectionTimeRef s) (frameCountRef s)
    (lastFpsUpdateRef s) (isScanningRef s) (detectedObjectsRef s)
    (performanceModeRef s) (timers s) (nextTimer s) (calls s) (nextCall s)
    (objectsEpoch s).

Definition setDetectedObjects (v : list DetectedObject) (s : State) : State :=
  put_objectsEpoch (S (objectsEpoch s)) (put_detectedObjects v s).

(** [setTimeout(cb, delay)]: returns the new timer's id (ids are positive,
    so a stored id is truthy). *)
Definition setTimeout (cb : TimerCb) (delay : Z) (s : State) : nat * State :=
  let id := nextTimer s in
  (id, put_nextTimer (S id) (put_timers (<[id := (delay, cb)]> (timers s)) s)).

Definition clearTimeout (id : nat) (s : State) : State :=
  put_timers (delete id (timers s)) s.

(** The state of a freshly mounted component, effects run; [now] is the
    [Date.now()] of the mount. *)
Definition mount (now : Z) : State :=
  mkState false false [] 0 0 0 None speed
          true None 0 0 now false [] speed
          ∅ 1 ∅ 0 0.

(** What a render of the component in state [s] closes over. *)
Definition render (s : State) : Closure :=
  mkClosure (isScanning s) (errorCount s) (latency s).

(** *** Effects (LiveStream.tsx 39-59)

    [commit now old s] runs, after the render that follows a handler which
    took the component from [old] to [s], the effects whose dependency
    changed. *)

Definition effect_isScanning (old s : State) : State :=
  if Bool.eqb (isScanning old) (isScanning s) then s else
  let s := put_isScanningRef (isScanning s) s in
  if negb (isScanning s) then
    setInferenceFps 0 (setLatency 0 (setIsProcessing false
      (setErrorCount 0 (setSystemMessage None s))))
  else s.

Definition effect_detectedObjects (now : Z) (old s : State) : State :=
  if Nat.eqb (objectsEpoch old) (objectsEpoch s) then s else
  let s := put_detectedObjectsRef (detectedObjects s) s in
  if (0 <? length (detectedObjects s))%nat
  then put_lastDetectionTimeRef now s else s.

Definition effect_performanceMode (old s : State) : State :=
  if Mode_eqb (performanceMode old) (performanceMode s) then s else
  put_performanceModeRef (performanceMode s) s.

Definition commit (now : Z) (old s : State) : State :=
  effect_performanceMode old
    (effect_detectedObjects now old (effect_isScanning old s)).

(** *** Adaptive polling (the [finally] block, lines 153-160)

    [latency] and [errorCount] are the variables as the source names them:
    the values the running closure holds. *)
Definition nextDelay (currentMode : Mode) (latency errorCount : Z) : Z :=
  let delay := match currentMode with speed => 30 | accuracy => 100 end in
  let delay := if latency >? 1000 then 200 else delay in
  let delay := if errorCount >? 0 then Z.min (500 * errorCount) 3000 else delay in
  delay.

(** *** [runAnalysisLoop] (lines 76-167) *)

(** What the loop finds when it runs: whether the webcam video is ready,
    whether [getScreenshot] returned an image, and [performance.now()]. *)
Record Env := mkEnv {
  webcamReady : bool;
  screenshot : bool;
  perfNow : Q
}.

(** Which promise of [Promise.race] settles first: the API call (which always
    fulfils) or the six-second timer (which rejects). *)
Inductive Attempt :=
| Answered (r : ApiResponse)
| TimedOut.

Definition race (a : Attempt) : Completion (list DetectedObject) :=
  match a with
  | Answered r => Return (analyzeVideoFrameWithGemini r)
  | TimedOut => Throw
  end.

(** The [finally] block (lines 149-166). *)
Definition runAnalysisLoop_finally (c : Closure) (s : State) : State :=
  if isMountedRef s then
    let s := setIsProcessing false s in
    let currentMode := performanceModeRef s in
    let delay := nextDelay currentMode (c_latency c) (c_errorCount c) in
    if isScanningRef s then
      let '(id, s) := setTimeout (CbLoop c) delay s in
      put_timeoutRef (Some id) s
    else s
  else s.

(** From the entry of [runAnalysisLoop] to its [await] (lines 77-106): the
    call either ends here or is suspended with its locals. *)
Definition runAnalysisLoop_begin (c : Closure) (env : Env) (s : State)
  : State * option InFlight :=
  if negb (isScanningRef s) || negb (isMountedRef s) then (s, None)
  else if negb (webcamReady env) then
    let '(id, s) := setTimeout (CbLoop c) 200 s in
    (put_timeoutRef (Some id) s, None)
  else
    let s := setIsProcessing true s in
    let currentMode := performanceModeRef s in
    let captureWidth := if Mode_eqb currentMode speed then 320 else 640 in
    let quality := if Mode_eqb currentMode speed then 5 # 10 else 6 # 10 in
    if screenshot env
    then (s, Some (mkInFlight (perfNow env) currentMode captureWidth quality))
    else (runAnalysisLoop_finally c s, None).

(** After the [await], when the race fulfilled with [objects]
    (lines 108-136). *)
Definition runAnalysisLoop_fulfilled (c : Closure) (fl : InFlight)
    (objects : list DetectedObject) (endTime : Q) (now : Z) (s : State) : State :=
  if isMountedRef s && isScanningRef s then
    let s := if (0 <? length objects)%nat || (c_errorCount c >? 0)
             then setDetectedObjects objects s else s in
    let currentLatency := JS.Math_round (endTime - startTime fl) in
    let s := setLatency currentLatency s in
    let s := setErrorCount 0 s in
    let s := setSystemMessage None s in
    let s := put_frameCountRef (frameCountRef s + 1) s in
    let s := if (now - lastFpsUpdateRef s >? 1000)
             then put_lastFpsUpdateRef now
                    (put_frameCountRef 0 (setInferenceFps (frameCountRef s) s))
             else s in
    if (currentLatency >? 2500) && Mode_eqb (currentMode fl) accuracy then
      let s := setPerformanceMode speed s in
      let s := setSystemMessage (Some "Network slow. Switched to Turbo Mode."%string) s in
      snd (setTimeout CbClearMessage 3000 s)
    else s
  else s.

(** The [catch] block (lines 138-148). *)
Definition runAnalysisLoop_rejected (c : Closure) (s : State) : State :=
  if isMountedRef s && isScanningRef s then
    let s := setErrorCount (errorCount s + 1) s in
    if (c_errorCount c >? 4)
    then setSystemMessage (Some "Connection unstable. Retrying..."%string) s
    else s
  else s.

(** From the [await] to the end of the call. *)
Definition runAnalysisLoop_resume (c : Closure) (fl : InFlight) (a : Attempt)
    (endTime : Q) (now : Z) (s : State) : State :=
  runAnalysisLoop_finally c
    (match race a with
     | Return objects => runAnalysisLoop_fulfilled c fl objects endTime now s
     | Throw => runAnalysisLoop_rejected c s
     end).

(** *** [toggleScanning] (lines 169-184), of the render [c] *)
Definition toggleScanning (c : Closure) (now : Z) (s : State) : State :=
  if c_isScanning c then
    let s := setIsScanning false s in
    let s := setDetectedObjects [] s in
    match timeoutRef s with
    | Some id => clearTimeout id s
    | None => s
    end
  else
    let s := setIsScanning true s in
    let s := setErrorCount 0 s in
    let s := setSystemMessage None s in
    let s := setLatency 0 s in
    let s := setInferenceFps 0 s in
    let s := put_frameCountRef 0 s in
    let s := put_lastFpsUpdateRef now s in
    snd (setTimeout (CbLoop c) 100 s).

(** *** The component as a state machine

    Everything that can happen to a mounted component, one event-loop task
    at a time.  The state updates a handler makes are batched; the render
    that applies them and the effects of that render run before the next
    event is handled ([step]). *)
Inductive Event :=
| Click (now : Z)                                  (* the Start/Stop button *)
| ToggleMode                                       (* the mode button *)
| CameraDenied                                     (* [onUserMediaError] *)
| TimerFires (id : nat) (env : Env)                (* a pending timer is due *)
| Settles (call : nat) (a : Attempt) (endTime : Q) (now : Z).
                                                   (* a suspended call resumes *)

Definition timerFires (id : nat) (env : Env) (s : State) : State :=
  match timers s !! id with
  | None => s
  | Some (_, cb) =>
      let s := put_timers (delete id (timers s)) s in
      match cb with
      | CbClearMessage => setSystemMessage None s
      | CbLoop c =>
          match runAnalysisLoop_begin c env s with
          | (s, None) => s
          | (s, Some fl) =>
              put_nextCall (S (nextCall s))
                (put_calls (<[nextCall s := (c, fl)]> (calls s)) s)
          end
      end
  end.

Definition settles (call : nat) (a : Attempt) (endTime : Q) (now : Z)
    (s : State) : State :=
  match calls s !! call with
  | None => s
  | Some (c, fl) =>
      runAnalysisLoop_resume c fl a endTime now (put_calls (delete call (calls s)) s)
  end.

Definition handle (e : Event) (s : State) : State :=
  match e with
  | Click now => toggleScanning (render s) now s
  | ToggleMode =>
      setPerformanceMode
        (match performanceMode s with speed => accuracy | accuracy => speed end) s
  | CameraDenied => setSystemMessage (Some "Camera Access Denied"%string) s
  | TimerFires id env => timerFires id env s
  | Settles call a endTime now => settles call a endTime now s
  end.

(** [Date.now()] as the effects of the event's render read it; only a click
    and a resumed call can set the detections and so trigger the effect that
    reads the clock. *)
Definition event_now (e : Event) (s : State) : Z :=
  match e with
  | Click now => now
  | Settles _ _ _ now => now
  | _ => lastDetectionTimeRef s
  end.

Definition step (s : State) (e : Event) : State :=
  commit (event_now e s) s (handle e s).

Definition run (es : list Event) (s : State) : State := fold_left step es s.

(** ** Derived notions used to state the properties *)

Local Open Scope Q_scope.

(** The rectangle a stroke or fill command draws, and the chip a rounded
    rectangle command draws. *)
Definition rectOf (cmd : DrawCmd) : option Rect :=
  match cmd with
  | StrokeRect _ x y w h | FillRect _ x y w h => Some (mkRect x y w h)
  | _ => None
  end.

Definition chipOf (cmd : DrawCmd) : option Chip :=
  match cmd with
  | FillRoundRect _ x y w h _ => Some (mkChip x y w h)
  | _ => None
  end.

Definition chips (cmds : list DrawCmd) : list Chip :=
  omap chipOf cmds.

(** Every rectangle drawn has a width and a height of at least 0. *)
Definition rects_clamped (cmds : list DrawCmd) : bool :=
  forallb (fun cmd => match rectOf cmd with
                      | Some r => Qle_bool 0 (rw r) && Qle_bool 0 (rh r)
                      | None => true
                      end) cmds.

(** Every label chip ends at or before the canvas' right edge. *)
Definition chips_fit (width : Q) (cmds : list DrawCmd) : bool :=
  forallb (fun c => Qle_bool (chipX c + chipW c) width) (chips cmds).

(** Component-wise equality of a colour with [(r, g, b)]. *)
Definition rgb_is (c : Q * Q * Q) (r g b : Q) : Prop :=
  fst (fst c) == r /\ snd (fst c) == g /\ snd c == b.

(** *** Sample data *)

Definition car : DetectedObject :=
  mkObj "car" (92 # 100) (mkBox 100 100 400 600).

(** A box whose [xmax] is left of its [xmin]. *)
Definition flipped : DetectedObject :=
  mkObj "car" (92 # 100) (mkBox 100 600 400 100).

(** A narrow box touching the right edge of the frame. *)
Definition atRightEdge : DetectedObject :=
  mkObj "car" (92 # 100) (mkBox 100 990 200 1000).

(** A text measure giving every label a width of 50 pixels. *)
Definition measure50 (text : string) : Q := 50.

(** A tick of the loop that finds the webcam ready and gets an image. *)
Definition ready (t : Q) : Env := mkEnv true true t.

(** *** Notions for the live session *)

Local Open Scope Z_scope.

(** Events other than a press of the Start/Stop button. *)
Definition no_click (e : Event) : bool :=
  match e with
  | Click _ => false
  | _ => true
  end.

(** The session is stopped and shows no detections. *)
Definition stopped (s : State) : Prop :=
  isScanning s = false /\ isScanningRef s = false
  /\ detectedObjects s = [] /\ detectedObjectsRef s = [].

(** Every pending timer of the loop is the one recorded in [timeoutRef]. *)
Definition tracked (s : State) : Prop :=
  forall id d c, timers s !! id = Some (d, CbLoop c) -> timeoutRef s = Some id.

(** A live session: the component is mounted and scanning, the ref in step
    with the state. *)
Definition live (s : State) : Prop :=
  isMountedRef s = true /\ isScanning s = true /\ isScanningRef s = true.

(** The loop is armed again: [timeoutRef] names a pending timer that will
    run [runAnalysisLoop] of the closure [c]. *)
Definition rescheduled (c : Closure) (s : State) : Prop :=
  exists id d, timeoutRef s = Some id /\ timers s !! id = Some (d, CbLoop c).

(** A session started on a fresh mount whose first tick found the camera
    ready: one call is in flight. *)
Definition firstCallInFlight : State :=
  run [Click 0; TimerFires 1 (ready 100)] (mount 0).

(** Views of the component state, to say what a handler leaves alone. *)
Definition control (s : State) : bool * bool * bool :=
  (isScanning s, isScanningRef s, isMountedRef s).

Definition display (s : State) : list DetectedObject * nat :=
  (detectedObjects s, objectsEpoch s).

Definition counters (s : State) : Z * Z := (errorCount s, latency s).

Definition sched (s : State) : gmap nat (Z * TimerCb) * option nat
                               * gmap nat (Closure * InFlight) :=
  (timers s, timeoutRef s, calls s).

(** *** Sample sessions, from a fresh mount at time 0 *)

(** Start, then five ticks whose request times out after six seconds. *)
Definition fiveTimeouts : list Event :=
  [ Click 0;
    TimerFires 1 (ready 100);   Settles 0 TimedOut 6100%Q 6100;
    TimerFires 2 (ready 6130);  Settles 1 TimedOut 12130%Q 12130;
    TimerFires 3 (ready 12160); Settles 2 TimedOut 18160%Q 18160;
    TimerFires 4 (ready 18190); Settles 3 TimedOut 24190%Q 24190;
    TimerFires 5 (ready 24220); Settles 4 TimedOut 30220%Q 30220 ].

(** Start, a tick that detects a car, a tick that times out, and a third
    tick whose request is in flight. *)
Definition carThenTimeout : list Event :=
  [ Click 0;
    TimerFires 1 (ready 100);  Settles 0 (Answered (Json (Some [car]))) 400%Q 400;
    TimerFires 2 (ready 430);  Settles 1 TimedOut 6430%Q 6430;
    TimerFires 3 (ready 6460) ].

(** Start, then one tick that detects a car: the loop has rescheduled
    itself and waits. *)
Definition carThenWaiting : list Event :=
  [ Click 0;
    TimerFires 1 (ready 100);  Settles 0 (Answered (Json (Some [car]))) 400%Q 400 ].

(** The closure of the render in which Start was pressed on a fresh mount. *)
Definition startClosure : Closure := mkClosure false 0 0.

(** *** The closures a session runs on *)

(** A closure created by a render in which the streak and the latency were
    both 0. *)
Definition fresh (c : Closure) : Prop := c_errorCount c = 0 /\ c_latency c = 0.

(** The advisory of the [catch] block. *)
Definition advisory : string := "Connection unstable. Retrying...".

Definition fresh_timers (t : gmap nat (Z * TimerCb)) : Prop :=
  forall id d c, t !! id = Some (d, CbLoop c) -> fresh c /\ 0 <= d <= 200.

Definition fresh_calls (k : gmap nat (Closure * InFlight)) : Prop :=
  forall i c fl, k !! i = Some (c, fl) -> fresh c.

(** What holds of every state the component can reach from a mount. *)
Definition consistent (s : State) : Prop :=
  isMountedRef s = true
  /\ isScanningRef s = isScanning s
  /\ (isScanning s = false -> counters s = (0, 0))
  /\ fresh_timers (timers s)
  /\ fresh_calls (calls s)
  /\ systemMessage s <> Some advisory.

(** A session started in accuracy mode whose first request is in flight. *)
Definition accuracyCallInFlight : State :=
  run [ToggleMode; Click 0; TimerFires 1 (ready 100)] (mount 0).

(** Events other than a press of the mode button. *)
Definition no_mode_toggle (e : Event) : bool :=
  match e with
  | ToggleMode => false
  | _ => true
  end.

(** ** Beyond the overlay core: the rest of the cited components *)

Local Open Scope Q_scope.

(** The detections the live HUD does not skip (LiveStream.tsx 230). *)
Definition drawn (confidenceThreshold : Q) (objects : list DetectedObject)
  : list DetectedObject :=
  List.filter (fun obj => negb (JS.ltb (confidence obj) confidenceThreshold)) objects.








(** The hue a stroked rectangle is drawn with. *)
Definition strokeHue (cmd : DrawCmd) : option Z :=
  match cmd with
  | StrokeRect (Hsl h _ _) _ _ _ _ => Some h
  | _ => None
  end.

Definition strokeHues (cmds : list DrawCmd) : list Z := omap strokeHue cmds.

(** The hues of the first [n] indices. *)
Definition firstHues (n : nat) : list Z := map (fun i => hue (Z.of_nat i)) (seq 0 n).

(** A label chip starts on the canvas (left and top) and ends before its
    right edge. *)
Definition chip_on_canvas (W : Q) (c : Chip) : Prop :=
  0 <= chipX c /\ chipX c + chipW c <= W /\ 0 <= chipY c.

(** ** Heat-field blobs ([HeatmapLayer], the loop over [objects], lines 25-64) *)

Module HeatField.

(** What is painted for one object: a radial gradient centred on the box,
    of radius [gradientRadius], filled over a circle of radius [radiusX]
    that the transform squashes vertically by [scaleY]; [stops] are the
    alpha values of the gradient at offsets 0, 0.4 and 1. *)
Record Blob := mkBlob {
  centerX : Q;
  centerY : Q;
  radiusX : Q;
  radiusY : Q;
  gradientRadius : Q;
  scaleY : Q;
  intensity : Q;
  stops : list (Q * Q)
}.

Definition blob (obj : DetectedObject) (width height : Q) : Blob :=
  let b := box_2d obj in
  let boxLeft := (xmin b / 1000) * width in
  let boxTop := (ymin b / 1000) * height in
  let boxWidth := ((xmax b - xmin b) / 1000) * width in
  let boxHeight := ((ymax b - ymin b) / 1000) * height in
  let centerX := boxLeft + boxWidth / 2 in
  let centerY := boxTop + boxHeight / 2 in
  let radiusX := JS.Math_max (boxWidth / (15 # 10)) 20 in
  let radiusY := JS.Math_max (boxHeight / (15 # 10)) 20 in
  let intensity := JS.Math_min (confidence obj) (9 # 10) in
  mkBlob centerX centerY radiusX radiusY (JS.Math_max radiusX radiusY)
         (radiusY / radiusX) intensity
         [ (0, intensity); (4 # 10, intensity * (5 # 10)); (1, 0) ].

Definition blobs (objects : list DetectedObject) (width height : Q) : list Blob :=
  map (fun obj => blob obj width height) objects.

End HeatField.

(** The bytes a pixel array can hold. *)
Definition byte (z : Z) : Prop := (0 <= z <= 255)%Z.

(** The accumulated intensities the recolor pass colours (above the noise
    threshold), in increasing order. *)
Definition heatLevels : list Z := map (fun n => Z.of_nat n) (seq 11 245).

(** The colour the recolor pass gives to accumulated intensity [alpha]. *)
Definition heatColour (alpha : Z) : Heatmap.Pixel :=
  Heatmap.recolorPixel (Heatmap.mkPixel 0 0 0 alpha).

(** The largest colour byte is 255 and the smallest is 0. *)
Definition saturated (p : Heatmap.Pixel) : bool :=
  ((Z.max (Z.max (Heatmap.R p) (Heatmap.G p)) (Heatmap.B p) =? 255)
   && (Z.min (Z.min (Heatmap.R p) (Heatmap.G p)) (Heatmap.B p) =? 0))%Z.

(** If [a <= b], the colour of [b] is at least as red and at most as blue as
    the colour of [a]. *)
Definition warmer (a b : Z) : bool :=
  (negb (a <=? b)
   || ((Heatmap.R (heatColour a) <=? Heatmap.R (heatColour b))
       && (Heatmap.B (heatColour b) <=? Heatmap.B (heatColour a))))%Z.

(** ** Batch analysis ([geminiService.ts], [analyzeImageWithGemini]) *)

Local Open Scope string_scope.

Module Gemini.

Record AnalysisResult := mkResult {
  objects : list DetectedObject;
  summary : string;
  timestamp : string
}.

(** What comes back from the model for the batch request: the request
    rejects with an error, the response has no text, [JSON.parse] throws, or
    the text parses to an object with (possibly missing) [objects] and
    [summary]. *)
Inductive Response :=
| RequestRejects (message : string)
| TextMissing
| JsonUnparsable (message : string)
| JsonParsed (objects : option (list DetectedObject)) (summary : option string).

(** A settled promise. *)
Inductive Settled (A : Type) :=
| Fulfilled (a : A)
| Rejected (message : string).
Arguments Fulfilled {A} a.
Arguments Rejected {A} message.

(** [data.summary || "Analysis completed."]: a missing or empty summary is
    replaced. *)
Definition summaryOrDefault (s : option string) : string :=
  match s with
  | Some EmptyString | None => "Analysis completed."
  | Some s => s
  end.

(** [analyzeImageWithGemini] (lines 59-99): every failure is logged and
    thrown again; [now] is [new Date().toISOString()]. *)
Definition analyzeImageWithGemini (r : Response) (now : string)
  : Settled AnalysisResult :=
  match r with
  | RequestRejects message => Rejected message
  | TextMissing => Rejected "No response from AI"
  | JsonUnparsable message => Rejected message
  | JsonParsed objects summary =>
      Fulfilled (mkResult (match objects with Some l => l | None => [] end)
                          (summaryOrDefault summary) now)
  end.

(** *** One reply of the model, as each of the two requests reads it *)

(** What [ai.models.generateContent] gives a request: it rejects, or it
    resolves to a response whose [text] is [undefined] or a string. *)
Inductive Reply :=
| RequestFails (message : string)
| Replied (text : option string).

(** [!text]: the text is [undefined] or empty. *)
Definition falsy (text : option string) : bool :=
  match text with
  | None | Some EmptyString => true
  | Some _ => false
  end.

(** What [JSON.parse] and the reads of [data.objects] and [data.summary]
    make of a text: one of them throws (a [SyntaxError], or a [TypeError]
    when the text is [null]), or they give the two members, each possibly
    missing. *)
Inductive Parse :=
| ParseThrows (message : string)
| Parsed (objects : option (list DetectedObject)) (summary : option string).

(** [s.startsWith(pat)]. *)
Fixpoint startsWith (pat s : string) : bool :=
  match pat, s with
  | EmptyString, _ => true
  | String _ _, EmptyString => false
  | String a pat, String b s => Ascii.eqb a b && startsWith pat s
  end.

(** [s.replace(/pat/g, '')] for a non-empty pattern of plain characters: every
    match, found from left to right, is dropped; [skip] counts the
    characters of the current match still to drop. *)
Fixpoint removeAllFrom (pat : string) (skip : nat) (s : string) : string :=
  match s with
  | EmptyString => EmptyString
  | String ch rest =>
      match skip with
      | S k => removeAllFrom pat k rest
      | O =>
          if startsWith pat s
          then removeAllFrom pat (String.length pat - 1) rest
          else String ch (removeAllFrom pat 0 rest)
      end
  end.

Definition removeAll (pat : string) (s : string) : string := removeAllFrom pat 0 s.

(** The text has no backtick. *)
Fixpoint fenceFree (s : string) : bool :=
  match s with
  | EmptyString => true
  | String ch rest => negb (Ascii.eqb ch "`") && fenceFree rest
  end.

Section Replies.

(** [JSON.parse] with the reads that follow it, and [String.prototype.trim]. *)
Variable JSON_parse : string -> Parse.
Variable trim : string -> string.

(** The reply as [analyzeImageWithGemini] reads it (lines 85-88): the text
    is parsed as it is. *)
Definition batchResponse (r : Reply) : Response :=
  match r with
  | RequestFails message => RequestRejects message
  | Replied text =>
      match text with
      | None | Some EmptyString => TextMissing
      | Some text =>
          match JSON_parse text with
          | ParseThrows message => JsonUnparsable message
          | Parsed objects summary => JsonParsed objects summary
          end
      end
  end.

(** Line 136: the code fences are removed and the text trimmed. *)
Definition sanitize (text : string) : string :=
  trim (removeAll "```" (removeAll "```json" text)).

(** The reply as [analyzeVideoFrameWithGemini] reads it (lines 131-139):
    the text is sanitized, then parsed. *)
Definition liveResponse (r : Reply) : ApiResponse :=
  match r with
  | RequestFails _ => TransportError
  | Replied text =>
      match text with
      | None | Some EmptyString => NoText
      | Some text =>
          match JSON_parse (sanitize text) with
          | ParseThrows _ => MalformedJson
          | Parsed objects _ => Json objects
          end
      end
  end.

End Replies.

End Gemini.

(** ** The [AnalysisTool] component and the task archive of [App] *)

Module AnalysisTool.

Inductive MediaType := image | video.
Inductive ViewMode := boxes | heatmap.
Inductive Status := PENDING | PROCESSING | COMPLETED | FAILED.

(** A value of the [summary] object: a number, or, for a label that names a
    member of [Object.prototype], the text of that member followed by
    [ones] characters ["1"] (what [member + 1] gives, again and again). *)
Inductive Count :=
| Num (n : Z)
| MemberText (ones : nat).

(** [AnalysisTask] ([types.ts]); dates are milliseconds since the epoch. *)
Record AnalysisTask := mkTask {
  id : string;
  file_name : string;
  file_type : MediaType;
  imageUrl : string;
  status : Status;
  progress : Z;
  task_result : option Gemini.AnalysisResult;
  detections_summary : option (gmap string Count);
  processing_time : option Q;
  createdAt : Z;
  completedAt : option Z
}.

(** Callbacks handed to [setTimeout]. *)
Inductive Callback :=
| HideSuccess.                (* [() => setShowSuccess(false)] *)

(** The state cells of [AnalysisTool] that [handleAnalyze], [handleReset]
    and [drawAnnotations] read or write, the [tasks] cell of [App] that
    [onTaskCreate] updates, and the pending timers. *)
Record World := mkWorld {
  selectedImage : option string;
  capturedImage : option string;
  mediaType : MediaType;
  fileName : string;
  isProcessing : bool;
  result : option Gemini.AnalysisResult;
  error : option string;
  viewMode : ViewMode;
  confidenceFilter : Q;
  showSuccess : bool;
  tasks : list AnalysisTask;
  timers : list (Z * Callback)
}.


Definition setCapturedImage (v : option string) (w : World) : World :=
  mkWorld (selectedImage w) v (mediaType w) (fileName w) (isProcessing w)
    (result w) (error w) (viewMode w) (confidenceFilter w) (showSuccess w)
    (tasks w) (timers w).

Definition setIsProcessing (v : bool) (w : World) : World :=
  mkWorld (selectedImage w) (capturedImage w) (mediaType w) (fileName w) v
    (result w) (error w) (viewMode w) (confidenceFilter w) (showSuccess w)
    (tasks w) (timers w).

Definition setResult (v : option Gemini.AnalysisResult) (w : World) : World :=
  mkWorld (selectedImage w) (capturedImage w) (mediaType w) (fileName w)
    (isProcessing w) v (error w) (viewMode w) (confidenceFilter w)
    (showSuccess w) (tasks w) (timers w).

Definition setError (v : option string) (w : World) : World :=
  mkWorld (selectedImage w) (capturedImage w) (mediaType w) (fileName w)
    (isProcessing w) (result w) v (viewMode w) (confidenceFilter w)
    (showSuccess w) (tasks w) (timers w).


Definition setShowSuccess (v : bool) (w : World) : World :=
  mkWorld (selectedImage w) (capturedImage w) (mediaType w) (fileName w)
    (isProcessing w) (result w) (error w) (viewMode w) (confidenceFilter w) v
    (tasks w) (timers w).

Definition setTasks (v : list AnalysisTask) (w : World) : World :=
  mkWorld (selectedImage w) (capturedImage w) (mediaType w) (fileName w)
    (isProcessing w) (result w) (error w) (viewMode w) (confidenceFilter w)
    (showSuccess w) v (timers w).

Definition put_timers (v : list (Z * Callback)) (w : World) : World :=
  mkWorld (selectedImage w) (capturedImage w) (mediaType w) (fileName w)
    (isProcessing w) (result w) (error w) (viewMode w) (confidenceFilter w)
    (showSuccess w) (tasks w) v.

(** [handleTaskCreate] of [App]: the new task goes first. *)
Definition handleTaskCreate (task : AnalysisTask) (w : World) : World :=
  setTasks (task :: tasks w) w.

Definition setTimeout (cb : Callback) (delay : Z) (w : World) : World :=
  put_timers (timers w ++ [(delay, cb)]) w.

(** The names [Object.prototype] defines, which an object literal answers
    to without having them as keys. *)
Definition objectPrototypeKeys : list string :=
  [ "constructor"; "__defineGetter__"; "__defineSetter__"; "hasOwnProperty";
    "__lookupGetter__"; "__lookupSetter__"; "isPrototypeOf";
    "propertyIsEnumerable"; "toString"; "valueOf"; "__proto__";
    "toLocaleString" ].

(** The label counts of [handleAnalyze] (lines 148-151):
    [summary[obj.label] = (summary[obj.label] || 0) + 1].  Reading a label
    that is not a key yet finds the inherited member when the label names
    one; assigning to [__proto__] a value that is not an object changes
    nothing. *)
Definition countLabel (summary : gmap string Count) (obj : DetectedObject)
  : gmap string Count :=
  let l := label obj in
  match summary !! l with
  | Some (Num n) => <[l := Num (n + 1)]> summary
  | Some (MemberText ones) => <[l := MemberText (S ones)]> summary
  | None =>
      if decide (l = "__proto__") then summary
      else if decide (l ∈ objectPrototypeKeys) then <[l := MemberText 1]> summary
      else <[l := Num 1]> summary
  end.

Definition summarize (objects : list DetectedObject) : gmap string Count :=
  fold_left countLabel objects ∅.

(** How many of the objects carry the label [l]. *)
Definition labelCount (l : string) (objects : list DetectedObject) : Z :=
  Z.of_nat (length (List.filter (fun obj => String.eqb (label obj) l) objects)).

(** The sum of the numbers of a summary. *)
Definition total (summary : gmap string Count) : Z :=
  map_fold (fun _ v acc => (match v with Num n => n | MemberText _ => 0 end + acc)%Z)
           0%Z summary.

(** How grabbing the current video frame goes (lines 111-126). *)
Inductive FrameGrab :=
| NoVideoElement              (* [videoRef.current] is null *)
| GrabThrows                  (* drawing or encoding throws *)
| NoContext                   (* [getContext('2d')] is null *)
| Grabbed (dataUrl : string).

(** A call of [handleAnalyze] suspended at its [await]: its locals. *)
Record Pending := mkPending {
  startTime : Q;
  imagePayload : string;
  pendingTask : AnalysisTask
}.

(** [handleAnalyze] up to its [await] (lines 101-143); [taskId] is the
    [crypto.randomUUID()] drawn, [now] the [new Date()]. *)
Definition handleAnalyze_begin (grab : FrameGrab) (taskId : string)
    (perfNow : Q) (now : Z) (w : World) : World * option Pending :=
  match selectedImage w with
  | None => (w, None)
  | Some selected =>
      let w := setIsProcessing true w in
      let w := setError None w in
      let w := setShowSuccess false w in
      let payload : Completion string :=
        match mediaType w, grab with
        | video, GrabThrows => Throw
        | video, Grabbed dataUrl => Return dataUrl
        | _, _ => Return selected
        end in
      match payload with
      | Throw =>
          let w := setError (Some "Failed to capture video frame.") w in
          (setIsProcessing false w, None)
      | Return imagePayload =>
          (w, Some (mkPending perfNow imagePayload
                      (mkTask taskId (fileName w) (mediaType w) imagePayload
                              PROCESSING 0 None None None now None)))
      end
  end.

(** [handleAnalyze] from its [await] on (lines 144-177). *)
Definition handleAnalyze_resume (p : Pending)
    (outcome : Gemini.Settled Gemini.AnalysisResult) (endTime : Q) (now : Z)
    (w : World) : World :=
  let t := pendingTask p in
  let w :=
    match outcome with
    | Gemini.Fulfilled analysisResult =>
        let processingTime := ((endTime - startTime p) / 1000)%Q in
        let w := setResult (Some analysisResult) w in
        let w := setCapturedImage (Some (imagePayload p)) w in
        let summary := summarize (Gemini.objects analysisResult) in
        let completedTask :=
          mkTask (id t) (file_name t) (file_type t) (imageUrl t)
                 COMPLETED 100 (Some analysisResult) (Some summary)
                 (Some processingTime) (createdAt t) (Some now) in
        let w := handleTaskCreate completedTask w in
        let w := setShowSuccess true w in
        setTimeout HideSuccess 4000 w
    | Gemini.Rejected message =>
        let w := setError (Some ("Analysis failed. " ++ message)) w in
        let failedTask :=
          mkTask (id t) (file_name t) (file_type t) (imageUrl t)
                 FAILED (progress t) (task_result t) (detections_summary t)
                 (processing_time t) (createdAt t) (Some now) in
        handleTaskCreate failedTask w
    end in
  setIsProcessing false w.

(** One whole analysis: the click, the request, its outcome. *)
Definition analyze (grab : FrameGrab) (taskId : string) (perfNow : Q) (now : Z)
    (response : Gemini.Response) (timestamp : string) (endTime : Q) (later : Z)
    (w : World) : World :=
  match handleAnalyze_begin grab taskId perfNow now w with
  | (w, None) => w
  | (w, Some p) =>
      handleAnalyze_resume p (Gemini.analyzeImageWithGemini response timestamp)
                           endTime later w
  end.



(** The simulated upload progress of [handleFileChange] (lines 58-63): one
    tick of the interval, with [random] the [Math.random()] drawn; and the
    value shown. *)
Definition progressTick (progress random : Q) : Q :=
  let progress := (progress + random * 12)%Q in
  if JS.gtb progress 90 then 90%Q else progress.

Definition shownProgress (progress : Q) : Z := JS.Math_round progress.

Definition progressAfter (randoms : list Q) : Q := fold_left progressTick randoms 0%Q.

End AnalysisTool.

Local Close Scope string_scope.

(** The number held under a label, 0 when there is none. *)
Definition numOf (v : option AnalysisTool.Count) : Z :=
  match v with
  | Some (AnalysisTool.Num n) => n
  | _ => 0%Z
  end.

(** Every value of the summary is a number. *)
Definition allNumbers (summary : gmap string AnalysisTool.Count) : Prop :=
  forall l v, summary !! l = Some v -> exists n, v = AnalysisTool.Num n.

(** No object carries a label that names a member of [Object.prototype]. *)
Definition plainLabels (objects : list DetectedObject) : Prop :=
  Forall (fun obj => label obj ∉ AnalysisTool.objectPrototypeKeys) objects.

(** The image [handleAnalyze] sends: the grabbed frame for a video when the
    grab succeeds, the selected image otherwise. *)
Definition payloadOf (media : AnalysisTool.MediaType)
    (grab : AnalysisTool.FrameGrab) (selected : string) : string :=
  match media, grab with
  | AnalysisTool.video, AnalysisTool.Grabbed dataUrl => dataUrl
  | _, _ => selected
  end.

(** The frame grab of [handleAnalyze] throws. *)
Definition grabFails (media : AnalysisTool.MediaType)
    (grab : AnalysisTool.FrameGrab) : bool :=
  match media, grab with
  | AnalysisTool.video, AnalysisTool.GrabThrows => true
  | _, _ => false
  end.

(** ** Pagination of the task archive ([TaskHistory], "Pagination Logic") *)

Module TaskHistory.

Local Open Scope Z_scope.

Definition itemsPerPage : Z := 10.

(** [Array.prototype.slice(start, end)] on integer arguments: a negative
    index counts from the end, indices are clamped to the array. *)
Definition slice {A : Type} (l : list A) (start stop : Z) : list A :=
  let len := Z.of_nat (length l) in
  let k := if start <? 0 then Z.max (len + start) 0 else Z.min start len in
  let final := if stop <? 0 then Z.max (len + stop) 0 else Z.min stop len in
  firstn (Z.to_nat (final - k)) (skipn (Z.to_nat k) l).

(** [Math.ceil(filteredAndSortedTasks.length / itemsPerPage)]. *)
Definition totalPages {A : Type} (l : list A) : Z :=
  Qceiling (inject_Z (Z.of_nat (length l)) / inject_Z itemsPerPage).

Definition currentTasks {A : Type} (l : list A) (currentPage : Z) : list A :=
  slice l ((currentPage - 1) * itemsPerPage) (currentPage * itemsPerPage).

(** The two page buttons. *)
Definition previousPage (p : Z) : Z := Z.max 1 (p - 1).
Definition nextPage {A : Type} (l : list A) (p : Z) : Z := Z.min (totalPages l) (p + 1).

(** The pages from 1 to [totalPages], in order. *)
Definition allPages {A : Type} (l : list A) : list (list A) :=
  map (fun p => currentTasks l (Z.of_nat p)) (seq 1 (Z.to_nat (totalPages l))).

End TaskHistory.

(** * Properties *)

(** ** Helper facts on the JavaScript primitives *)

Local Open Scope Q_scope.

Lemma ltb_true (a b : Q) : JS.ltb a b = true <-> a < b.
Proof.
  unfold JS.ltb. rewrite Bool.negb_true_iff.
  split; intro H.
  - apply Qnot_le_lt. intro L. apply Qle_bool_iff in L. congruence.
  - destruct (Qle_bool b a) eqn:E; [|reflexivity].
    apply Qle_bool_iff in E. exfalso. exact (Qlt_not_le _ _ H E).
Qed.

Lemma ltb_false (a b : Q) : JS.ltb a b = false <-> b <= a.
Proof.
  unfold JS.ltb. rewrite Bool.negb_false_iff. apply Qle_bool_iff.
Qed.

Lemma div_by_const (x : Q) (n : positive) : x / (Zpos n # 1) == x * (1 # n).
Proof. unfold Qdiv. reflexivity. Qed.

Lemma Math_max_0_nonneg (v : Q) : 0 <= v -> JS.Math_max 0 v == v.
Proof.
  intro H. unfold JS.Math_max. destruct (JS.ltb 0 v) eqn:E; [reflexivity|].
  apply ltb_false in E. lra.
Qed.

Lemma Math_max_0_nonpos (v : Q) : v <= 0 -> JS.Math_max 0 v == 0.
Proof.
  intro H. unfold JS.Math_max. destruct (JS.ltb 0 v) eqn:E; [|reflexivity].
  apply ltb_true in E. lra.
Qed.

(** The number the fader clamps: [1 - elapsed / 1500]. *)
Lemma fade_value (t : Z) :
  1 - inject_Z t / 1500 == 1 - inject_Z t * (1 # 1500).
Proof. rewrite (div_by_const _ 1500). reflexivity. Qed.

Lemma opacity_unfold (now lastAt : Z) :
  opacity now lastAt
  == JS.Math_max 0 (1 - inject_Z (now - lastAt) * (1 # 1500)).
Proof.
  unfold opacity. cbv zeta.
  unfold JS.Math_max.
  destruct (JS.ltb 0 (1 - inject_Z (now - lastAt) / 1500)) eqn:E1;
  destruct (JS.ltb 0 (1 - inject_Z (now - lastAt) * (1 # 1500))) eqn:E2;
    try reflexivity; try apply fade_value.
  - apply ltb_true in E1. apply ltb_false in E2. rewrite fade_value in E1. lra.
  - apply ltb_false in E1. apply ltb_true in E2. rewrite fade_value in E1. lra.
Qed.

Lemma opacity_early (now lastAt : Z) :
  (now - lastAt <= 1500)%Z ->
  opacity now lastAt == 1 - inject_Z (now - lastAt) * (1 # 1500).
Proof.
  intro H. rewrite opacity_unfold. apply Math_max_0_nonneg.
  rewrite Zle_Qle in H. change (inject_Z 1500) with 1500 in H. lra.
Qed.

Lemma opacity_late (now lastAt : Z) :
  (1500 <= now - lastAt)%Z -> opacity now lastAt == 0.
Proof.
  intro H. rewrite opacity_unfold. apply Math_max_0_nonpos.
  rewrite Zle_Qle in H. change (inject_Z 1500) with 1500 in H. lra.
Qed.

(** ** C6: the stale-detection fader *)

(** C6. For [now >= lastDetectionAt] the opacity computed by [draw] equals
    the contract [clamp(1 - (now - lastDetectionAt)/1500, 0, 1)]; it is 1 when
    [now = lastDetectionAt], 0 once 1500 ms or more have elapsed, never
    increases as time passes, and strictly decreases inside the grace
    window. *)
Theorem opacity_fade (now lastDetectionAt : Z) :
  (lastDetectionAt <= now)%Z ->
  opacity now lastDetectionAt == opacity_contract now lastDetectionAt
  /\ opacity lastDetectionAt lastDetectionAt == 1
  /\ ((1500 <= now - lastDetectionAt)%Z -> opacity now lastDetectionAt == 0)
  /\ (forall later, (now <= later)%Z ->
        opacity later lastDetectionAt <= opacity now lastDetectionAt)
  /\ (forall later, (now < later)%Z -> (later - lastDetectionAt <= 1500)%Z ->
        opacity later lastDetectionAt < opacity now lastDetectionAt).
Proof.
  intro Hle.
  assert (Hq : 0 <= inject_Z (now - lastDetectionAt)).
  { change 0 with (inject_Z 0). rewrite <- Zle_Qle. lia. }
  repeat split.
  - unfold opacity_contract, clamp, GRACE_WINDOW.
    change (inject_Z 1500) with 1500.
    rewrite fade_value, opacity_unfold.
    destruct (Z_le_gt_dec (now - lastDetectionAt) 1500) as [L|G].
    + rewrite Zle_Qle in L. change (inject_Z 1500) with 1500 in L.
      rewrite Math_max_0_nonneg by lra.
      rewrite Q.max_r by lra. rewrite Q.min_r by lra. reflexivity.
    + assert (G' : (1500 <= now - lastDetectionAt)%Z) by lia.
      rewrite Zle_Qle in G'. change (inject_Z 1500) with 1500 in G'.
      rewrite Math_max_0_nonpos by lra.
      rewrite Q.max_l by lra. rewrite Q.min_r by lra. reflexivity.
  - rewrite opacity_early by lia. rewrite Z.sub_diag.
    change (inject_Z 0) with 0. lra.
  - apply opacity_late.
  - intros later Hl.
    assert (M : inject_Z (now - lastDetectionAt) <= inject_Z (later - lastDetectionAt)).
    { rewrite <- Zle_Qle. lia. }
    destruct (Z_le_gt_dec (later - lastDetectionAt) 1500) as [L|G].
    + rewrite (opacity_early later) by lia. rewrite (opacity_early now) by lia. lra.
    + rewrite (opacity_late later) by lia. rewrite opacity_unfold.
      unfold JS.Math_max. destruct (JS.ltb _ _) eqn:E; [apply ltb_true in E|]; lra.
  - intros later Hl Hw.
    assert (M : inject_Z (now - lastDetectionAt) < inject_Z (later - lastDetectionAt)).
    { rewrite <- Zlt_Qlt. lia. }
    rewrite (opacity_early later) by lia. rewrite (opacity_early now) by lia. lra.
Qed.

Lemma opacity_fade_witness :
  opacity 1750 1000 == opacity_contract 1750 1000
  /\ opacity 1000 1000 == 1
  /\ ((1500 <= 1750 - 1000)%Z -> opacity 1750 1000 == 0)
  /\ (forall later, (1750 <= later)%Z -> opacity later 1000 <= opacity 1750 1000)
  /\ (forall later, (1750 < later)%Z -> (later - 1000 <= 1500)%Z ->
        opacity later 1000 < opacity 1750 1000).
Proof. apply (opacity_fade 1750 1000). lia. Defined.

(** ** C7: the geometry mapper keeps valid boxes inside the canvas *)

(** C7. For every box with [0 <= ymin <= ymax <= 1000] and
    [0 <= xmin <= xmax <= 1000] and every canvas of width [W >= 0] and height
    [H >= 0], the rectangle [x = (xmin/1000)*W], [y = (ymin/1000)*H],
    [w = ((xmax-xmin)/1000)*W], [h = ((ymax-ymin)/1000)*H] computed by both
    renderers satisfies [0 <= x], [0 <= y], [x + w <= W] and [y + h <= H]. *)
Theorem mapBox_within_canvas (b : Box) (W H : Q) :
  0 <= W -> 0 <= H ->
  0 <= ymin b -> ymin b <= ymax b -> ymax b <= 1000 ->
  0 <= xmin b -> xmin b <= xmax b -> xmax b <= 1000 ->
  let r := mapBox b W H in
  rx r == (xmin b / 1000) * W /\ ry r == (ymin b / 1000) * H
  /\ rw r == ((xmax b - xmin b) / 1000) * W
  /\ rh r == ((ymax b - ymin b) / 1000) * H
  /\ 0 <= rx r /\ 0 <= ry r /\ rx r + rw r <= W /\ ry r + rh r <= H.
Proof.
  intros HW HH Hy0 Hy1 Hy2 Hx0 Hx1 Hx2. cbv zeta. unfold mapBox. cbn [rx ry rw rh].
  repeat split; try reflexivity; rewrite ?(div_by_const _ 1000); nra.
Qed.

Lemma mapBox_within_canvas_witness :
  let r := mapBox (box_2d car) 1000 1000 in
  rx r == (100 / 1000) * 1000 /\ ry r == (100 / 1000) * 1000
  /\ rw r == ((600 - 100) / 1000) * 1000
  /\ rh r == ((400 - 100) / 1000) * 1000
  /\ 0 <= rx r /\ 0 <= ry r /\ rx r + rw r <= 1000 /\ ry r + rh r <= 1000.
Proof.
  apply (mapBox_within_canvas (box_2d car) 1000 1000);
    vm_compute; intro; discriminate.
Defined.

(** ** C8: boundaries of the heat ramp *)

(** C8. In the recolor pass the ramp maps [t = 0.25] to pure cyan
    [(0,255,255)], [t = 0.5] to pure green [(0,255,0)], [t = 0.75] to pure
    yellow [(255,255,0)] and [t = 1.0] to pure red [(255,0,0)], both as
    computed numbers and as stored bytes; a pixel of accumulated intensity
    255 (t = 1) is recoloured to red with alpha 180. *)
Theorem heat_ramp_boundaries :
  rgb_is (Heatmap.ramp (1 # 4)) 0 255 255
  /\ rgb_is (Heatmap.ramp (1 # 2)) 0 255 0
  /\ rgb_is (Heatmap.ramp (3 # 4)) 255 255 0
  /\ rgb_is (Heatmap.ramp 1) 255 0 0
  /\ Heatmap.stored (Heatmap.ramp (1 # 4)) = (0, 255, 255)%Z
  /\ Heatmap.stored (Heatmap.ramp (1 # 2)) = (0, 255, 0)%Z
  /\ Heatmap.stored (Heatmap.ramp (3 # 4)) = (255, 255, 0)%Z
  /\ Heatmap.stored (Heatmap.ramp 1) = (255, 0, 0)%Z
  /\ forall r g b,
       Heatmap.recolorPixel (Heatmap.mkPixel r g b 255)
       = Heatmap.mkPixel 255 0 0 180.
Proof.
  unfold rgb_is.
  repeat split; try (vm_compute; reflexivity).
Qed.

(** ** C10: the hue step is injective on the first 360 indices *)

Lemma hue_is_mod (i : Z) : (0 <= i)%Z -> hue i = ((i * 137) mod 360)%Z.
Proof. intro H. unfold hue. apply Z.rem_mod_nonneg; lia. Qed.

(** C10. For all indices [0 <= i < j < 360], [hue i <> hue j]: 137 is
    coprime to 360, so the first 360 detections of a frame get pairwise
    different hues. *)
Theorem hue_injective (i j : Z) :
  (0 <= i)%Z -> (i < j)%Z -> (j < 360)%Z -> hue i <> hue j.
Proof.
  intros Hi Hij Hj E.
  rewrite !hue_is_mod in E by lia.
  assert (D : (360 | 137 * (j - i))%Z).
  { apply Z.mod_divide; [lia|].
    replace (137 * (j - i))%Z with (j * 137 - i * 137)%Z by ring.
    rewrite Zminus_mod, E, Z.sub_diag. reflexivity. }
  apply Z.gauss in D; [|reflexivity].
  destruct D as [k Hk]. lia.
Qed.

Lemma hue_injective_witness : hue 0 <> hue 1.
Proof. apply (hue_injective 0 1); lia. Defined.

(** ** C4: boxes with non-monotonic coordinates *)

(** C4, counterexample.  Neither renderer clamps: on the box [flipped] both
    issue a rectangle of negative width. *)
Lemma renderers_do_not_clamp :
  rects_clamped
    (drawAnnotations measure50 true 1000 1000 1000 1000 [flipped]) = false
  /\ rects_clamped
       (draw measure50 true true 0 1000 1000 (4 # 10) true 1000 1000 [flipped])
     = false.
Proof. split; vm_compute; reflexivity. Qed.

(** C4 (amended). For a box with [xmax < xmin] or [ymax < ymin] on a canvas
    of positive width and height, the renderers do not clamp: the static
    annotator strokes and fills, and the live HUD fills, the rectangle with
    the width [((xmax-xmin)/1000)*W] and height [((ymax-ymin)/1000)*H] as
    computed, negative in each non-monotonic dimension; the drawing commands
    of the box are still issued. *)
Theorem malformed_box_drawn_unclamped
    (measureText : string -> Q) (obj : DetectedObject) (idx : nat)
    (W H threshold fade : Q) (showLabels : bool) :
  0 < W -> 0 < H ->
  xmax (box_2d obj) < xmin (box_2d obj) \/ ymax (box_2d obj) < ymin (box_2d obj) ->
  let r := mapBox (box_2d obj) W H in
  let h := hue (Z.of_nat idx) in
  (rw r < 0 \/ rh r < 0)
  /\ (xmax (box_2d obj) < xmin (box_2d obj) -> rw r < 0)
  /\ (ymax (box_2d obj) < ymin (box_2d obj) -> rh r < 0)
  /\ In (StrokeRect (Hsl h 80 50) (rx r) (ry r) (rw r) (rh r))
        (drawAnnotation measureText W H obj idx)
  /\ In (FillRect (Hsla h 80 50 (1 # 10)) (rx r) (ry r) (rw r) (rh r))
        (drawAnnotation measureText W H obj idx)
  /\ (JS.ltb (confidence obj) threshold = false ->
      In (FillRect (Hsla h 80 60 ((15 # 100) * fade)) (rx r) (ry r) (rw r) (rh r))
         (drawObject measureText threshold showLabels fade W H obj idx)).
Proof.
  intros HW HH Hbad. cbv zeta.
  assert (Hw : xmax (box_2d obj) < xmin (box_2d obj) ->
               rw (mapBox (box_2d obj) W H) < 0).
  { intro Hx. unfold mapBox. cbn [rw]. rewrite (div_by_const _ 1000). nra. }
  assert (Hh : ymax (box_2d obj) < ymin (box_2d obj) ->
               rh (mapBox (box_2d obj) W H) < 0).
  { intro Hy. unfold mapBox. cbn [rh]. rewrite (div_by_const _ 1000). nra. }
  split; [|split; [|split; [|split; [|split]]]].
  - destruct Hbad; [left|right]; auto.
  - exact Hw.
  - exact Hh.
  - unfold drawAnnotation. cbv zeta. left. reflexivity.
  - unfold drawAnnotation. cbv zeta. right. left. reflexivity.
  - intro Hc. unfold drawObject. rewrite Hc. cbv zeta.
    apply in_or_app. left. right. left. reflexivity.
Qed.

Lemma malformed_box_drawn_unclamped_witness :
  let r := mapBox (box_2d flipped) 1000 1000 in
  (rw r < 0 \/ rh r < 0)
  /\ (xmax (box_2d flipped) < xmin (box_2d flipped) -> rw r < 0)
  /\ (ymax (box_2d flipped) < ymin (box_2d flipped) -> rh r < 0)
  /\ In (StrokeRect (Hsl (hue 0) 80 50) (rx r) (ry r) (rw r) (rh r))
        (drawAnnotation measure50 1000 1000 flipped 0)
  /\ In (FillRect (Hsla (hue 0) 80 50 (1 # 10)) (rx r) (ry r) (rw r) (rh r))
        (drawAnnotation measure50 1000 1000 flipped 0)
  /\ (JS.ltb (confidence flipped) (4 # 10) = false ->
      In (FillRect (Hsla (hue 0) 80 60 ((15 # 100) * 1)) (rx r) (ry r) (rw r) (rh r))
         (drawObject measure50 (4 # 10) true 1 1000 1000 flipped 0)).
Proof.
  apply (malformed_box_drawn_unclamped measure50 flipped 0 1000 1000 (4 # 10) 1 true).
  - vm_compute. reflexivity.
  - vm_compute. reflexivity.
  - left. vm_compute. reflexivity.
Defined.

(** ** C9: placement of the label chip *)

(** The static annotator follows the placement rule: above the box, or at
    the box's top edge when that would leave the canvas; at the box's left
    edge, or flush with the canvas' right edge when the chip would pass it. *)
Lemma annotLabel_placement (measureText : string -> Q) (text : string)
    (x y width : Q) :
  let c := annotLabel measureText text x y width in
  let textWidth := measureText text + 6 * 2 in
  chipW c = textWidth /\ chipH c = 22
  /\ (0 <= y - 22 -> chipY c = y - 22)
  /\ (y - 22 < 0 -> chipY c = y)
  /\ (x + textWidth <= width -> chipX c = x)
  /\ (width < x + textWidth -> chipX c = width - textWidth)
  /\ chipX c + chipW c <= width.
Proof.
  cbv zeta. unfold annotLabel. cbv zeta. cbn [chipX chipY chipW chipH].
  repeat split.
  - intro H. destruct (JS.ltb (y - 22) 0) eqn:E; [|reflexivity].
    apply ltb_true in E. lra.
  - intro H. destruct (JS.ltb (y - 22) 0) eqn:E; [reflexivity|].
    apply ltb_false in E. lra.
  - intro H. unfold JS.gtb.
    destruct (JS.ltb width (x + (measureText text + 6 * 2))) eqn:E; [|reflexivity].
    apply ltb_true in E. lra.
  - intro H. unfold JS.gtb.
    destruct (JS.ltb width (x + (measureText text + 6 * 2))) eqn:E; [reflexivity|].
    apply ltb_false in E. lra.
  - unfold JS.gtb.
    destruct (JS.ltb width (x + (measureText text + 6 * 2))) eqn:E.
    + lra.
    + apply ltb_false in E. lra.
Qed.


(** C9, evaluated on the live HUD.  On a 1000 x 1000 canvas, for the box
    [atRightEdge] and a label 50 pixels wide, the static annotator shifts
    the chip so that it fits the canvas width, while [draw] leaves it at the
    box's left edge [x = 990], where its right edge (1052) is past the
    canvas. *)
Theorem hud_chip_clips_right_edge :
  chips_fit 1000
    (drawAnnotations measure50 true 1000 1000 1000 1000 [atRightEdge]) = true
  /\ chips_fit 1000
       (draw measure50 true true 0 1000 1000 (4 # 10) true 1000 1000 [atRightEdge])
     = false
  /\ Forall (fun c => chipX c == 990 /\ chipX c + chipW c == 1052)
       (chips (draw measure50 true true 0 1000 1000 (4 # 10) true 1000 1000
                    [atRightEdge])).
Proof.
  split; [vm_compute; reflexivity|].
  split; [vm_compute; reflexivity|].
  cbv. repeat constructor.
Qed.

(** ** The live session *)

Local Open Scope Z_scope.

Lemma eqb_succ_self (n : nat) : (n =? S n)%nat = false.
Proof. apply Nat.eqb_neq. lia. Qed.

(** *** What the effects change *)

Lemma effect_performanceMode_frame (old s : State) :
  let s' := effect_performanceMode old s in
  control s' = control s /\ display s' = display s
  /\ detectedObjectsRef s' = detectedObjectsRef s
  /\ counters s' = counters s /\ sched s' = sched s
  /\ systemMessage s' = systemMessage s.
Proof.
  cbv zeta. unfold effect_performanceMode.
  destruct (Mode_eqb _ _); repeat split; reflexivity.
Qed.

Lemma effect_detectedObjects_frame (now : Z) (old s : State) :
  let s' := effect_detectedObjects now old s in
  control s' = control s /\ display s' = display s
  /\ counters s' = counters s /\ sched s' = sched s
  /\ systemMessage s' = systemMessage s
  /\ performanceMode s' = performanceMode s
  /\ detectedObjectsRef s'
     = (if (objectsEpoch old =? objectsEpoch s)%nat
        then detectedObjectsRef s else detectedObjects s).
Proof.
  cbv zeta. unfold effect_detectedObjects.
  destruct (objectsEpoch old =? objectsEpoch s)%nat.
  - repeat split; reflexivity.
  - destruct (0 <? length (detectedObjects (put_detectedObjectsRef _ s)))%nat;
      repeat split; reflexivity.
Qed.

Lemma effect_isScanning_same (old s : State) :
  isScanning s = isScanning old -> effect_isScanning old s = s.
Proof.
  intro H. unfold effect_isScanning. rewrite H.
  destruct (isScanning old); reflexivity.
Qed.

(** A render that does not change [isScanning]: the effects touch only the
    mirrored refs. *)
Lemma commit_frame (now : Z) (old s : State) :
  isScanning s = isScanning old ->
  let s' := commit now old s in
  control s' = control s /\ display s' = display s
  /\ counters s' = counters s /\ sched s' = sched s
  /\ systemMessage s' = systemMessage s
  /\ detectedObjectsRef s'
     = (if (objectsEpoch old =? objectsEpoch s)%nat
        then detectedObjectsRef s else detectedObjects s).
Proof.
  intro H. cbv zeta. unfold commit. rewrite (effect_isScanning_same old s H).
  destruct (effect_performanceMode_frame old (effect_detectedObjects now old s))
    as (A1 & A2 & A3 & A4 & A5 & A6).
  destruct (effect_detectedObjects_frame now old s)
    as (B1 & B2 & B3 & B4 & B5 & B6 & B7).
  repeat split; congruence.
Qed.

(** *** What the loop does when the session is not scanning *)

Lemma runAnalysisLoop_finally_idle (c : Closure) (s : State) :
  isScanningRef s = false ->
  let s' := runAnalysisLoop_finally c s in
  control s' = control s /\ display s' = display s
  /\ detectedObjectsRef s' = detectedObjectsRef s
  /\ counters s' = counters s /\ sched s' = sched s.
Proof.
  intro H. cbv zeta. unfold runAnalysisLoop_finally.
  destruct (isMountedRef s); [|repeat split; reflexivity].
  cbv zeta.
  replace (isScanningRef (setIsProcessing false s)) with false by (symmetry; exact H).
  repeat split; reflexivity.
Qed.

Lemma runAnalysisLoop_begin_idle (c : Closure) (env : Env) (s : State) :
  isScanningRef s = false -> runAnalysisLoop_begin c env s = (s, None).
Proof. intro H. unfold runAnalysisLoop_begin. rewrite H. reflexivity. Qed.

Lemma runAnalysisLoop_fulfilled_idle (c : Closure) (fl : InFlight)
    (objects : list DetectedObject) (endTime : Q) (now : Z) (s : State) :
  isScanningRef s = false -> runAnalysisLoop_fulfilled c fl objects endTime now s = s.
Proof.
  intro H. unfold runAnalysisLoop_fulfilled. rewrite H, Bool.andb_false_r. reflexivity.
Qed.

Lemma runAnalysisLoop_rejected_idle (c : Closure) (s : State) :
  isScanningRef s = false -> runAnalysisLoop_rejected c s = s.
Proof.
  intro H. unfold runAnalysisLoop_rejected. rewrite H, Bool.andb_false_r. reflexivity.
Qed.

Lemma runAnalysisLoop_resume_idle (c : Closure) (fl : InFlight) (a : Attempt)
    (endTime : Q) (now : Z) (s : State) :
  isScanningRef s = false ->
  runAnalysisLoop_resume c fl a endTime now s = runAnalysisLoop_finally c s.
Proof.
  intro H. unfold runAnalysisLoop_resume.
  destruct (race a); [rewrite runAnalysisLoop_fulfilled_idle | rewrite runAnalysisLoop_rejected_idle];
    auto.
Qed.

(** A handler other than the click, run while the session is not scanning,
    leaves the control flags and the detections alone, arms no timer and
    suspends no call. *)
Lemma handle_idle (e : Event) (s : State) :
  isScanningRef s = false -> no_click e = true ->
  let s' := handle e s in
  control s' = control s /\ display s' = display s
  /\ detectedObjectsRef s' = detectedObjectsRef s
  /\ counters s' = counters s
  /\ timers s' ⊆ timers s /\ calls s' ⊆ calls s.
Proof.
  intros H He. cbv zeta.
  destruct e as [now| | |id env|call a endTime now]; try discriminate;
    unfold handle.
  - repeat split; reflexivity.
  - repeat split; reflexivity.
  - unfold timerFires.
    destruct (timers s !! id) as [[d [c|]]|] eqn:E.
    + rewrite runAnalysisLoop_begin_idle by exact H.
      repeat split; try reflexivity. apply delete_subseteq.
    + repeat split; try reflexivity. apply delete_subseteq.
    + repeat split; reflexivity.
  - unfold settles.
    destruct (calls s !! call) as [[c fl]|] eqn:E; [|repeat split; reflexivity].
    rewrite runAnalysisLoop_resume_idle by exact H.
    destruct (runAnalysisLoop_finally_idle c (put_calls (delete call (calls s)) s) H)
      as (A1 & A2 & A3 & A4 & A5).
    unfold sched in A5. injection A5 as T R C.
    repeat split; try assumption.
    + rewrite T. reflexivity.
    + rewrite C. apply delete_subseteq.
Qed.

(** Once stopped, the component stays stopped and empty under every event
    but a click, and such an event arms no timer and suspends no call. *)
Lemma stopped_step (s : State) (e : Event) :
  stopped s -> no_click e = true ->
  stopped (step s e)
  /\ timers (step s e) ⊆ timers s /\ calls (step s e) ⊆ calls s.
Proof.
  intros (H1 & H2 & H3 & H4) He.
  destruct (handle_idle e s H2 He) as (A1 & A2 & A3 & A4 & A5 & A6).
  unfold control in A1. injection A1 as S1 S2 S3.
  unfold display in A2. injection A2 as D1 D2.
  destruct (commit_frame (event_now e s) s (handle e s) S1)
    as (B1 & B2 & B3 & B4 & B5 & B6).
  unfold control in B1. injection B1 as T1 T2 T3.
  unfold display in B2. injection B2 as E1 E2.
  unfold sched in B4. injection B4 as F1 F2 F3.
  rewrite D2, Nat.eqb_refl in B6.
  unfold step, stopped.
  split; [repeat split; congruence|].
  split; [rewrite F1; exact A5 | rewrite F3; exact A6].
Qed.

Lemma stopped_run (es : list Event) (s : State) :
  stopped s -> forallb no_click es = true ->
  stopped (run es s)
  /\ timers (run es s) ⊆ timers s /\ calls (run es s) ⊆ calls s.
Proof.
  revert s. induction es as [|e es IH]; intros s Hs Hes.
  - unfold run. simpl fold_left. auto.
  - simpl forallb in Hes. apply andb_prop in Hes as [He Hes].
    destruct (stopped_step s e Hs He) as (Hs' & Ht & Hc).
    destruct (IH (step s e) Hs' Hes) as (Hs'' & Ht' & Hc').
    change (run (e :: es) s) with (run es (step s e)).
    split; [exact Hs''|]. split; etrans; eauto.
Qed.

(** *** Pressing Stop *)

Lemma effect_isScanning_stop (old s : State) :
  isScanning old = true -> isScanning s = false ->
  effect_isScanning old s
  = setInferenceFps 0 (setLatency 0 (setIsProcessing false
      (setErrorCount 0 (setSystemMessage None (put_isScanningRef false s))))).
Proof.
  intros Ho Hs. unfold effect_isScanning. rewrite Ho, Hs. cbv zeta.
  change (isScanning (put_isScanningRef false s)) with (isScanning s).
  rewrite Hs. reflexivity.
Qed.

Lemma toggle_stop_fields (s : State) (now : Z) :
  isScanning s = true ->
  let h := handle (Click now) s in
  isScanning h = false /\ detectedObjects h = []
  /\ objectsEpoch h = S (objectsEpoch s)
  /\ calls h = calls s
  /\ timers h = match timeoutRef s with
                | Some id => delete id (timers s)
                | None => timers s
                end.
Proof.
  intro H. cbv zeta. unfold handle, toggleScanning, render.
  cbn [c_isScanning]. rewrite H. cbv zeta.
  change (timeoutRef (setDetectedObjects [] (setIsScanning false s)))
    with (timeoutRef s).
  destruct (timeoutRef s); repeat split; reflexivity.
Qed.

Lemma commit_stop (now : Z) (old s : State) :
  isScanning old = true -> isScanning s = false ->
  objectsEpoch s = S (objectsEpoch old) ->
  let s' := commit now old s in
  isScanning s' = false /\ isScanningRef s' = false
  /\ detectedObjects s' = detectedObjects s
  /\ detectedObjectsRef s' = detectedObjects s
  /\ counters s' = (0, 0)
  /\ timers s' = timers s /\ calls s' = calls s
  /\ systemMessage s' = None /\ isMountedRef s' = isMountedRef s.
Proof.
  intros Ho Hs He. cbv zeta. unfold commit.
  rewrite (effect_isScanning_stop old s Ho Hs).
  set (s1 := setInferenceFps 0 _).
  destruct (effect_performanceMode_frame old (effect_detectedObjects now old s1))
    as (A1 & A2 & A3 & A4 & A5 & A6).
  destruct (effect_detectedObjects_frame now old s1)
    as (B1 & B2 & B3 & B4 & B5 & B6 & B7).
  change (objectsEpoch s1) with (objectsEpoch s) in B7.
  rewrite He, eqb_succ_self in B7.
  unfold control in *. unfold display in *. unfold sched in *.
  unfold counters in *.
  injection A1 as ? ? ?. injection A2 as ? ?. injection A4 as ? ?.
  injection A5 as ? ? ?. injection B1 as ? ? ?. injection B2 as ? ?.
  injection B3 as ? ?. injection B4 as ? ? ?.
  repeat split; try congruence.
  all: try (rewrite A3, B7; reflexivity).
  all: try (rewrite A6, B5; reflexivity).
  all: try (f_equal; congruence).
Qed.

(** Pressing Stop while scanning: the session is stopped and empty, the
    timer recorded in [timeoutRef] is cancelled, nothing is armed. *)
Lemma click_stops (s : State) (now : Z) :
  isScanning s = true ->
  let s1 := step s (Click now) in
  stopped s1
  /\ (forall id, timeoutRef s = Some id -> timers s1 !! id = None)
  /\ timers s1 ⊆ timers s /\ calls s1 = calls s
  /\ (tracked s -> forall id d c, timers s1 !! id <> Some (d, CbLoop c)).
Proof.
  intro H. cbv zeta.
  destruct (toggle_stop_fields s now H) as (A1 & A2 & A3 & A4 & A5).
  destruct (commit_stop now s (handle (Click now) s) H A1 A3)
    as (B1 & B2 & B3 & B4 & B5 & B6 & B7 & _).
  unfold step. cbn [event_now].
  split; [unfold stopped; repeat split; congruence|].
  rewrite B6, B7, A4, A5.
  split; [|split; [|split]].
  - intros id Hid. rewrite Hid. apply lookup_delete_eq.
  - destruct (timeoutRef s); [apply delete_subseteq | reflexivity].
  - reflexivity.
  - intros Ht id d c Hl.
    destruct (timeoutRef s) as [id0|] eqn:E.
    + destruct (decide (id0 = id)) as [->|Hne].
      * rewrite lookup_delete_eq in Hl. discriminate.
      * rewrite lookup_delete_ne in Hl by exact Hne.
        apply Ht in Hl. congruence.
    + apply Ht in Hl. congruence.
Qed.

(** ** Stopping, as long as Start is not pressed again *)

(** What Stop does achieve.  It cancels the reschedule recorded in
    [timeoutRef] (leaving no loop timer when the loop's timers are all
    recorded there), empties the detection set, and from then on, whatever
    happens short of a new press of Start (any in-flight call resolving with
    any result, any timer firing), the detection set stays empty, the
    session stays stopped, and no timer is armed and no call is started. *)
Theorem stop_discards_in_flight_result
    (s : State) (now : Z) (later : list Event) :
  isScanning s = true ->
  forallb no_click later = true ->
  let s1 := step s (Click now) in
  let s2 := run later s1 in
  (forall id, timeoutRef s = Some id -> timers s1 !! id = None)
  /\ (tracked s -> forall id d c, timers s1 !! id <> Some (d, CbLoop c))
  /\ detectedObjects s1 = [] /\ detectedObjectsRef s1 = []
  /\ detectedObjects s2 = [] /\ detectedObjectsRef s2 = []
  /\ isScanning s2 = false
  /\ timers s2 ⊆ timers s1 /\ calls s2 ⊆ calls s.
Proof.
  intros H Hl. cbv zeta.
  destruct (click_stops s now H) as (S1 & C1 & T1 & K1 & Tr).
  destruct (stopped_run later _ S1 Hl) as (S2 & T2 & K2).
  destruct S1 as (_ & _ & D1 & D1'). destruct S2 as (I2 & _ & D2 & D2').
  rewrite K1 in K2.
  repeat split; assumption.
Qed.

(** A call is in flight; Stop is pressed; the call then resolves with a
    car. *)
Lemma stop_discards_in_flight_result_witness :
  let s := firstCallInFlight in
  let later := [Settles 0 (Answered (Json (Some [car]))) 900%Q 900] in
  let s1 := step s (Click 500) in
  let s2 := run later s1 in
  (forall id, timeoutRef s = Some id -> timers s1 !! id = None)
  /\ (tracked s -> forall id d c, timers s1 !! id <> Some (d, CbLoop c))
  /\ detectedObjects s1 = [] /\ detectedObjectsRef s1 = []
  /\ detectedObjects s2 = [] /\ detectedObjectsRef s2 = []
  /\ isScanning s2 = false
  /\ timers s2 ⊆ timers s1 /\ calls s2 ⊆ calls s.
Proof.
  apply (stop_discards_in_flight_result firstCallInFlight 500
           [Settles 0 (Answered (Json (Some [car]))) 900%Q 900]).
  - vm_compute. reflexivity.
  - vm_compute. reflexivity.
Defined.

(** A reschedule is pending when Stop is pressed: it is cancelled, and no
    timer is left. *)
Example stop_cancels_pending_reschedule :
  let s := run carThenWaiting (mount 0) in
  let s1 := step s (Click 410) in
  detectedObjects s = [car]
  /\ timeoutRef s = Some 2%nat
  /\ timers s !! 2%nat = Some (30, CbLoop startClosure)
  /\ map_to_list (timers s1) = []
  /\ detectedObjects s1 = [].
Proof. vm_compute. repeat split; reflexivity. Qed.

(** *** A live loop iteration after its [await] *)

Lemma runAnalysisLoop_rejected_live (c : Closure) (s : State) :
  isMountedRef s = true -> isScanningRef s = true ->
  let s' := runAnalysisLoop_rejected c s in
  control s' = control s /\ display s' = display s /\ sched s' = sched s
  /\ nextTimer s' = nextTimer s
  /\ errorCount s' = errorCount s + 1.
Proof.
  intros Hm Hr. cbv zeta. unfold runAnalysisLoop_rejected. rewrite Hm, Hr.
  cbn [andb]. cbv zeta.
  destruct (c_errorCount c >? 4); repeat split; reflexivity.
Qed.

Lemma runAnalysisLoop_fulfilled_live (c : Closure) (fl : InFlight)
    (objects : list DetectedObject) (endTime : Q) (now : Z) (s : State) :
  isMountedRef s = true -> isScanningRef s = true ->
  let s' := runAnalysisLoop_fulfilled c fl objects endTime now s in
  control s' = control s
  /\ errorCount s' = 0
  /\ latency s' = JS.Math_round (endTime - startTime fl)
  /\ detectedObjects s'
     = (if (0 <? length objects)%nat || (c_errorCount c >? 0)
        then objects else detectedObjects s).
Proof.
  intros Hm Hr. cbv zeta. unfold runAnalysisLoop_fulfilled. rewrite Hm, Hr.
  cbn [andb].
  destruct ((0 <? length objects)%nat || (c_errorCount c >? 0)); cbv zeta;
    destruct (_ >? 1000);
    destruct ((JS.Math_round (endTime - startTime fl) >? 2500)
              && Mode_eqb (currentMode fl) accuracy);
    repeat split; reflexivity.
Qed.

Lemma runAnalysisLoop_finally_live (c : Closure) (s : State) :
  isMountedRef s = true -> isScanningRef s = true ->
  let s' := runAnalysisLoop_finally c s in
  control s' = control s /\ display s' = display s
  /\ counters s' = counters s
  /\ timeoutRef s' = Some (nextTimer s)
  /\ timers s' !! nextTimer s
     = Some (nextDelay (performanceModeRef s) (c_latency c) (c_errorCount c),
             CbLoop c).
Proof.
  intros Hm Hr. cbv zeta. unfold runAnalysisLoop_finally. rewrite Hm. cbv zeta.
  change (isScanningRef (setIsProcessing false s)) with (isScanningRef s).
  rewrite Hr. unfold setTimeout.
  repeat split; try reflexivity.
  cbn [timers put_timeoutRef put_nextTimer put_timers snd].
  apply lookup_insert_eq.
Qed.

(** One resumed call of a live session, with the render that follows. *)
Lemma settles_live (s : State) (k : nat) (c : Closure) (fl : InFlight)
    (a : Attempt) (endTime : Q) (now : Z) :
  live s -> calls s !! k = Some (c, fl) ->
  let s' := step s (Settles k a endTime now) in
  live s' /\ rescheduled c s'
  /\ errorCount s'
     = match race a with Return _ => 0 | Throw => errorCount s + 1 end.
Proof.
  intros (Hm & Hs & Hr) Hk. cbv zeta.
  unfold step. cbn [handle event_now]. unfold settles. rewrite Hk.
  set (s0 := put_calls (delete k (calls s)) s).
  assert (Hm0 : isMountedRef s0 = true) by exact Hm.
  assert (Hr0 : isScanningRef s0 = true) by exact Hr.
  unfold runAnalysisLoop_resume.
  set (s1 := match race a with
             | Return objects => runAnalysisLoop_fulfilled c fl objects endTime now s0
             | Throw => runAnalysisLoop_rejected c s0
             end).
  assert (H1 : control s1 = control s
               /\ errorCount s1
                  = match race a with Return _ => 0 | Throw => errorCount s + 1 end).
  { subst s1. destruct (race a) as [objects|].
    - destruct (runAnalysisLoop_fulfilled_live c fl objects endTime now s0 Hm0 Hr0)
        as (A1 & A2 & _). split; [exact A1 | exact A2].
    - destruct (runAnalysisLoop_rejected_live c s0 Hm0 Hr0) as (A1 & _ & _ & _ & A5).
      split; [exact A1 | exact A5]. }
  destruct H1 as (C1 & E1).
  unfold control in C1. injection C1 as I1 R1 M1.
  destruct (runAnalysisLoop_finally_live c s1) as (F1 & F2 & F3 & F4 & F5);
    [congruence | congruence |].
  unfold control in F1. injection F1 as I2 R2 M2.
  unfold counters in F3. injection F3 as E2 L2.
  destruct (commit_frame now s (runAnalysisLoop_finally c s1)) as (G1 & G2 & G3 & G4 & G5 & G6);
    [congruence|].
  unfold control in G1. injection G1 as I3 R3 M3.
  unfold counters in G3. injection G3 as E3 L3.
  unfold sched in G4. injection G4 as T3 TR3 K3.
  split; [unfold live; repeat split; congruence|].
  split; [|congruence].
  exists (nextTimer s1), (nextDelay (performanceModeRef s1) (c_latency c) (c_errorCount c)).
  split; congruence.
Qed.

(** ** C5: transient inference failures *)

(** C5, counterexample.  A malformed JSON response does not add to the
    streak: with a streak of one, it resets it to zero. *)
Lemma malformed_json_resets_streak :
  let s := run carThenTimeout (mount 0) in
  let s' := step s (Settles 2 (Answered MalformedJson) 6800%Q 6800) in
  errorCount s = 1 /\ errorCount s' = 0 /\ errorCount s' <> errorCount s + 1.
Proof. vm_compute. repeat split; discriminate. Qed.

(** C5 (amended). In a live session, a request timeout increments the
    consecutive-error streak by one; a transport error, an empty body or a
    malformed JSON response is turned by the inference service into an empty
    successful result, which resets the streak to zero.  In every case the
    session keeps scanning and the loop is rescheduled. *)
Theorem transient_failures_keep_session_alive
    (s : State) (k : nat) (c : Closure) (fl : InFlight) (endTime : Q) (now : Z) :
  live s -> calls s !! k = Some (c, fl) ->
  (let s' := step s (Settles k TimedOut endTime now) in
   errorCount s' = errorCount s + 1 /\ live s' /\ rescheduled c s')
  /\ (forall r, r = TransportError \/ r = NoText \/ r = MalformedJson ->
      analyzeVideoFrameWithGemini r = []
      /\ let s' := step s (Settles k (Answered r) endTime now) in
         errorCount s' = 0 /\ live s' /\ rescheduled c s').
Proof.
  intros Hl Hk. split.
  - destruct (settles_live s k c fl TimedOut endTime now Hl Hk) as (A & B & C).
    cbv zeta. auto.
  - intros r Hr.
    destruct (settles_live s k c fl (Answered r) endTime now Hl Hk) as (A & B & C).
    split; [destruct Hr as [->|[->| ->]]; reflexivity|].
    cbv zeta. auto.
Qed.

Lemma transient_failures_keep_session_alive_witness :
  let s := firstCallInFlight in
  (let s' := step s (Settles 0 TimedOut 6100%Q 6100) in
   errorCount s' = errorCount s + 1 /\ live s' /\ rescheduled startClosure s')
  /\ (forall r, r = TransportError \/ r = NoText \/ r = MalformedJson ->
      analyzeVideoFrameWithGemini r = []
      /\ let s' := step s (Settles 0 (Answered r) 6100%Q 6100) in
         errorCount s' = 0 /\ live s' /\ rescheduled startClosure s').
Proof.
  apply (transient_failures_keep_session_alive firstCallInFlight 0 startClosure
           (mkInFlight 100 speed 320 (5 # 10)) 6100%Q 6100).
  - vm_compute. repeat split; reflexivity.
  - vm_compute. reflexivity.
Defined.

(** ** C2, C3: the loop reads the [errorCount] of the render that started it *)

(** The polling formula itself backs off as intended on the value it is
    given. *)
Lemma nextDelay_backoff (m : Mode) (latency n : Z) :
  0 < n -> nextDelay m latency n = Z.min (500 * n) 3000.
Proof.
  intro H. unfold nextDelay.
  destruct (n >? 0) eqn:E; [reflexivity|]. rewrite Z.gtb_ltb, Z.ltb_ge in E. lia.
Qed.

Lemma nextDelay_no_streak (m : Mode) (latency : Z) :
  nextDelay m latency 0
  = if latency >? 1000 then 200 else match m with speed => 30 | accuracy => 100 end.
Proof. reflexivity. Qed.

(** C3, evaluated on the code.  A session is started in speed mode on a
    fresh mount and five requests in a row time out.  The streak is then 5,
    for which the specified delay is [min (500 * 5) 3000 = 2500] ms, but the
    timer the loop arms has a delay of 30 ms: the loop computes the delay
    from the [errorCount] of the closure that started the session, which is
    still 0. *)
Theorem five_failures_delay :
  let s := run fiveTimeouts (mount 0) in
  errorCount s = 5
  /\ Z.min (500 * errorCount s) 3000 = 2500
  /\ performanceModeRef s = speed
  /\ timeoutRef s = Some 6%nat
  /\ timers s !! 6%nat = Some (30, CbLoop startClosure)
  /\ c_errorCount startClosure = 0
  /\ systemMessage s = None.
Proof. vm_compute. repeat split; reflexivity. Qed.

(** C2, evaluated on the code.  A car is on display, the next request times
    out (streak 1), and the one after succeeds with an empty list.  The
    streak is non-zero, so the specification has the empty list replace the
    display;
    the code keeps the car, because the test reads the [errorCount] of the
    closure that started the session, which is 0. *)
Theorem empty_result_after_failure_not_applied :
  let s := run carThenTimeout (mount 0) in
  let s' := step s (Settles 2 (Answered (Json (Some []))) 6800%Q 6800) in
  errorCount s = 1
  /\ detectedObjects s = [car]
  /\ calls s !! 2%nat = Some (startClosure, mkInFlight 6460 speed 320 (5 # 10))
  /\ detectedObjects s' = [car]
  /\ errorCount s' = 0.
Proof. vm_compute. repeat split; reflexivity. Qed.

(** ** Every session runs on a closure with [errorCount = 0]

    The loop reschedules the very closure that [toggleScanning] started, and
    Start can only be pressed in a render where the streak and the latency
    are 0.  So in every reachable state the loop's [errorCount] and
    [latency] are 0, whatever the streak in the component state is. *)

Lemma fresh_timers_subseteq (t t' : gmap nat (Z * TimerCb)) :
  t' ⊆ t -> fresh_timers t -> fresh_timers t'.
Proof.
  intros Hsub Hf id d c Hl. apply (Hf id d c).
  eapply lookup_weaken; eauto.
Qed.

Lemma fresh_calls_subseteq (k k' : gmap nat (Closure * InFlight)) :
  k' ⊆ k -> fresh_calls k -> fresh_calls k'.
Proof.
  intros Hsub Hf i c fl Hl. apply (Hf i c fl).
  eapply lookup_weaken; eauto.
Qed.

Lemma fresh_timers_insert_loop (t : gmap nat (Z * TimerCb)) (id : nat) (d : Z)
    (c : Closure) :
  fresh c -> 0 <= d <= 200 -> fresh_timers t ->
  fresh_timers (<[id := (d, CbLoop c)]> t).
Proof.
  intros Hc Hd Hf id' d' c' Hl.
  destruct (decide (id = id')) as [->|Hne].
  - rewrite lookup_insert_eq in Hl. injection Hl as <- <-. auto.
  - rewrite lookup_insert_ne in Hl by exact Hne. eauto.
Qed.

Lemma fresh_timers_insert_clear (t : gmap nat (Z * TimerCb)) (id : nat) (d : Z) :
  fresh_timers t -> fresh_timers (<[id := (d, CbClearMessage)]> t).
Proof.
  intros Hf id' d' c' Hl.
  destruct (decide (id = id')) as [->|Hne].
  - rewrite lookup_insert_eq in Hl. discriminate.
  - rewrite lookup_insert_ne in Hl by exact Hne. eauto.
Qed.

Lemma fresh_calls_insert (k : gmap nat (Closure * InFlight)) (i : nat)
    (c : Closure) (fl : InFlight) :
  fresh c -> fresh_calls k -> fresh_calls (<[i := (c, fl)]> k).
Proof.
  intros Hc Hf i' c' fl' Hl.
  destruct (decide (i = i')) as [->|Hne].
  - rewrite lookup_insert_eq in Hl. injection Hl as <- <-. auto.
  - rewrite lookup_insert_ne in Hl by exact Hne. eauto.
Qed.

Lemma nextDelay_fresh (m : Mode) (c : Closure) :
  fresh c -> 0 <= nextDelay m (c_latency c) (c_errorCount c) <= 200.
Proof.
  intros [-> ->]. destruct m; cbn; lia.
Qed.

Lemma runAnalysisLoop_finally_fresh (c : Closure) (s : State) :
  fresh c ->
  let s' := runAnalysisLoop_finally c s in
  control s' = control s /\ counters s' = counters s
  /\ calls s' = calls s /\ systemMessage s' = systemMessage s
  /\ (fresh_timers (timers s) -> fresh_timers (timers s')).
Proof.
  intro Hc. cbv zeta. unfold runAnalysisLoop_finally.
  destruct (isMountedRef s); [|split_and?; auto].
  cbv zeta.
  change (isScanningRef (setIsProcessing false s)) with (isScanningRef s).
  destruct (isScanningRef s); [|split_and?; auto].
  unfold setTimeout. split_and?; try reflexivity.
  intro Hf. cbn [timers put_timeoutRef put_nextTimer put_timers snd].
  change (timers (setIsProcessing false s)) with (timers s).
  apply fresh_timers_insert_loop; auto using nextDelay_fresh.
Qed.

Lemma runAnalysisLoop_rejected_fresh (c : Closure) (s : State) :
  fresh c ->
  let s' := runAnalysisLoop_rejected c s in
  control s' = control s /\ sched s' = sched s
  /\ systemMessage s' = systemMessage s.
Proof.
  intros [He Hl]. cbv zeta. unfold runAnalysisLoop_rejected. rewrite He.
  destruct (isMountedRef s && isScanningRef s); split_and?; reflexivity.
Qed.

Lemma runAnalysisLoop_fulfilled_fresh (c : Closure) (fl : InFlight)
    (objects : list DetectedObject) (endTime : Q) (now : Z) (s : State) :
  let s' := runAnalysisLoop_fulfilled c fl objects endTime now s in
  control s' = control s /\ calls s' = calls s
  /\ (fresh_timers (timers s) -> fresh_timers (timers s'))
  /\ (systemMessage s <> Some advisory -> systemMessage s' <> Some advisory).
Proof.
  cbv zeta. unfold runAnalysisLoop_fulfilled.
  destruct (isMountedRef s && isScanningRef s); [|split_and?; auto].
  destruct ((0 <? length objects)%nat || (c_errorCount c >? 0)); cbv zeta;
    destruct (_ >? 1000);
    destruct ((JS.Math_round (endTime - startTime fl) >? 2500)
              && Mode_eqb (currentMode fl) accuracy);
    split_and?; auto; try discriminate.
  all: try (intros _; cbn [systemMessage setSystemMessage]; discriminate).
  all: intro Hf; unfold setTimeout;
    cbn [timers put_timeoutRef put_nextTimer put_timers snd];
    apply fresh_timers_insert_clear; exact Hf.
Qed.

Lemma runAnalysisLoop_resume_fresh (c : Closure) (fl : InFlight) (a : Attempt)
    (endTime : Q) (now : Z) (s : State) :
  fresh c ->
  let s' := runAnalysisLoop_resume c fl a endTime now s in
  control s' = control s /\ calls s' = calls s
  /\ (fresh_timers (timers s) -> fresh_timers (timers s'))
  /\ (systemMessage s <> Some advisory -> systemMessage s' <> Some advisory).
Proof.
  intro Hc. cbv zeta. unfold runAnalysisLoop_resume.
  set (s1 := match race a with
             | Return objects => runAnalysisLoop_fulfilled c fl objects endTime now s
             | Throw => runAnalysisLoop_rejected c s
             end).
  assert (H1 : control s1 = control s /\ calls s1 = calls s
               /\ (fresh_timers (timers s) -> fresh_timers (timers s1))
               /\ (systemMessage s <> Some advisory ->
                   systemMessage s1 <> Some advisory)).
  { subst s1. destruct (race a) as [objects|].
    - apply runAnalysisLoop_fulfilled_fresh.
    - destruct (runAnalysisLoop_rejected_fresh c s Hc) as (A1 & A2 & A3).
      unfold sched in A2. injection A2 as T R K.
      rewrite T, K, A3. split_and?; auto. }
  destruct H1 as (A1 & A2 & A3 & A4).
  destruct (runAnalysisLoop_finally_fresh c s1 Hc) as (B1 & B2 & B3 & B4 & B5).
  rewrite B1, B3, B4. split_and?; auto.
Qed.

Lemma runAnalysisLoop_begin_fresh (c : Closure) (env : Env) (s : State) :
  fresh c ->
  let s' := fst (runAnalysisLoop_begin c env s) in
  control s' = control s /\ counters s' = counters s
  /\ calls s' = calls s /\ systemMessage s' = systemMessage s
  /\ (fresh_timers (timers s) -> fresh_timers (timers s')).
Proof.
  intro Hc. cbv zeta. unfold runAnalysisLoop_begin.
  destruct (negb (isScanningRef s) || negb (isMountedRef s));
    [split_and?; auto|].
  destruct (negb (webcamReady env)).
  - unfold setTimeout. cbn [fst]. split_and?; try reflexivity.
    intro Hf. cbn [timers put_timeoutRef put_nextTimer put_timers snd].
    apply fresh_timers_insert_loop; auto. lia.
  - cbv zeta. destruct (screenshot env); cbn [fst].
    + split_and?; auto.
    + apply (runAnalysisLoop_finally_fresh c (setIsProcessing true s) Hc).
Qed.

Lemma handle_consistent (e : Event) (s : State) :
  consistent s -> no_click e = true ->
  let s' := handle e s in
  control s' = control s
  /\ fresh_timers (timers s') /\ fresh_calls (calls s')
  /\ systemMessage s' <> Some advisory
  /\ (isScanning s = false -> counters s' = counters s).
Proof.
  intros (Hm & Hr & Hc & Ht & Hk & Hmsg) He. cbv zeta.
  destruct e as [now| | |id env|call a endTime now]; try discriminate;
    unfold handle.
  - split_and?; auto.
  - split_and?; auto; discriminate.
  - unfold timerFires.
    destruct (timers s !! id) as [[d [c|]]|] eqn:E; [| |split_and?; auto].
    + destruct (Ht id d c E) as [Hfc _].
      set (s0 := put_timers (delete id (timers s)) s).
      assert (Ht0 : fresh_timers (timers s0)).
      { apply (fresh_timers_subseteq (timers s)); [apply delete_subseteq|exact Ht]. }
      destruct (runAnalysisLoop_begin_fresh c env s0 Hfc) as (A1 & A2 & A3 & A4 & A5).
      destruct (runAnalysisLoop_begin c env s0) as [s1 [fl|]]; cbn [fst] in *.
      * split_and?; auto.
        all: cbn [calls systemMessage put_nextCall put_calls].
        all: try (apply fresh_calls_insert; [exact Hfc | rewrite A3; exact Hk]).
        all: try (rewrite A4; exact Hmsg).
        all: try (intros _; exact A2).
      * split_and?; auto.
        all: try (rewrite A3; exact Hk).
        all: try (rewrite A4; exact Hmsg).
    + split_and?; auto.
      all: try discriminate.
      apply (fresh_timers_subseteq (timers s)); [apply delete_subseteq|exact Ht].
  - unfold settles.
    destruct (calls s !! call) as [[c fl]|] eqn:E; [|split_and?; auto].
    pose proof (Hk call c fl E) as Hfc.
    set (s0 := put_calls (delete call (calls s)) s).
    destruct (runAnalysisLoop_resume_fresh c fl a endTime now s0 Hfc) as (A1 & A2 & A3 & A4).
    split_and?; auto.
    all: try (rewrite A2;
              apply (fresh_calls_subseteq (calls s)); [apply delete_subseteq|exact Hk]).
    intro Hs. rewrite Hs in Hr.
    rewrite (runAnalysisLoop_resume_idle c fl a endTime now s0 Hr).
    apply (runAnalysisLoop_finally_idle c s0 Hr).
Qed.

Lemma step_consistent_quiet (e : Event) (s : State) :
  consistent s -> no_click e = true -> consistent (step s e).
Proof.
  intros Hs He.
  destruct (handle_consistent e s Hs He) as (A1 & A2 & A3 & A4 & A5).
  destruct Hs as (Hm & Hr & Hc & Ht & Hk & Hmsg).
  unfold control in A1. injection A1 as I1 R1 M1.
  destruct (commit_frame (event_now e s) s (handle e s) I1)
    as (B1 & B2 & B3 & B4 & B5 & B6).
  unfold control in B1. injection B1 as I2 R2 M2.
  unfold sched in B4. injection B4 as T2 TR2 K2.
  unfold step, consistent.
  rewrite M2, R2, I2, B3, T2, K2, B5.
  split_and?; auto; try congruence.
  intro Hi. rewrite I1 in Hi. rewrite (A5 Hi). auto.
Qed.

Lemma effect_isScanning_start (old s : State) :
  isScanning old = false -> isScanning s = true ->
  effect_isScanning old s = put_isScanningRef true s.
Proof.
  intros Ho Hs. unfold effect_isScanning. rewrite Ho, Hs. cbv zeta.
  change (isScanning (put_isScanningRef true s)) with (isScanning s).
  rewrite Hs. reflexivity.
Qed.

Lemma click_start_consistent (s : State) (now : Z) :
  consistent s -> isScanning s = false -> consistent (step s (Click now)).
Proof.
  intros (Hm & Hr & Hc & Ht & Hk & Hmsg) Hi.
  specialize (Hc Hi). unfold counters in Hc. injection Hc as He Hl.
  unfold step. cbn [handle event_now]. unfold toggleScanning, render.
  cbn [c_isScanning]. rewrite Hi. cbv zeta. unfold setTimeout. cbn [snd].
  set (s' := put_nextTimer _ _).
  unfold commit. rewrite (effect_isScanning_start s s' Hi eq_refl).
  set (s1 := put_isScanningRef true s').
  destruct (effect_performanceMode_frame s (effect_detectedObjects now s s1))
    as (A1 & A2 & A3 & A4 & A5 & A6).
  destruct (effect_detectedObjects_frame now s s1)
    as (B1 & B2 & B3 & B4 & B5 & B6 & B7).
  unfold control in *. unfold sched in *.
  injection A1 as ? ? ?. injection A5 as ? ? ?.
  injection B1 as ? ? ?. injection B4 as ? ? ?.
  unfold consistent. split_and?; try congruence.
  - replace (timers (effect_performanceMode s (effect_detectedObjects now s s1)))
      with (<[nextTimer s := (100, CbLoop (mkClosure false (errorCount s) (latency s)))]>
              (timers s)) by congruence.
    apply fresh_timers_insert_loop; [split; assumption | lia | exact Ht].
  - replace (calls (effect_performanceMode s (effect_detectedObjects now s s1)))
      with (calls s) by congruence.
    exact Hk.
  - rewrite A6, B5. discriminate.
Qed.

Lemma click_stop_consistent (s : State) (now : Z) :
  consistent s -> isScanning s = true -> consistent (step s (Click now)).
Proof.
  intros (Hm & Hr & Hc & Ht & Hk & Hmsg) Hi.
  destruct (toggle_stop_fields s now Hi) as (A1 & A2 & A3 & A4 & A5).
  destruct (commit_stop now s (handle (Click now) s) Hi A1 A3)
    as (B1 & B2 & B3 & B4 & B5 & B6 & B7 & B8 & B9).
  unfold step. cbn [event_now]. unfold consistent.
  rewrite B1, B2, B5, B6, B7, B8, B9, A4, A5.
  split_and?; auto; try discriminate.
  all: try (destruct (timeoutRef s); [|exact Ht];
            apply (fresh_timers_subseteq (timers s));
            [apply delete_subseteq|exact Ht]).
  all: try (unfold handle, toggleScanning, render; cbn [c_isScanning];
            rewrite Hi; cbv zeta;
            change (timeoutRef (setDetectedObjects [] (setIsScanning false s)))
              with (timeoutRef s);
            destruct (timeoutRef s); exact Hm).
Qed.

Lemma step_consistent (s : State) (e : Event) :
  consistent s -> consistent (step s e).
Proof.
  intro Hs. destruct (no_click e) eqn:He.
  - apply step_consistent_quiet; assumption.
  - destruct e; try discriminate.
    destruct (isScanning s) eqn:Hi.
    + apply click_stop_consistent; assumption.
    + apply click_start_consistent; assumption.
Qed.

Lemma mount_consistent (now : Z) : consistent (mount now).
Proof.
  unfold consistent, mount.
  cbn [isMountedRef isScanningRef isScanning counters errorCount latency
       timers calls systemMessage].
  split_and?; auto; try discriminate.
  all: intros ? ? ? H; rewrite lookup_empty in H; discriminate.
Qed.

(** Every state reachable from a mount is consistent. *)
Lemma run_consistent (es : list Event) (s : State) :
  consistent s -> consistent (run es s).
Proof.
  revert s. induction es as [|e es IH]; intros s Hs.
  - exact Hs.
  - change (run (e :: es) s) with (run es (step s e)).
    apply IH, step_consistent, Hs.
Qed.

(** X8. In no reachable state does a pending loop timer wait more than 200 ms,
    and the closure it will run has [errorCount = 0]: the backoff branch is
    never taken. *)
Lemma loop_never_backs_off (es : list Event) (now : Z) (id : nat) (d : Z)
    (c : Closure) :
  timers (run es (mount now)) !! id = Some (d, CbLoop c) ->
  c_errorCount c = 0 /\ d <= 200.
Proof.
  intro H.
  destruct (run_consistent es (mount now) (mount_consistent now))
    as (_ & _ & _ & Ht & _).
  destruct (Ht id d c H) as [[He _] Hd]. split; [exact He | lia].
Qed.

(** X9. In no reachable state is the advisory of the [catch] block on
    display. *)
Lemma advisory_never_shown (es : list Event) (now : Z) :
  systemMessage (run es (mount now)) <> Some advisory.
Proof.
  apply (run_consistent es (mount now) (mount_consistent now)).
Qed.

(** X10. In no reachable state does an empty result replace the detections on
    display, whatever the streak is. *)
Lemma empty_result_never_applied (es : list Event) (now0 : Z) (k : nat)
    (r : ApiResponse) (endTime : Q) (now : Z) :
  analyzeVideoFrameWithGemini r = [] ->
  let s := run es (mount now0) in
  detectedObjects (step s (Settles k (Answered r) endTime now))
  = detectedObjects s.
Proof.
  intros Hr. cbv zeta.
  set (s := run es (mount now0)).
  destruct (run_consistent es (mount now0) (mount_consistent now0))
    as (Hm & Href & _ & _ & Hk & _).
  fold s in Hm, Href, Hk.
  assert (Hh : display (handle (Settles k (Answered r) endTime now) s) = display s
               /\ isScanning (handle (Settles k (Answered r) endTime now) s)
                  = isScanning s).
  { unfold handle, settles.
    destruct (calls s !! k) as [[c fl]|] eqn:E; [|split; reflexivity].
    destruct (Hk k c fl E) as [He _].
    set (s0 := put_calls (delete k (calls s)) s).
    destruct (isScanningRef s) eqn:Hs.
    - unfold runAnalysisLoop_resume, race. rewrite Hr.
      destruct (runAnalysisLoop_fulfilled_live c fl [] endTime now s0 Hm Hs)
        as (A1 & _ & _ & A4).
      unfold control in A1. injection A1 as I1 R1 M1.
      destruct (runAnalysisLoop_finally_live c (runAnalysisLoop_fulfilled c fl [] endTime now s0))
        as (B1 & B2 & _); [congruence | congruence |].
      unfold control in B1. injection B1 as I2 R2 M2.
      split; [|congruence].
      rewrite B2. unfold runAnalysisLoop_fulfilled.
      change (isMountedRef s0) with (isMountedRef s).
      change (isScanningRef s0) with (isScanningRef s).
      rewrite Hm, Hs, He. cbn [andb orb length Nat.ltb Nat.leb Z.gtb Z.compare].
      cbv zeta.
      destruct (_ >? 1000);
        destruct ((JS.Math_round (endTime - startTime fl) >? 2500)
                  && Mode_eqb (currentMode fl) accuracy);
        reflexivity.
    - rewrite (runAnalysisLoop_resume_idle c fl (Answered r) endTime now s0 Hs).
      destruct (runAnalysisLoop_finally_idle c s0 Hs) as (A1 & A2 & _).
      unfold control in A1. injection A1 as I1 _ _.
      split; [exact A2 | exact I1]. }
  destruct Hh as (Hd & Hi).
  destruct (commit_frame now s (handle (Settles k (Answered r) endTime now) s) Hi)
    as (_ & B2 & _).
  unfold step. cbn [event_now].
  unfold display in Hd, B2. injection Hd as D _. injection B2 as D' _.
  cbn [handle]. congruence.
Qed.

(** * Further properties of the live session *)

Local Open Scope Z_scope.

(** The two mirroring effects leave the telemetry and the mode alone. *)
Lemma mirror_effects_frame (now : Z) (old s : State) :
  let s' := effect_performanceMode old (effect_detectedObjects now old s) in
  isProcessing s' = isProcessing s /\ inferenceFps s' = inferenceFps s
  /\ performanceMode s' = performanceMode s /\ nextTimer s' = nextTimer s
  /\ performanceModeRef s'
     = (if Mode_eqb (performanceMode old) (performanceMode s)
        then performanceModeRef s else performanceMode s).
Proof.
  cbv zeta. unfold effect_performanceMode, effect_detectedObjects.
  destruct (objectsEpoch old =? objectsEpoch s)%nat.
  - destruct (Mode_eqb (performanceMode old) (performanceMode s));
      split_and?; reflexivity.
  - cbv zeta.
    destruct (0 <? length (detectedObjects (put_detectedObjectsRef _ s)))%nat.
    + change (performanceMode (put_lastDetectionTimeRef now
                (put_detectedObjectsRef (detectedObjects s) s)))
        with (performanceMode s).
      destruct (Mode_eqb (performanceMode old) (performanceMode s));
        split_and?; reflexivity.
    + change (performanceMode (put_detectedObjectsRef (detectedObjects s) s))
        with (performanceMode s).
      destruct (Mode_eqb (performanceMode old) (performanceMode s));
        split_and?; reflexivity.
Qed.

Lemma commit_mode (now : Z) (old s : State) :
  performanceMode (commit now old s) = performanceMode s.
Proof.
  unfold commit.
  destruct (mirror_effects_frame now old (effect_isScanning old s))
    as (_ & _ & A & _).
  rewrite A. unfold effect_isScanning.
  destruct (Bool.eqb (isScanning old) (isScanning s)); [reflexivity|].
  cbv zeta.
  destruct (negb (isScanning (put_isScanningRef (isScanning s) s))); reflexivity.
Qed.

(** X1. When a tick of a live session finds the webcam not ready, it starts
    no request and counts no error: the streak, the detections and the calls
    in flight are unchanged, and the loop is rescheduled after 200 ms. *)
Theorem not_ready_tick_retries
    (s : State) (id : nat) (d : Z) (c : Closure) (env : Env) :
  live s -> timers s !! id = Some (d, CbLoop c) -> webcamReady env = false ->
  let s' := step s (TimerFires id env) in
  live s'
  /\ errorCount s' = errorCount s
  /\ detectedObjects s' = detectedObjects s
  /\ calls s' = calls s
  /\ timeoutRef s' = Some (nextTimer s)
  /\ timers s' !! nextTimer s = Some (200, CbLoop c).
Proof.
  intros (Hm & Hs & Hr) Ht He. cbv zeta.
  assert (Hh : handle (TimerFires id env) s
               = put_timeoutRef (Some (nextTimer s))
                   (put_nextTimer (S (nextTimer s))
                      (put_timers (<[nextTimer s := (200, CbLoop c)]>
                                     (delete id (timers s))) s))).
  { unfold handle, timerFires. rewrite Ht. cbv zeta.
    unfold runAnalysisLoop_begin.
    change (isScanningRef (put_timers (delete id (timers s)) s))
      with (isScanningRef s).
    change (isMountedRef (put_timers (delete id (timers s)) s))
      with (isMountedRef s).
    rewrite Hr, Hm, He. reflexivity. }
  unfold step. rewrite Hh. cbn [event_now].
  set (h := put_timeoutRef _ _).
  destruct (commit_frame (lastDetectionTimeRef s) s h eq_refl)
    as (B1 & B2 & B3 & B4 & B5 & B6).
  unfold control in B1. injection B1 as I R M.
  unfold display in B2. injection B2 as D _.
  unfold counters in B3. injection B3 as E _.
  unfold sched in B4. injection B4 as T TR K.
  split; [unfold live; split_and?; congruence|].
  split_and?; try congruence.
  rewrite T. subst h. cbn [timers put_timeoutRef put_nextTimer put_timers].
  apply lookup_insert_eq.
Qed.

Lemma not_ready_tick_retries_witness :
  let s := run [Click 0] (mount 0) in
  let s' := step s (TimerFires 1 (mkEnv false true 100)) in
  live s'
  /\ errorCount s' = errorCount s
  /\ detectedObjects s' = detectedObjects s
  /\ calls s' = calls s
  /\ timeoutRef s' = Some (nextTimer s)
  /\ timers s' !! nextTimer s = Some (200, CbLoop startClosure).
Proof.
  apply (not_ready_tick_retries (run [Click 0] (mount 0)) 1 100 startClosure
           (mkEnv false true 100)).
  - vm_compute. split_and?; reflexivity.
  - vm_compute. reflexivity.
  - reflexivity.
Defined.

Lemma finally_live_eq (c : Closure) (s : State) :
  isMountedRef s = true -> isScanningRef s = true ->
  runAnalysisLoop_finally c s
  = put_timeoutRef (Some (nextTimer s))
      (put_nextTimer (S (nextTimer s))
         (put_timers
            (<[nextTimer s := (nextDelay (performanceModeRef s) (c_latency c)
                                         (c_errorCount c), CbLoop c)]> (timers s))
            (setIsProcessing false s))).
Proof.
  intros Hm Hr. unfold runAnalysisLoop_finally. rewrite Hm. cbv zeta.
  change (isScanningRef (setIsProcessing false s)) with (isScanningRef s).
  rewrite Hr. reflexivity.
Qed.

Lemma fulfilled_live_mode (c : Closure) (fl : InFlight)
    (objects : list DetectedObject) (endTime : Q) (now : Z) (s : State) :
  isMountedRef s = true -> isScanningRef s = true ->
  let slow := (JS.Math_round (endTime - startTime fl) >? 2500)
              && Mode_eqb (currentMode fl) accuracy in
  let s' := runAnalysisLoop_fulfilled c fl objects endTime now s in
  control s' = control s
  /\ performanceMode s' = (if slow then speed else performanceMode s)
  /\ performanceModeRef s' = performanceModeRef s
  /\ systemMessage s'
     = (if slow then Some "Network slow. Switched to Turbo Mode."%string else None)
  /\ timers s'
     = (if slow then <[nextTimer s := (3000, CbClearMessage)]> (timers s)
        else timers s)
  /\ nextTimer s' = (if slow then S (nextTimer s) else nextTimer s)
  /\ latency s' = JS.Math_round (endTime - startTime fl).
Proof.
  intros Hm Hr. cbv zeta. unfold runAnalysisLoop_fulfilled. rewrite Hm, Hr.
  cbn [andb].
  destruct ((0 <? length objects)%nat || (c_errorCount c >? 0)); cbv zeta;
    destruct (_ >? 1000);
    destruct ((JS.Math_round (endTime - startTime fl) >? 2500)
              && Mode_eqb (currentMode fl) accuracy);
    split_and?; reflexivity.
Qed.

(** X2. In a live session, an answered request whose measured latency is
    above 2500 ms, sent in accuracy mode, switches the component to speed
    mode, shows the "Network slow" message and arms a 3000 ms timer that
    clears it; any other answered request leaves the mode alone and clears
    the message.  Either way the latency is recorded and the loop is
    rescheduled. *)
Theorem slow_response_downgrades_mode
    (s : State) (k : nat) (c : Closure) (fl : InFlight) (r : ApiResponse)
    (endTime : Q) (now : Z) :
  live s -> calls s !! k = Some (c, fl) ->
  let lat := JS.Math_round (endTime - startTime fl) in
  let slow := (lat >? 2500) && Mode_eqb (currentMode fl) accuracy in
  let s' := step s (Settles k (Answered r) endTime now) in
  latency s' = lat
  /\ performanceMode s' = (if slow then speed else performanceMode s)
  /\ systemMessage s'
     = (if slow then Some "Network slow. Switched to Turbo Mode."%string else None)
  /\ (slow = true ->
      timers s' !! nextTimer s = Some (3000, CbClearMessage)
      /\ systemMessage (step s' (TimerFires (nextTimer s) (ready 0))) = None)
  /\ rescheduled c s'.
Proof.
  intros (Hm & Hs & Hr) Hk. cbv zeta.
  destruct (settles_live s k c fl (Answered r) endTime now (conj Hm (conj Hs Hr)) Hk)
    as (_ & Hres & _).
  split_and?; [| | | |exact Hres]; clear Hres.
  all: unfold step; cbn [handle event_now]; unfold settles; rewrite Hk.
  all: set (s0 := put_calls (delete k (calls s)) s).
  all: unfold runAnalysisLoop_resume, race.
  all: set (objs := analyzeVideoFrameWithGemini r).
  all: destruct (fulfilled_live_mode c fl objs endTime now s0 Hm Hr)
         as (A1 & A2 & A3 & A4 & A5 & A6 & A7).
  all: unfold control in A1; injection A1 as I1 R1 M1.
  all: set (s1 := runAnalysisLoop_fulfilled c fl objs endTime now s0) in *.
  all: assert (Hm1 : isMountedRef s1 = true) by congruence.
  all: assert (Hr1 : isScanningRef s1 = true) by congruence.
  all: pose proof (finally_live_eq c s1 Hm1 Hr1) as F.
  all: set (s2 := runAnalysisLoop_finally c s1) in *.
  all: assert (Hi2 : isScanning s2 = isScanning s)
         by (rewrite F; cbn [isScanning put_timeoutRef put_nextTimer put_timers
                               setIsProcessing]; exact I1).
  all: destruct (commit_frame now s s2 Hi2) as (B1 & B2 & B3 & B4 & B5 & B6).
  - unfold counters in B3. injection B3 as _ L. rewrite L, F. exact A7.
  - rewrite commit_mode, F. exact A2.
  - rewrite B5, F. exact A4.
  - intro Hslow.
    assert (T : timers (commit now s s2) !! nextTimer s
                = Some (3000, CbClearMessage)).
    { unfold sched in B4. injection B4 as T _ _. rewrite T, F.
      cbn [timers put_timeoutRef put_nextTimer put_timers setIsProcessing].
      rewrite A6, A5, Hslow.
      change (nextTimer s0) with (nextTimer s).
      rewrite lookup_insert_ne by lia. apply lookup_insert_eq. }
    split; [exact T|].
    set (s3 := commit now s s2) in *.
    assert (H3 : timerFires (nextTimer s) (ready 0) s3
                 = setSystemMessage None
                     (put_timers (delete (nextTimer s) (timers s3)) s3)).
    { unfold timerFires. rewrite T. reflexivity. }
    destruct (commit_frame (lastDetectionTimeRef s3) s3
                (timerFires (nextTimer s) (ready 0) s3))
      as (_ & _ & _ & _ & C5 & _).
    { rewrite H3. reflexivity. }
    rewrite C5, H3. reflexivity.
Qed.

Lemma slow_response_downgrades_mode_witness :
  let s := accuracyCallInFlight in
  let s' := step s (Settles 0 (Answered (Json (Some [car]))) 2800%Q 2800) in
  latency s' = 2700
  /\ performanceMode s' = speed
  /\ systemMessage s' = Some "Network slow. Switched to Turbo Mode."%string
  /\ (true = true ->
      timers s' !! nextTimer s = Some (3000, CbClearMessage)
      /\ systemMessage (step s' (TimerFires (nextTimer s) (ready 0))) = None)
  /\ rescheduled (mkClosure false 0 0) s'.
Proof.
  apply (slow_response_downgrades_mode accuracyCallInFlight 0 (mkClosure false 0 0)
           (mkInFlight 100 accuracy 640 (6 # 10)) (Json (Some [car])) 2800%Q 2800).
  - vm_compute. split_and?; reflexivity.
  - vm_compute. reflexivity.
Defined.

Lemma finally_mode (c : Closure) (s : State) :
  performanceMode (runAnalysisLoop_finally c s) = performanceMode s.
Proof.
  unfold runAnalysisLoop_finally. destruct (isMountedRef s); [|reflexivity].
  cbv zeta. destruct (isScanningRef (setIsProcessing false s)); reflexivity.
Qed.

Lemma handle_mode (e : Event) (s : State) :
  no_mode_toggle e = true ->
  performanceMode (handle e s) = performanceMode s
  \/ performanceMode (handle e s) = speed.
Proof.
  intro He. destruct e as [now| | |id env|call a endTime now]; try discriminate;
    unfold handle.
  - left. unfold toggleScanning.
    destruct (c_isScanning (render s)); cbv zeta.
    + change (timeoutRef (setDetectedObjects [] (setIsScanning false s)))
        with (timeoutRef s).
      destruct (timeoutRef s); reflexivity.
    + reflexivity.
  - left. reflexivity.
  - left. unfold timerFires.
    destruct (timers s !! id) as [[d [c|]]|]; try reflexivity.
    set (s0 := put_timers (delete id (timers s)) s).
    unfold runAnalysisLoop_begin.
    destruct (negb (isScanningRef s0) || negb (isMountedRef s0)); [reflexivity|].
    destruct (negb (webcamReady env)); [reflexivity|].
    cbv zeta. destruct (screenshot env); [reflexivity|].
    rewrite finally_mode. reflexivity.
  - unfold settles.
    destruct (calls s !! call) as [[c fl]|]; [|left; reflexivity].
    set (s0 := put_calls (delete call (calls s)) s).
    unfold runAnalysisLoop_resume. rewrite finally_mode.
    destruct (race a) as [objects|].
    + unfold runAnalysisLoop_fulfilled.
      destruct (isMountedRef s0 && isScanningRef s0); [|left; reflexivity].
      destruct ((0 <? length objects)%nat || (c_errorCount c >? 0)); cbv zeta;
        destruct (_ >? 1000);
        destruct ((JS.Math_round (endTime - startTime fl) >? 2500)
                  && Mode_eqb (currentMode fl) accuracy);
        (left; reflexivity) || (right; reflexivity).
    + left. unfold runAnalysisLoop_rejected.
      destruct (isMountedRef s0 && isScanningRef s0); [|reflexivity].
      cbv zeta. destruct (c_errorCount c >? 4); reflexivity.
Qed.

(** X3. The automatic mode change goes one way only: whatever happens other
    than a press of the mode button, a component in speed mode stays in
    speed mode. *)
Theorem only_the_button_leaves_speed_mode (es : list Event) (s : State) :
  forallb no_mode_toggle es = true ->
  performanceMode s = speed ->
  performanceMode (run es s) = speed.
Proof.
  revert s. induction es as [|e es IH]; intros s Hes Hs.
  - exact Hs.
  - simpl forallb in Hes. apply andb_prop in Hes as [He Hes].
    change (run (e :: es) s) with (run es (step s e)).
    apply IH; [exact Hes|].
    unfold step. rewrite commit_mode.
    destruct (handle_mode e s He) as [H|H]; congruence.
Qed.

Lemma only_the_button_leaves_speed_mode_witness :
  performanceMode (run fiveTimeouts (mount 0)) = speed.
Proof.
  apply (only_the_button_leaves_speed_mode fiveTimeouts (mount 0));
    vm_compute; reflexivity.
Defined.

(** X4. Pressing Stop resets the telemetry: the streak, the latency and the
    frame rate go back to 0, the processing flag and the system message are
    cleared. *)
Theorem stop_resets_telemetry (s : State) (now : Z) :
  isScanning s = true ->
  let s1 := step s (Click now) in
  errorCount s1 = 0 /\ latency s1 = 0 /\ inferenceFps s1 = 0
  /\ isProcessing s1 = false /\ systemMessage s1 = None.
Proof.
  intro H. cbv zeta.
  destruct (toggle_stop_fields s now H) as (A1 & A2 & A3 & A4 & A5).
  destruct (commit_stop now s (handle (Click now) s) H A1 A3)
    as (_ & _ & _ & _ & B5 & _ & _ & B8 & _).
  unfold counters in B5. injection B5 as E L.
  unfold step. cbn [event_now].
  split_and?; try assumption.
  - unfold commit. rewrite (effect_isScanning_stop s _ H A1).
    set (s1 := setInferenceFps 0 _).
    destruct (mirror_effects_frame now s s1) as (_ & F & _). exact F.
  - unfold commit. rewrite (effect_isScanning_stop s _ H A1).
    set (s1 := setInferenceFps 0 _).
    destruct (mirror_effects_frame now s s1) as (P & _). exact P.
Qed.

Lemma stop_resets_telemetry_witness :
  let s := run fiveTimeouts (mount 0) in
  let s1 := step s (Click 31000) in
  errorCount s1 = 0 /\ latency s1 = 0 /\ inferenceFps s1 = 0
  /\ isProcessing s1 = false /\ systemMessage s1 = None.
Proof.
  apply (stop_resets_telemetry (run fiveTimeouts (mount 0)) 31000).
  vm_compute. reflexivity.
Defined.

Lemma toggle_start_eq (s : State) (now : Z) :
  isScanning s = false ->
  handle (Click now) s
  = put_nextTimer (S (nextTimer s))
      (put_timers (<[nextTimer s := (100, CbLoop (render s))]> (timers s))
         (put_lastFpsUpdateRef now (put_frameCountRef 0
            (setInferenceFps 0 (setLatency 0 (setSystemMessage None
               (setErrorCount 0 (setIsScanning true s)))))))).
Proof.
  intro H. unfold handle, toggleScanning.
  change (c_isScanning (render s)) with (isScanning s). rewrite H. reflexivity.
Qed.

(** Pressing Start while not scanning. *)
Lemma click_starts (s : State) (now : Z) :
  isScanning s = false ->
  let s1 := step s (Click now) in
  isScanning s1 = true /\ isScanningRef s1 = true
  /\ errorCount s1 = 0 /\ latency s1 = 0 /\ inferenceFps s1 = 0
  /\ systemMessage s1 = None
  /\ detectedObjects s1 = detectedObjects s
  /\ timeoutRef s1 = timeoutRef s /\ calls s1 = calls s
  /\ timers s1 !! nextTimer s = Some (100, CbLoop (render s)).
Proof.
  intro H. cbv zeta. unfold step. cbn [event_now].
  rewrite (toggle_start_eq s now H).
  set (h := put_nextTimer _ _).
  unfold commit. rewrite (effect_isScanning_start s h H eq_refl).
  set (s1 := put_isScanningRef true h).
  destruct (effect_performanceMode_frame s (effect_detectedObjects now s s1))
    as (A1 & A2 & A3 & A4 & A5 & A6).
  destruct (effect_detectedObjects_frame now s s1)
    as (B1 & B2 & B3 & B4 & B5 & B6 & B7).
  destruct (mirror_effects_frame now s s1) as (_ & F & _).
  unfold control in A1, B1. injection A1 as I1 R1 _. injection B1 as I2 R2 _.
  unfold display in A2, B2. injection A2 as D1 _. injection B2 as D2 _.
  unfold counters in A4, B3. injection A4 as E1 L1. injection B3 as E2 L2.
  unfold sched in A5, B4. injection A5 as T1 TR1 K1. injection B4 as T2 TR2 K2.
  split_and?.
  - rewrite I1, I2. reflexivity.
  - rewrite R1, R2. reflexivity.
  - rewrite E1, E2. reflexivity.
  - rewrite L1, L2. reflexivity.
  - rewrite F. reflexivity.
  - rewrite A6, B5. reflexivity.
  - rewrite D1, D2. reflexivity.
  - rewrite TR1, TR2. reflexivity.
  - rewrite K1, K2. reflexivity.
  - rewrite T1, T2. subst s1 h.
    cbn [timers put_isScanningRef put_nextTimer put_timers].
    apply lookup_insert_eq.
Qed.

(** X5. Pressing Start on a component that is not scanning turns scanning on
    (state and ref), resets the streak, the latency, the frame rate and the
    message, keeps the detections, starts no request, and arms the first
    tick of the loop 100 ms later, with the closure of the current render;
    that first timer is not recorded in [timeoutRef]. *)
Theorem start_arms_first_tick (s : State) (now : Z) :
  isScanning s = false ->
  let s1 := step s (Click now) in
  isScanning s1 = true /\ isScanningRef s1 = true
  /\ errorCount s1 = 0 /\ latency s1 = 0 /\ inferenceFps s1 = 0
  /\ systemMessage s1 = None
  /\ detectedObjects s1 = detectedObjects s
  /\ timeoutRef s1 = timeoutRef s /\ calls s1 = calls s
  /\ timers s1 !! nextTimer s = Some (100, CbLoop (render s)).
Proof. exact (click_starts s now). Qed.

Lemma start_arms_first_tick_witness :
  let s := mount 0 in
  let s1 := step s (Click 5) in
  isScanning s1 = true /\ isScanningRef s1 = true
  /\ errorCount s1 = 0 /\ latency s1 = 0 /\ inferenceFps s1 = 0
  /\ systemMessage s1 = None
  /\ detectedObjects s1 = detectedObjects s
  /\ timeoutRef s1 = timeoutRef s /\ calls s1 = calls s
  /\ timers s1 !! nextTimer s = Some (100, CbLoop (render s)).
Proof. apply (start_arms_first_tick (mount 0) 5). reflexivity. Defined.

(** X6. Start followed by Stop before the first tick: the first timer is not
    cancelled (it was never recorded), but when it fires it does nothing
    beyond disappearing: the session stays stopped and empty, no request is
    started and no timer is armed. *)
Theorem first_tick_after_quick_stop_is_inert
    (s : State) (t1 t2 : Z) (env : Env) :
  isScanning s = false ->
  timeoutRef s <> Some (nextTimer s) ->
  let s2 := run [Click t1; Click t2] s in
  let s3 := step s2 (TimerFires (nextTimer s) env) in
  timers s2 !! nextTimer s = Some (100, CbLoop (render s))
  /\ stopped s2 /\ stopped s3
  /\ calls s3 = calls s
  /\ timers s3 = delete (nextTimer s) (timers s2).
Proof.
  intros H Hne. cbv zeta.
  change (run [Click t1; Click t2] s) with (step (step s (Click t1)) (Click t2)).
  destruct (click_starts s t1 H)
    as (I1 & R1 & _ & _ & _ & _ & _ & TR1 & K1 & T1).
  set (s1 := step s (Click t1)) in *.
  destruct (toggle_stop_fields s1 t2 I1) as (A1 & A2 & A3 & A4 & A5).
  destruct (commit_stop t2 s1 (handle (Click t2) s1) I1 A1 A3)
    as (_ & _ & _ & _ & _ & B6 & B7 & _).
  destruct (click_stops s1 t2 I1) as (S2 & _ & _ & K2 & _).
  assert (T2 : timers (step s1 (Click t2)) !! nextTimer s
               = Some (100, CbLoop (render s))).
  { unfold step. cbn [event_now]. rewrite B6, A5, TR1.
    destruct (timeoutRef s) as [id|] eqn:E; [|exact T1].
    rewrite lookup_delete_ne by congruence. exact T1. }
  set (s2 := step s1 (Click t2)) in *.
  assert (Hr2 : isScanningRef s2 = false) by apply S2.
  assert (Hh : timerFires (nextTimer s) env s2
               = put_timers (delete (nextTimer s) (timers s2)) s2).
  { unfold timerFires. rewrite T2. cbv zeta.
    rewrite runAnalysisLoop_begin_idle by exact Hr2. reflexivity. }
  destruct (stopped_step s2 (TimerFires (nextTimer s) env) S2 eq_refl)
    as (S3 & _ & _).
  destruct (commit_frame (lastDetectionTimeRef s2) s2
              (timerFires (nextTimer s) env s2))
    as (_ & _ & _ & C4 & _); [rewrite Hh; reflexivity|].
  unfold sched in C4. injection C4 as T3 _ K3.
  split_and?; try assumption.
  - unfold step at 1. cbn [handle event_now]. rewrite K3, Hh.
    cbn [calls put_timers]. rewrite K2. exact K1.
  - unfold step at 1. cbn [handle event_now]. rewrite T3, Hh. reflexivity.
Qed.

Lemma first_tick_after_quick_stop_is_inert_witness :
  let s := mount 0 in
  let s2 := run [Click 10; Click 50] s in
  let s3 := step s2 (TimerFires (nextTimer s) (ready 110)) in
  timers s2 !! nextTimer s = Some (100, CbLoop (render s))
  /\ stopped s2 /\ stopped s3
  /\ calls s3 = calls s
  /\ timers s3 = delete (nextTimer s) (timers s2).
Proof.
  apply (first_tick_after_quick_stop_is_inert (mount 0) 10 50 (ready 110)).
  - reflexivity.
  - vm_compute. discriminate.
Defined.

(** X7. In every state reachable from a mount, the scanning ref mirrors the
    scanning state, and while the component is not scanning the streak and
    the latency are 0. *)
Theorem reachable_states_mirror_scanning (es : list Event) (now : Z) :
  let s := run es (mount now) in
  isScanningRef s = isScanning s
  /\ (isScanning s = false -> errorCount s = 0 /\ latency s = 0).
Proof.
  cbv zeta.
  destruct (run_consistent es (mount now) (mount_consistent now))
    as (_ & Hr & Hc & _).
  split; [exact Hr|].
  intro H. specialize (Hc H). unfold counters in Hc. injection Hc as E L. auto.
Qed.

Lemma loop_never_backs_off_witness :
  c_errorCount startClosure = 0 /\ 30 <= 200.
Proof.
  apply (loop_never_backs_off carThenWaiting 0 2 30 startClosure).
  vm_compute. reflexivity.
Defined.

Lemma empty_result_never_applied_witness :
  let s := run carThenTimeout (mount 0) in
  detectedObjects (step s (Settles 2 (Answered MalformedJson) 6800%Q 6800))
  = detectedObjects s.
Proof.
  apply (empty_result_never_applied carThenTimeout 0 2 MalformedJson 6800%Q 6800).
  reflexivity.
Defined.

(** ** C1: a restart lets the result of the old call through *)

Lemma click_keeps_mounted (s : State) (now : Z) :
  isMountedRef (step s (Click now)) = isMountedRef s.
Proof.
  destruct (isScanning s) eqn:H.
  - destruct (toggle_stop_fields s now H) as (A1 & _ & A3 & _).
    destruct (commit_stop now s (handle (Click now) s) H A1 A3)
      as (_ & _ & _ & _ & _ & _ & _ & _ & M).
    unfold step. cbn [event_now]. rewrite M.
    unfold handle, toggleScanning, render. cbn [c_isScanning]. rewrite H.
    cbv zeta.
    change (timeoutRef (setDetectedObjects [] (setIsScanning false s)))
      with (timeoutRef s).
    destruct (timeoutRef s); reflexivity.
  - unfold step. cbn [event_now]. rewrite (toggle_start_eq s now H).
    set (h := put_nextTimer _ _).
    unfold commit. rewrite (effect_isScanning_start s h H eq_refl).
    set (s1 := put_isScanningRef true h).
    destruct (effect_performanceMode_frame s (effect_detectedObjects now s s1))
      as (A1 & _).
    destruct (effect_detectedObjects_frame now s s1) as (B1 & _).
    unfold control in A1, B1. injection A1 as _ _ M1. injection B1 as _ _ M2.
    rewrite M1, M2. reflexivity.
Qed.

(** What a live session shows after one of its calls is answered: line 111,
    with the streak of the closure that made the call. *)
Lemma settles_live_display (s : State) (k : nat) (c : Closure) (fl : InFlight)
    (r : ApiResponse) (endTime : Q) (now : Z) :
  live s -> calls s !! k = Some (c, fl) ->
  detectedObjects (step s (Settles k (Answered r) endTime now))
  = (if (0 <? length (analyzeVideoFrameWithGemini r))%nat || (c_errorCount c >? 0)
     then analyzeVideoFrameWithGemini r else detectedObjects s).
Proof.
  intros (Hm & Hs & Hr) Hk.
  set (h := handle (Settles k (Answered r) endTime now) s).
  assert (Hh : isScanning h = isScanning s
               /\ detectedObjects h
                  = (if (0 <? length (analyzeVideoFrameWithGemini r))%nat
                        || (c_errorCount c >? 0)
                     then analyzeVideoFrameWithGemini r else detectedObjects s)).
  { subst h. unfold handle, settles. rewrite Hk.
    set (s0 := put_calls (delete k (calls s)) s).
    unfold runAnalysisLoop_resume, race.
    destruct (runAnalysisLoop_fulfilled_live c fl (analyzeVideoFrameWithGemini r)
                endTime now s0 Hm Hr) as (A1 & _ & _ & A4).
    unfold control in A1. injection A1 as I1 R1 M1.
    destruct (runAnalysisLoop_finally_live c
                (runAnalysisLoop_fulfilled c fl (analyzeVideoFrameWithGemini r)
                   endTime now s0))
      as (B1 & B2 & _); [congruence | congruence |].
    unfold control in B1. injection B1 as I2 R2 M2.
    unfold display in B2. injection B2 as D2 _.
    split; [congruence|]. rewrite D2, A4. reflexivity. }
  destruct Hh as (Hi & Hd).
  destruct (commit_frame now s h Hi) as (_ & B2 & _).
  unfold display in B2. injection B2 as D _.
  unfold step. cbn [event_now]. fold h. congruence.
Qed.

(** C1. The result of a call that was in flight when Stop was pressed is
    applied all the same if Start is pressed again before the call
    resolves.  Take a mounted, scanning component with a call [i] in flight.
    Stop empties the detections and leaves the call in flight; Start makes
    the component live again, still showing nothing; when the old call then
    resolves with a non-empty list, the guard of line 108 reads the scanning
    ref of the new session, so the list is put on display, and the loop of
    the old call re-arms itself. *)
Theorem restart_applies_in_flight_result
    (s : State) (i : nat) (c : Closure) (fl : InFlight)
    (objects : list DetectedObject) (stopAt startAt : Z) (endTime : Q) (now : Z) :
  isMountedRef s = true -> isScanning s = true ->
  calls s !! i = Some (c, fl) -> objects <> [] ->
  let s1 := step s (Click stopAt) in
  let s2 := step s1 (Click startAt) in
  let s3 := step s2 (Settles i (Answered (Json (Some objects))) endTime now) in
  stopped s1 /\ calls s1 !! i = Some (c, fl)
  /\ live s2 /\ detectedObjects s2 = []
  /\ detectedObjects s3 = objects
  /\ live s3 /\ rescheduled c s3.
Proof.
  intros Hm Hs Hk Ho. cbv zeta.
  destruct (click_stops s stopAt Hs) as (S1 & _ & _ & K1 & _).
  pose proof (click_keeps_mounted s stopAt) as M1.
  set (s1 := step s (Click stopAt)) in *.
  assert (I1 : isScanning s1 = false) by (destruct S1 as (I & _); exact I).
  destruct (click_starts s1 startAt I1)
    as (I2 & R2 & _ & _ & _ & _ & D2 & _ & K2 & _).
  pose proof (click_keeps_mounted s1 startAt) as M2.
  set (s2 := step s1 (Click startAt)) in *.
  assert (L2 : live s2) by (unfold live; split_and?; congruence).
  assert (Hk2 : calls s2 !! i = Some (c, fl)) by (rewrite K2, K1; exact Hk).
  destruct (settles_live s2 i c fl (Answered (Json (Some objects))) endTime now
              L2 Hk2) as (L3 & RS3 & _).
  pose proof (settles_live_display s2 i c fl (Json (Some objects)) endTime now
                L2 Hk2) as D3.
  change (analyzeVideoFrameWithGemini (Json (Some objects))) with objects in D3.
  assert (Hlen : (0 <? length objects)%nat = true).
  { destruct objects; [congruence|reflexivity]. }
  rewrite Hlen in D3. cbn [orb] in D3.
  split_and?; try assumption.
  - rewrite K1. exact Hk.
  - rewrite D2. destruct S1 as (_ & _ & D & _). exact D.
Qed.

(** On a fresh mount: Start, the first tick sends a request, Stop at 500 ms,
    Start at 600 ms, and at 900 ms the request of the first session is
    answered with a car. *)
Lemma restart_applies_in_flight_result_witness :
  let s := firstCallInFlight in
  let s1 := step s (Click 500) in
  let s2 := step s1 (Click 600) in
  let s3 := step s2 (Settles 0 (Answered (Json (Some [car]))) 900%Q 900) in
  stopped s1
  /\ calls s1 !! 0%nat = Some (startClosure, mkInFlight 100%Q speed 320 (5 # 10)%Q)
  /\ live s2 /\ detectedObjects s2 = []
  /\ detectedObjects s3 = [car]
  /\ live s3 /\ rescheduled startClosure s3.
Proof.
  apply (restart_applies_in_flight_result firstCallInFlight 0 startClosure
           (mkInFlight 100%Q speed 320 (5 # 10)%Q) [car] 500 600 900%Q 900).
  - vm_compute. reflexivity.
  - vm_compute. reflexivity.
  - vm_compute. reflexivity.
  - discriminate.
Defined.

(** * Further properties of the renderers *)

Local Open Scope Q_scope.

Lemma gtb_false_of_zero (q : Q) : q == 0 -> JS.gtb q 0 = false.
Proof. intro H. unfold JS.gtb. apply ltb_false. lra. Qed.

(** X11. The frame drawn right after Stop is blank: the canvas is cleared
    and nothing else is drawn, whatever was on display and however recent it
    was. *)
Theorem hud_blank_after_stop
    (measureText : string -> Q) (s : State) (now : Z) (sinTime : Q) (t : Z)
    (threshold : Q) (showLabels : bool) (W H : Q) :
  isScanning s = true ->
  let s1 := step s (Click now) in
  draw measureText true (isScanningRef s1) sinTime t (lastDetectionTimeRef s1)
       threshold showLabels W H (detectedObjectsRef s1)
  = [ClearRect 0 0 W H].
Proof.
  intro Hs. cbv zeta.
  destruct (click_stops s now Hs) as ((_ & Hr & _ & Hd) & _).
  rewrite Hr, Hd. unfold draw. cbn [negb forEach app].
  destruct (JS.gtb _ 0); reflexivity.
Qed.

Lemma hud_blank_after_stop_witness :
  let s1 := step (run carThenWaiting (mount 0)) (Click 410) in
  draw measure50 true (isScanningRef s1) 0 420 (lastDetectionTimeRef s1)
       (4 # 10) true 1000 1000 (detectedObjectsRef s1)
  = [ClearRect 0 0 1000 1000].
Proof.
  apply (hud_blank_after_stop measure50 (run carThenWaiting (mount 0)) 410 0 420
           (4 # 10) true 1000 1000).
  vm_compute. reflexivity.
Defined.

(** X12. Once 1500 ms have passed since the last non-empty detection set
    arrived, [draw] draws no detection at all: only the clear and, while
    scanning, the scan line. *)
Theorem stale_detections_not_drawn
    (measureText : string -> Q) (scanning : bool) (sinTime : Q)
    (now lastAt : Z) (threshold : Q) (showLabels : bool) (W H : Q)
    (objects : list DetectedObject) :
  (1500 <= now - lastAt)%Z ->
  draw measureText true scanning sinTime now lastAt threshold showLabels W H objects
  = ClearRect 0 0 W H :: (if scanning then scanLine sinTime W H else []).
Proof.
  intro Hl. unfold draw. cbn [negb].
  rewrite (gtb_false_of_zero _ (opacity_late now lastAt Hl)).
  rewrite app_nil_r. reflexivity.
Qed.

Lemma stale_detections_not_drawn_witness :
  draw measure50 true false 0 2500 1000 (4 # 10) true 1000 1000 [car]
  = ClearRect 0 0 1000 1000 :: [].
Proof.
  apply (stale_detections_not_drawn measure50 false 0 2500 1000 (4 # 10) true
           1000 1000 [car]).
  lia.
Defined.

Lemma chips_app (l1 l2 : list DrawCmd) : chips (l1 ++ l2) = chips l1 ++ chips l2.
Proof. unfold chips. apply omap_app. Qed.

Lemma chips_drawObject (measureText : string -> Q) (threshold : Q)
    (showLabels : bool) (fade W H : Q) (obj : DetectedObject) (idx : nat) :
  length (chips (drawObject measureText threshold showLabels fade W H obj idx))
  = if JS.ltb (confidence obj) threshold then 0%nat
    else if showLabels then 1%nat else 0%nat.
Proof.
  unfold drawObject.
  destruct (JS.ltb (confidence obj) threshold); [reflexivity|].
  destruct showLabels; reflexivity.
Qed.

Lemma chips_forEach_drawObject (measureText : string -> Q) (threshold : Q)
    (showLabels : bool) (fade W H : Q) (objects : list DetectedObject) (idx : nat) :
  length (chips (forEach (drawObject measureText threshold showLabels fade W H)
                         idx objects))
  = if showLabels then length (drawn threshold objects) else 0%nat.
Proof.
  revert idx. induction objects as [|obj objects IH]; intro idx.
  - destruct showLabels; reflexivity.
  - cbn [forEach]. rewrite chips_app, length_app, chips_drawObject, IH.
    unfold drawn. cbn [List.filter].
    destruct (JS.ltb (confidence obj) threshold); cbn [negb];
      destruct showLabels; reflexivity.
Qed.

(** X13. While the detections are fresh (less than 1500 ms old), [draw]
    draws exactly one label chip per detection whose confidence is not below
    the threshold when labels are on, and none when labels are off. *)
Theorem hud_labels_match_threshold
    (measureText : string -> Q) (scanning : bool) (sinTime : Q)
    (now lastAt : Z) (threshold : Q) (showLabels : bool) (W H : Q)
    (objects : list DetectedObject) :
  (now - lastAt < 1500)%Z ->
  length (chips (draw measureText true scanning sinTime now lastAt threshold
                      showLabels W H objects))
  = if showLabels then length (drawn threshold objects) else 0%nat.
Proof.
  intro Hl. unfold draw. cbn [negb].
  assert (Hop : JS.gtb (opacity now lastAt) 0 = true).
  { unfold JS.gtb. apply ltb_true. rewrite opacity_early by lia.
    assert (Hq : inject_Z (now - lastAt) < 1500).
    { change 1500 with (inject_Z 1500). rewrite <- Zlt_Qlt. lia. }
    lra. }
  rewrite Hop.
  change (ClearRect 0 0 W H :: ?l) with ([ClearRect 0 0 W H] ++ l).
  rewrite !chips_app, !length_app, chips_forEach_drawObject.
  destruct scanning; reflexivity.
Qed.

Lemma hud_labels_match_threshold_witness :
  length (chips (draw measure50 true true 0 1200 1000 (4 # 10) true 1000 1000
                      [car; mkObj "bus" (3 # 10) (mkBox 0 0 10 10)]))
  = length (drawn (4 # 10) [car; mkObj "bus" (3 # 10) (mkBox 0 0 10 10)]).
Proof.
  apply (hud_labels_match_threshold measure50 true 0 1200 1000 (4 # 10) true
           1000 1000 [car; mkObj "bus" (3 # 10) (mkBox 0 0 10 10)]).
  lia.
Defined.

Lemma chips_drawAnnotation (measureText : string -> Q) (W H : Q)
    (obj : DetectedObject) (idx : nat) :
  chips (drawAnnotation measureText W H obj idx)
  = [annotLabel measureText (annotText obj)
       (rx (mapBox (box_2d obj) W H)) (ry (mapBox (box_2d obj) W H)) W].
Proof. reflexivity. Qed.

Lemma mapBox_origin_nonneg (b : Box) (W H : Q) :
  0 <= W -> 0 <= H -> 0 <= xmin b -> 0 <= ymin b ->
  0 <= rx (mapBox b W H) /\ 0 <= ry (mapBox b W H).
Proof.
  intros HW HH Hx Hy. unfold mapBox. cbn [rx ry].
  rewrite !(div_by_const _ 1000). split; nra.
Qed.

Lemma annot_chips_fit (measureText : string -> Q) (W H : Q)
    (objects : list DetectedObject) (idx : nat) :
  forallb (fun c => Qle_bool (chipX c + chipW c) W)
    (chips (forEach (drawAnnotation measureText W H) idx objects)) = true.
Proof.
  revert idx. induction objects as [|obj objects IH]; intro idx; [reflexivity|].
  cbn [forEach]. rewrite chips_app, forallb_app, IH, chips_drawAnnotation.
  cbn [forallb]. rewrite !Bool.andb_true_r. apply Qle_bool_iff.
  apply annotLabel_placement.
Qed.

Lemma annot_chips_on_canvas (measureText : string -> Q) (W H : Q)
    (objects : list DetectedObject) (idx : nat) :
  0 <= W -> 0 <= H ->
  Forall (fun obj => 0 <= xmin (box_2d obj) /\ 0 <= ymin (box_2d obj)
                     /\ measureText (annotText obj) + 12 <= W) objects ->
  Forall (chip_on_canvas W)
    (chips (forEach (drawAnnotation measureText W H) idx objects)).
Proof.
  intros HW HH Hall. revert idx.
  induction Hall as [|obj objects (Hx & Hy & Hm) Hall IH]; intro idx.
  - constructor.
  - cbn [forEach]. rewrite chips_app, chips_drawAnnotation.
    cbn [app]. constructor; [|apply IH].
    destruct (mapBox_origin_nonneg (box_2d obj) W H HW HH Hx Hy) as (X0 & Y0).
    set (x := rx (mapBox (box_2d obj) W H)) in *.
    set (y := ry (mapBox (box_2d obj) W H)) in *.
    destruct (annotLabel_placement measureText (annotText obj) x y W)
      as (Cw & _ & Ya & Yb & Xa & Xb & Fit).
    unfold chip_on_canvas. split_and?.
    + destruct (Qlt_le_dec W (x + (measureText (annotText obj) + 6 * 2)))
        as [L|L].
      * rewrite (Xb L). lra.
      * rewrite (Xa L). exact X0.
    + exact Fit.
    + destruct (Qlt_le_dec (y - 22) 0) as [L|L].
      * rewrite (Yb L). exact Y0.
      * rewrite (Ya L). exact L.
Qed.

(** X14. In the static annotator every label chip ends at or before the
    right edge of the canvas, whatever the box and the label; and for boxes
    whose top-left corner is on the canvas and labels no wider than the
    canvas, every chip also starts on the canvas, to the left and at the
    top. *)
Theorem static_labels_stay_on_canvas
    (measureText : string -> Q) (canvasW canvasH W H : Q)
    (objects : list DetectedObject) :
  chips_fit W (drawAnnotations measureText true canvasW canvasH W H objects) = true
  /\ (0 <= W -> 0 <= H ->
      Forall (fun obj => 0 <= xmin (box_2d obj) /\ 0 <= ymin (box_2d obj)
                         /\ measureText (annotText obj) + 12 <= W) objects ->
      Forall (chip_on_canvas W)
        (chips (drawAnnotations measureText true canvasW canvasH W H objects))).
Proof.
  unfold drawAnnotations, chips_fit.
  change (ClearRect 0 0 W H :: forEach (drawAnnotation measureText W H) 0 objects)
    with ([ClearRect 0 0 W H] ++ forEach (drawAnnotation measureText W H) 0 objects).
  rewrite chips_app.
  change (chips [ClearRect 0 0 W H]) with (@nil Chip). cbn [app].
  split; [apply annot_chips_fit | apply annot_chips_on_canvas].
Qed.










Lemma strokeHues_app (l1 l2 : list DrawCmd) :
  strokeHues (l1 ++ l2) = strokeHues l1 ++ strokeHues l2.
Proof. unfold strokeHues. apply omap_app. Qed.

Lemma strokeHues_forEach (measureText : string -> Q) (W H : Q)
    (objects : list DetectedObject) (idx : nat) :
  strokeHues (forEach (drawAnnotation measureText W H) idx objects)
  = map (fun i => hue (Z.of_nat i)) (seq idx (length objects)).
Proof.
  revert idx. induction objects as [|obj objects IH]; intro idx; [reflexivity|].
  cbn [forEach]. rewrite strokeHues_app, IH. reflexivity.
Qed.

Lemma firstHues_360_NoDup : NoDup (firstHues 360).
Proof.
  apply (bool_decide_eq_true_1 (NoDup (firstHues 360))). vm_compute. reflexivity.
Qed.

Lemma firstHues_NoDup (n : nat) : (n <= 360)%nat -> NoDup (firstHues n).
Proof.
  intro Hn. pose proof firstHues_360_NoDup as H.
  replace 360%nat with (n + (360 - n))%nat in H by lia.
  unfold firstHues in *. rewrite seq_app, map_app in H.
  apply NoDup_app in H. apply H.
Qed.

(** X17. The static annotator strokes the k-th box it is given with the hue
    of index k, so as long as it is given at most 360 boxes no two of them
    are stroked in the same hue. *)
Theorem static_boxes_get_distinct_hues
    (measureText : string -> Q) (canvasW canvasH W H : Q)
    (objects : list DetectedObject) :
  (length objects <= 360)%nat ->
  strokeHues (drawAnnotations measureText true canvasW canvasH W H objects)
  = firstHues (length objects)
  /\ NoDup (strokeHues (drawAnnotations measureText true canvasW canvasH W H objects)).
Proof.
  intro Hn.
  assert (E : strokeHues (drawAnnotations measureText true canvasW canvasH W H objects)
              = firstHues (length objects)).
  { unfold drawAnnotations.
    change (ClearRect 0 0 W H :: forEach (drawAnnotation measureText W H) 0 objects)
      with ([ClearRect 0 0 W H] ++ forEach (drawAnnotation measureText W H) 0 objects).
    rewrite strokeHues_app, strokeHues_forEach. reflexivity. }
  split; [exact E|]. rewrite E. apply firstHues_NoDup, Hn.
Qed.

Lemma static_boxes_get_distinct_hues_witness :
  strokeHues (drawAnnotations measure50 true 1000 1000 1000 1000 [car; flipped])
  = firstHues 2
  /\ NoDup (strokeHues (drawAnnotations measure50 true 1000 1000 1000 1000
                          [car; flipped])).
Proof.
  apply (static_boxes_get_distinct_hues measure50 1000 1000 1000 1000 [car; flipped]).
  cbn. lia.
Defined.

(** * Properties of the heat map *)

Local Open Scope Q_scope.

Lemma Math_max_ge (a b : Q) : a <= JS.Math_max a b /\ b <= JS.Math_max a b.
Proof.
  unfold JS.Math_max. destruct (JS.ltb a b) eqn:E.
  - apply ltb_true in E. lra.
  - apply ltb_false in E. lra.
Qed.

Lemma Math_max_floor (a : Q) : a <= 20 -> JS.Math_max a 20 == 20.
Proof.
  intro H. unfold JS.Math_max. destruct (JS.ltb a 20) eqn:E; [reflexivity|].
  apply ltb_false in E. lra.
Qed.

Lemma div_pos (a b : Q) : 0 < a -> 0 < b -> 0 < a / b.
Proof.
  intros Ha Hb. unfold Qdiv. apply Qmult_lt_0_compat; [exact Ha|].
  apply Qinv_lt_0_compat. exact Hb.
Qed.

Lemma Math_max_Qmax (a b : Q) : JS.Math_max a b == Qmax a b.
Proof.
  unfold JS.Math_max. destruct (JS.ltb a b) eqn:E.
  - apply ltb_true in E. symmetry. apply Q.max_r. lra.
  - apply ltb_false in E. symmetry. apply Q.max_l. exact E.
Qed.

Lemma Math_min_Qmin (a b : Q) : JS.Math_min a b == Qmin a b.
Proof.
  unfold JS.Math_min. destruct (JS.ltb b a) eqn:E.
  - apply ltb_true in E. symmetry. apply Q.min_r. lra.
  - apply ltb_false in E. symmetry. apply Q.min_l. exact E.
Qed.

(** X18. Every heat blob has, in each direction, a radius equal to the
    larger of 20 pixels and the side of the box divided by 1.5: at least 20,
    and exactly 20 across a box of no or negative extent.  Its gradient
    radius is the longer of the two radii, its vertical squash factor is
    positive and takes [radiusX] to [radiusY], and its core intensity is the
    confidence capped at 0.9, halved at offset 0.4 and zero at the edge. *)
Theorem heat_blob_has_minimum_size (obj : DetectedObject) (W H : Q) :
  let b := HeatField.blob obj W H in
  let r := mapBox (box_2d obj) W H in
  HeatField.radiusX b == Qmax (rw r / (15 # 10)) 20
  /\ HeatField.radiusY b == Qmax (rh r / (15 # 10)) 20
  /\ 20 <= HeatField.radiusX b /\ 20 <= HeatField.radiusY b
  /\ (0 <= W -> xmax (box_2d obj) <= xmin (box_2d obj) -> HeatField.radiusX b == 20)
  /\ (0 <= H -> ymax (box_2d obj) <= ymin (box_2d obj) -> HeatField.radiusY b == 20)
  /\ HeatField.gradientRadius b == Qmax (HeatField.radiusX b) (HeatField.radiusY b)
  /\ 0 < HeatField.scaleY b
  /\ HeatField.scaleY b * HeatField.radiusX b == HeatField.radiusY b
  /\ HeatField.intensity b == Qmin (confidence obj) (9 # 10)
  /\ Forall2 (fun stop expected => fst stop == fst expected
                                   /\ snd stop == snd expected)
       (HeatField.stops b)
       [ (0, HeatField.intensity b); (4 # 10, HeatField.intensity b / 2); (1, 0) ].
Proof.
  cbv zeta. unfold HeatField.blob, mapBox. cbv zeta.
  cbn [HeatField.radiusX HeatField.radiusY HeatField.gradientRadius
       HeatField.scaleY HeatField.intensity HeatField.stops rw rh].
  set (bw := (xmax (box_2d obj) - xmin (box_2d obj)) / 1000 * W).
  set (bh := (ymax (box_2d obj) - ymin (box_2d obj)) / 1000 * H).
  destruct (Math_max_ge (bw / (15 # 10)) 20) as (_ & X20).
  destruct (Math_max_ge (bh / (15 # 10)) 20) as (_ & Y20).
  assert (E : forall q, q / (15 # 10) == q * (10 # 15)) by (intro; reflexivity).
  split_and?; try assumption.
  - apply Math_max_Qmax.
  - apply Math_max_Qmax.
  - intros HW Hx. apply Math_max_floor. subst bw.
    rewrite E, (div_by_const _ 1000). nra.
  - intros HH Hy. apply Math_max_floor. subst bh.
    rewrite E, (div_by_const _ 1000). nra.
  - apply Math_max_Qmax.
  - apply div_pos; lra.
  - rewrite Qmult_comm. apply Qmult_div_r. lra.
  - apply Math_min_Qmin.
  - repeat constructor; cbn [fst snd]; try reflexivity.
    change (JS.Math_min (confidence obj) (9 # 10) / 2)
      with (JS.Math_min (confidence obj) (9 # 10) * (1 # 2)).
    lra.
Qed.

(** X19. For a box with [0 <= xmin <= xmax <= 1000] and
    [0 <= ymin <= ymax <= 1000], the heat blob is centred on the centre of
    the box, which lies on the canvas. *)
Theorem heat_blob_centred_on_box (obj : DetectedObject) (W H : Q) :
  0 <= W -> 0 <= H ->
  0 <= xmin (box_2d obj) -> xmin (box_2d obj) <= xmax (box_2d obj) ->
  xmax (box_2d obj) <= 1000 ->
  0 <= ymin (box_2d obj) -> ymin (box_2d obj) <= ymax (box_2d obj) ->
  ymax (box_2d obj) <= 1000 ->
  let b := HeatField.blob obj W H in
  let r := mapBox (box_2d obj) W H in
  HeatField.centerX b == rx r + rw r / 2
  /\ HeatField.centerY b == ry r + rh r / 2
  /\ 0 <= HeatField.centerX b /\ HeatField.centerX b <= W
  /\ 0 <= HeatField.centerY b /\ HeatField.centerY b <= H.
Proof.
  intros HW HH Hx0 Hx1 Hx2 Hy0 Hy1 Hy2. cbv zeta.
  unfold HeatField.blob, mapBox. cbv zeta.
  cbn [HeatField.centerX HeatField.centerY rx ry rw rh].
  assert (E : forall q, q / 2 == q * (1 # 2)) by (intro; reflexivity).
  split_and?; try reflexivity; rewrite E, !(div_by_const _ 1000); nra.
Qed.

Lemma heat_blob_centred_on_box_witness :
  let b := HeatField.blob car 1000 1000 in
  let r := mapBox (box_2d car) 1000 1000 in
  HeatField.centerX b == rx r + rw r / 2
  /\ HeatField.centerY b == ry r + rh r / 2
  /\ 0 <= HeatField.centerX b /\ HeatField.centerX b <= 1000
  /\ 0 <= HeatField.centerY b /\ HeatField.centerY b <= 1000.
Proof.
  apply (heat_blob_centred_on_box car 1000 1000); vm_compute; discriminate.
Defined.

Local Open Scope Z_scope.

Lemma in_heatLevels (alpha : Z) : 10 < alpha <= 255 -> In alpha heatLevels.
Proof.
  intro H. unfold heatLevels.
  replace alpha with (Z.of_nat (Z.to_nat alpha)) by lia.
  apply in_map, in_seq. lia.
Qed.

Lemma heatColour_any_rgb (r g b alpha : Z) :
  10 < alpha ->
  Heatmap.recolorPixel (Heatmap.mkPixel r g b alpha) = heatColour alpha.
Proof.
  intro H. unfold heatColour, Heatmap.recolorPixel. cbn [Heatmap.A].
  destruct (alpha >? 10) eqn:E; [reflexivity|].
  rewrite Z.gtb_ltb, Z.ltb_ge in E. lia.
Qed.

(** X20. The recolor pass never produces an opaque pixel: a pixel whose
    accumulated intensity is at most 10 becomes fully transparent and keeps
    its colour bytes; any other pixel gets the intensity capped at 180 as
    alpha, and colour bytes that depend on the intensity alone and are
    bytes. *)
Theorem recolor_caps_alpha (p : Heatmap.Pixel) :
  let q := Heatmap.recolorPixel p in
  (Heatmap.A p <= 10 ->
   Heatmap.A q = 0 /\ Heatmap.R q = Heatmap.R p /\ Heatmap.G q = Heatmap.G p
   /\ Heatmap.B q = Heatmap.B p)
  /\ (10 < Heatmap.A p ->
      q = heatColour (Heatmap.A p)
      /\ Heatmap.A q = Z.min 180 (Heatmap.A p) /\ 10 < Heatmap.A q <= 180
      /\ byte (Heatmap.R q) /\ byte (Heatmap.G q) /\ byte (Heatmap.B q)).
Proof.
  cbv zeta. destruct p as [r g b a]. cbn [Heatmap.A Heatmap.R Heatmap.G Heatmap.B].
  split.
  - intro H. unfold Heatmap.recolorPixel. cbn [Heatmap.A].
    destruct (a >? 10) eqn:E; [rewrite Z.gtb_ltb, Z.ltb_lt in E; lia|].
    cbn. auto.
  - intro H. rewrite (heatColour_any_rgb r g b a H).
    unfold heatColour, Heatmap.recolorPixel. cbn [Heatmap.A].
    destruct (a >? 10) eqn:E; [|rewrite Z.gtb_ltb, Z.ltb_ge in E; lia].
    unfold Heatmap.stored.
    destruct (Heatmap.ramp (inject_Z a / 255)) as [[cr cg] cb].
    cbn [Heatmap.A Heatmap.R Heatmap.G Heatmap.B].
    unfold byte, JS.toUint8Clamped. cbv zeta.
    split_and?; try reflexivity; lia.
Qed.

(** X21. Every colour the recolor pass produces is a fully saturated hue:
    for every accumulated intensity from 11 to 255 the largest of the three
    colour bytes is 255 and the smallest is 0. *)
Theorem heat_colours_are_saturated (alpha : Z) :
  10 < alpha <= 255 ->
  let c := heatColour alpha in
  Z.max (Z.max (Heatmap.R c) (Heatmap.G c)) (Heatmap.B c) = 255
  /\ Z.min (Z.min (Heatmap.R c) (Heatmap.G c)) (Heatmap.B c) = 0.
Proof.
  intro H. cbv zeta.
  assert (A : forallb (fun a => saturated (heatColour a)) heatLevels = true)
    by (vm_compute; reflexivity).
  rewrite forallb_forall in A. specialize (A alpha (in_heatLevels alpha H)).
  unfold saturated in A. apply andb_prop in A as [A1 A2].
  apply Z.eqb_eq in A1, A2. auto.
Qed.

Lemma heat_colours_are_saturated_witness :
  let c := heatColour 64 in
  Z.max (Z.max (Heatmap.R c) (Heatmap.G c)) (Heatmap.B c) = 255
  /\ Z.min (Z.min (Heatmap.R c) (Heatmap.G c)) (Heatmap.B c) = 0.
Proof. apply (heat_colours_are_saturated 64). lia. Defined.

(** X22. A hotter pixel is never less red and never more blue: between any
    two accumulated intensities from 11 to 255, the red byte does not
    decrease and the blue byte does not increase as the intensity grows. *)
Theorem heat_ramp_warms_monotonically (a b : Z) :
  10 < a -> a <= b -> b <= 255 ->
  Heatmap.R (heatColour a) <= Heatmap.R (heatColour b)
  /\ Heatmap.B (heatColour b) <= Heatmap.B (heatColour a).
Proof.
  intros Ha Hab Hb.
  assert (A : forallb (fun x => warmer x (x + 1)) heatLevels = true)
    by (vm_compute; reflexivity).
  rewrite forallb_forall in A.
  assert (S : forall x, 10 < x < 255 ->
              Heatmap.R (heatColour x) <= Heatmap.R (heatColour (x + 1))
              /\ Heatmap.B (heatColour (x + 1)) <= Heatmap.B (heatColour x)).
  { intros x Hx. specialize (A x (in_heatLevels x ltac:(lia))).
    unfold warmer in A.
    destruct (x <=? x + 1) eqn:E; [|rewrite Z.leb_gt in E; lia].
    cbn [negb orb] in A. apply andb_prop in A as [A1 A2].
    apply Z.leb_le in A1, A2. auto. }
  replace b with (a + Z.of_nat (Z.to_nat (b - a))) in * by lia.
  induction (Z.to_nat (b - a)) as [|n IH].
  - rewrite Z.add_0_r. lia.
  - replace (a + Z.of_nat (Datatypes.S n)) with (a + Z.of_nat n + 1) in * by lia.
    destruct IH as (I1 & I2); [lia | lia |].
    destruct (S (a + Z.of_nat n)) as (S1 & S2); [lia|]. lia.
Qed.

Lemma heat_ramp_warms_monotonically_witness :
  Heatmap.R (heatColour 64) <= Heatmap.R (heatColour 200)
  /\ Heatmap.B (heatColour 200) <= Heatmap.B (heatColour 64).
Proof. apply (heat_ramp_warms_monotonically 64 200); lia. Defined.

(** * Properties of the batch analysis and of the analysis tool *)

Local Open Scope Z_scope.

(** *** Stripping the code fences *)

Lemma startsWith_backtick_false (p : string) (ch : ascii) (rest : string) :
  Ascii.eqb ch "`" = false ->
  Gemini.startsWith (String "`" p) (String ch rest) = false.
Proof.
  intro H. cbn [Gemini.startsWith]. rewrite Ascii.eqb_sym, H. reflexivity.
Qed.

(** A piece of text without backticks is copied as it is. *)
Lemma removeAll_app_fenceFree (p body rest : string) :
  Gemini.fenceFree body = true ->
  Gemini.removeAll (String "`" p) (body ++ rest)%string
  = (body ++ Gemini.removeAll (String "`" p) rest)%string.
Proof.
  unfold Gemini.removeAll.
  induction body as [|ch body IH]; intro H; [reflexivity|].
  cbn [Gemini.fenceFree] in H. apply andb_prop in H as [H1 H2].
  apply negb_true_iff in H1.
  change (String ch body ++ rest)%string with (String ch (body ++ rest)%string).
  cbn [Gemini.removeAllFrom].
  rewrite (startsWith_backtick_false p ch _ H1), (IH H2). reflexivity.
Qed.

Lemma append_empty (s : string) : (s ++ EmptyString)%string = s.
Proof.
  induction s as [|ch s IH]; [reflexivity|].
  change (String ch s ++ EmptyString)%string
    with (String ch (s ++ EmptyString)%string).
  f_equal. exact IH.
Qed.

Lemma removeAll_fenceFree (p text : string) :
  Gemini.fenceFree text = true -> Gemini.removeAll (String "`" p) text = text.
Proof.
  intro H. rewrite <- (append_empty text) at 1.
  rewrite (removeAll_app_fenceFree p text EmptyString H).
  apply append_empty.
Qed.

(** A text without backticks is only trimmed. *)
Lemma sanitize_fenceFree (trim : string -> string) (text : string) :
  Gemini.fenceFree text = true -> Gemini.sanitize trim text = trim text.
Proof.
  intro H. unfold Gemini.sanitize.
  rewrite (removeAll_fenceFree _ text H), (removeAll_fenceFree _ text H).
  reflexivity.
Qed.

(** A text wrapped in a code fence loses the fence. *)
Lemma sanitize_fenced (trim : string -> string) (body : string) :
  Gemini.fenceFree body = true ->
  Gemini.sanitize trim ("```json" ++ body ++ "```")%string = trim body.
Proof.
  intro H. unfold Gemini.sanitize. f_equal.
  assert (E1 : Gemini.removeAll "```json" ("```json" ++ body ++ "```")%string
               = Gemini.removeAll "```json" (body ++ "```")%string)
    by reflexivity.
  rewrite E1, (removeAll_app_fenceFree _ body _ H).
  change (Gemini.removeAll "```json" "```") with "```"%string.
  rewrite (removeAll_app_fenceFree _ body _ H).
  change (Gemini.removeAll "```" "```") with EmptyString.
  apply append_empty.
Qed.

(** X23. One reply of the model, read by the batch request and by the live
    request.  A request error or an empty body makes the batch request
    reject (an empty body as "No response from AI") and the live request
    answer with no detections.  A text that parses the same before and
    after the live request's sanitizing gives both the same detections, or
    a rejection on one side and no detections on the other.  A reply
    wrapped in a json code fence, which the batch request cannot parse, is
    rejected by the batch request while the live request returns the
    detections inside the fence.  A fulfilled batch result never has an
    empty summary. *)
Theorem batch_and_live_read_one_reply
    (JSON_parse : string -> Gemini.Parse) (trim : string -> string)
    (r : Gemini.Reply) (now : string) :
  let batch :=
    Gemini.analyzeImageWithGemini (Gemini.batchResponse JSON_parse r) now in
  let live :=
    analyzeVideoFrameWithGemini (Gemini.liveResponse JSON_parse trim r) in
  (forall m, r = Gemini.RequestFails m -> batch = Gemini.Rejected m /\ live = [])
  /\ (forall text, r = Gemini.Replied text -> Gemini.falsy text = true ->
      batch = Gemini.Rejected "No response from AI" /\ live = [])
  /\ (forall text, r = Gemini.Replied (Some text) -> text <> EmptyString ->
      JSON_parse (Gemini.sanitize trim text) = JSON_parse text ->
      live = match batch with
             | Gemini.Fulfilled res => Gemini.objects res
             | Gemini.Rejected _ => []
             end)
  /\ (forall body m objects summary,
      Gemini.fenceFree body = true ->
      r = Gemini.Replied (Some ("```json" ++ body ++ "```")%string) ->
      JSON_parse ("```json" ++ body ++ "```")%string = Gemini.ParseThrows m ->
      JSON_parse (trim body) = Gemini.Parsed (Some objects) summary ->
      batch = Gemini.Rejected m /\ live = objects)
  /\ (forall res, batch = Gemini.Fulfilled res ->
      Gemini.summary res <> EmptyString /\ Gemini.timestamp res = now).
Proof.
  cbv zeta. split_and?.
  - intros m ->. split; reflexivity.
  - intros text -> H. destruct text as [[|ch text]|]; try discriminate;
      split; reflexivity.
  - intros text -> Hne Hp. destruct text as [|ch text]; [congruence|].
    cbn [Gemini.batchResponse Gemini.liveResponse]. rewrite Hp.
    destruct (JSON_parse (String ch text)) as [m|[l|] s]; reflexivity.
  - intros body m objects summary Hb -> Hraw Hclean.
    pose proof (sanitize_fenced trim body Hb) as Hs.
    change ("```json" ++ body ++ "```")%string
      with (String "`" ("``json" ++ body ++ "```")%string) in *.
    cbn [Gemini.batchResponse Gemini.liveResponse].
    rewrite Hraw, Hs, Hclean. split; reflexivity.
  - intros res H.
    assert (exists o s, Gemini.batchResponse JSON_parse r = Gemini.JsonParsed o s)
      as (o & s & E).
    { destruct (Gemini.batchResponse JSON_parse r) as [m| |m|o s];
        try discriminate. eauto. }
    rewrite E in H. cbn in H. injection H as <-.
    cbn [Gemini.summary Gemini.timestamp]. split; [|reflexivity].
    destruct s as [[|c s]|]; discriminate.
Qed.

Import AnalysisTool.


Lemma countLabel_plain (m : gmap string Count) (obj : DetectedObject) :
  allNumbers m -> label obj ∉ objectPrototypeKeys ->
  countLabel m obj = <[label obj := Num (numOf (m !! label obj) + 1)]> m
  /\ allNumbers (countLabel m obj).
Proof.
  intros Hm Hl.
  assert (E : countLabel m obj
              = <[label obj := Num (numOf (m !! label obj) + 1)]> m).
  { unfold countLabel. cbv zeta.
    destruct (m !! label obj) as [[n|k]|] eqn:E.
    - reflexivity.
    - destruct (Hm _ _ E) as [n Hn]. discriminate.
    - destruct (decide (label obj = "__proto__"%string)) as [D|D].
      + exfalso. apply Hl. rewrite D.
        apply list_elem_of_In. cbn. tauto.
      + destruct (decide (label obj ∈ objectPrototypeKeys)); [contradiction|].
        reflexivity. }
  split; [exact E|]. rewrite E. intros l v H.
  destruct (decide (label obj = l)) as [Heq|Hne].
  - subst l. rewrite lookup_insert_eq in H. injection H as <-. eauto.
  - rewrite lookup_insert_ne in H by exact Hne. eauto.
Qed.

Lemma labelCount_cons (l : string) (obj : DetectedObject)
    (objects : list DetectedObject) :
  labelCount l (obj :: objects)
  = (if String.eqb (label obj) l then 1 else 0) + labelCount l objects.
Proof.
  unfold labelCount. cbn [List.filter].
  destruct (String.eqb (label obj) l); cbn [length]; lia.
Qed.

Lemma labelCount_nonneg (l : string) (objects : list DetectedObject) :
  0 <= labelCount l objects.
Proof. unfold labelCount. lia. Qed.

Lemma fold_countLabel_lookup (objects : list DetectedObject)
    (m : gmap string Count) (l : string) :
  allNumbers m -> plainLabels objects ->
  allNumbers (fold_left countLabel objects m)
  /\ fold_left countLabel objects m !! l
     = if labelCount l objects =? 0 then m !! l
       else Some (Num (numOf (m !! l) + labelCount l objects)).
Proof.
  revert m. induction objects as [|obj objects IH]; intros m Hm Hp.
  - split; [exact Hm | reflexivity].
  - inversion Hp as [|? ? Ho Hp']; subst.
    destruct (countLabel_plain m obj Hm Ho) as (E & Hm').
    cbn [fold_left].
    destruct (IH (countLabel m obj) Hm' Hp') as (A & B).
    split; [exact A|]. rewrite B, labelCount_cons.
    pose proof (labelCount_nonneg l objects) as Hn.
    rewrite E.
    destruct (String.eqb (label obj) l) eqn:El.
    + apply String.eqb_eq in El. subst l.
      rewrite lookup_insert_eq. cbn [numOf].
      destruct (labelCount (label obj) objects =? 0) eqn:Z0.
      * apply Z.eqb_eq in Z0. rewrite Z0.
        destruct (1 + 0 =? 0) eqn:Z1; [apply Z.eqb_eq in Z1; lia|].
        f_equal; f_equal; try lia.
      * destruct (1 + labelCount (label obj) objects =? 0) eqn:Z1;
          [apply Z.eqb_eq in Z1; lia|].
        f_equal; f_equal; try lia.
    + apply String.eqb_neq in El.
      rewrite lookup_insert_ne by exact El.
      replace (0 + labelCount l objects) with (labelCount l objects) by lia.
      reflexivity.
Qed.

(** X24. For detections whose labels do not name a member of
    [Object.prototype], the summary archived with a task maps each label to
    the number of detections that carry it, and has no entry for a label
    that no detection carries. *)
Theorem summary_counts_each_label (objects : list DetectedObject) (l : string) :
  plainLabels objects ->
  summarize objects !! l
  = if labelCount l objects =? 0 then None else Some (Num (labelCount l objects)).
Proof.
  intro Hp. unfold summarize.
  destruct (fold_countLabel_lookup objects ∅ l) as (_ & B); [|exact Hp|].
  - intros k v H. rewrite lookup_empty in H. discriminate.
  - rewrite B, lookup_empty. reflexivity.
Qed.

Lemma summary_counts_each_label_witness :
  summarize [car; flipped; mkObj "bus" (3 # 10) (mkBox 0 0 10 10)] !! "car"%string
  = Some (Num 2).
Proof.
  apply (summary_counts_each_label
           [car; flipped; mkObj "bus" (3 # 10) (mkBox 0 0 10 10)] "car"%string).
  unfold plainLabels.
  repeat constructor; rewrite list_elem_of_In; cbn; intuition discriminate.
Defined.

Lemma total_step (v1 v2 : Count) (y : Z) :
  match v1 with Num n => n | MemberText _ => 0 end
  + (match v2 with Num n => n | MemberText _ => 0 end + y)
  = match v2 with Num n => n | MemberText _ => 0 end
    + (match v1 with Num n => n | MemberText _ => 0 end + y).
Proof. destruct v1, v2; lia. Qed.

Lemma total_insert (m : gmap string Count) (l : string) (n : Z) :
  total (<[l := Num n]> m) = n - numOf (m !! l) + total m.
Proof.
  unfold total.
  destruct (m !! l) as [v|] eqn:E.
  - rewrite <- (insert_delete_eq m).
    rewrite map_fold_insert_L;
      [|intros; apply total_step|apply lookup_delete_eq].
    rewrite (map_fold_delete_L _ _ l v m); [|intros; apply total_step|exact E].
    destruct v; cbn [numOf]; lia.
  - rewrite map_fold_insert_L; [|intros; apply total_step|exact E].
    cbn [numOf]. lia.
Qed.

Lemma fold_countLabel_total (objects : list DetectedObject) (m : gmap string Count) :
  allNumbers m -> plainLabels objects ->
  total (fold_left countLabel objects m) = total m + Z.of_nat (length objects).
Proof.
  revert m. induction objects as [|obj objects IH]; intros m Hm Hp.
  - cbn. lia.
  - inversion Hp as [|? ? Ho Hp']; subst.
    destruct (countLabel_plain m obj Hm Ho) as (E & Hm').
    cbn [fold_left length]. rewrite (IH _ Hm' Hp'), E, total_insert. lia.
Qed.

(** X25. For detections whose labels do not name a member of
    [Object.prototype], the counts of the archived summary add up to the
    number of detections. *)
Theorem summary_counts_add_up (objects : list DetectedObject) :
  plainLabels objects ->
  total (summarize objects) = Z.of_nat (length objects).
Proof.
  intro Hp. unfold summarize. rewrite fold_countLabel_total; [|intros k v H|exact Hp].
  - unfold total. rewrite map_fold_empty. lia.
  - rewrite lookup_empty in H. discriminate.
Qed.

Lemma summary_counts_add_up_witness :
  total (summarize [car; flipped; mkObj "bus" (3 # 10) (mkBox 0 0 10 10)]) = 3.
Proof.
  apply (summary_counts_add_up
           [car; flipped; mkObj "bus" (3 # 10) (mkBox 0 0 10 10)]).
  unfold plainLabels.
  repeat constructor; rewrite list_elem_of_In; cbn; intuition discriminate.
Defined.

(** X26. An analysis that gets its image (an image was selected and the
    frame grab, if any, did not throw) archives exactly one task, at the head
    of the archive, with the drawn id and the image sent.  If the request is
    fulfilled the task is COMPLETED at 100 % with the result and its label
    summary, and the tool shows the result; if it is rejected the task is
    FAILED without a result, the tool shows "Analysis failed." with the
    error's message and keeps the result it had.  Either way processing is
    over. *)
Theorem analysis_archives_exactly_one_task
    (grab : FrameGrab) (taskId : string) (perfNow : Q) (now : Z)
    (response : Gemini.Response) (timestamp : string) (endTime : Q) (later : Z)
    (w : World) (selected : string) :
  selectedImage w = Some selected ->
  grabFails (mediaType w) grab = false ->
  let w' := analyze grab taskId perfNow now response timestamp endTime later w in
  let sent := payloadOf (mediaType w) grab selected in
  exists t,
    tasks w' = t :: tasks w
    /\ id t = taskId /\ imageUrl t = sent /\ file_name t = fileName w
    /\ createdAt t = now /\ completedAt t = Some later
    /\ isProcessing w' = false
    /\ match Gemini.analyzeImageWithGemini response timestamp with
       | Gemini.Fulfilled res =>
           status t = COMPLETED /\ progress t = 100
           /\ task_result t = Some res
           /\ detections_summary t = Some (summarize (Gemini.objects res))
           /\ result w' = Some res /\ capturedImage w' = Some sent
           /\ error w' = None /\ showSuccess w' = true
       | Gemini.Rejected message =>
           status t = FAILED /\ task_result t = None
           /\ detections_summary t = None
           /\ result w' = result w /\ capturedImage w' = capturedImage w
           /\ error w' = Some ("Analysis failed. " ++ message)%string
           /\ showSuccess w' = false
       end.
Proof.
  intros Hsel Hgrab. cbv zeta.
  unfold analyze, handleAnalyze_begin. rewrite Hsel. cbv zeta.
  change (mediaType (setShowSuccess false (setError None (setIsProcessing true w))))
    with (mediaType w).
  change (fileName (setShowSuccess false (setError None (setIsProcessing true w))))
    with (fileName w).
  assert (P : match mediaType w, grab with
              | video, GrabThrows => Throw
              | video, Grabbed dataUrl => Return dataUrl
              | _, _ => Return selected
              end = Return (payloadOf (mediaType w) grab selected)).
  { destruct (mediaType w), grab; try reflexivity; discriminate. }
  rewrite P. unfold handleAnalyze_resume. cbv zeta.
  destruct (Gemini.analyzeImageWithGemini response timestamp) as [res|message].
  - eexists. split; [reflexivity|]. split_and?; reflexivity.
  - eexists. split; [reflexivity|]. split_and?; reflexivity.
Qed.

Lemma analysis_archives_exactly_one_task_witness :
  let w := mkWorld (Some "img"%string) None image "a.jpg"%string false None None
                   boxes 0%Q false [] [] in
  let w' := analyze NoVideoElement "t1"%string 0%Q 10
              (Gemini.JsonParsed (Some [car]) None) "ts"%string 1500%Q 12 w in
  let sent := payloadOf (mediaType w) NoVideoElement "img"%string in
  exists t,
    tasks w' = t :: tasks w
    /\ id t = "t1"%string /\ imageUrl t = sent /\ file_name t = fileName w
    /\ createdAt t = 10 /\ completedAt t = Some 12
    /\ isProcessing w' = false
    /\ match Gemini.analyzeImageWithGemini (Gemini.JsonParsed (Some [car]) None)
               "ts"%string with
       | Gemini.Fulfilled res =>
           status t = COMPLETED /\ progress t = 100
           /\ task_result t = Some res
           /\ detections_summary t = Some (summarize (Gemini.objects res))
           /\ result w' = Some res /\ capturedImage w' = Some sent
           /\ error w' = None /\ showSuccess w' = true
       | Gemini.Rejected message =>
           status t = FAILED /\ task_result t = None
           /\ detections_summary t = None
           /\ result w' = result w /\ capturedImage w' = capturedImage w
           /\ error w' = Some ("Analysis failed. " ++ message)%string
           /\ showSuccess w' = false
       end.
Proof.
  apply (analysis_archives_exactly_one_task NoVideoElement "t1"%string 0%Q 10
           (Gemini.JsonParsed (Some [car]) None) "ts"%string 1500%Q 12
           (mkWorld (Some "img"%string) None image "a.jpg"%string false None None
                    boxes 0%Q false [] [])
           "img"%string); reflexivity.
Defined.

(** X27. An analysis that does not get its image archives nothing and
    leaves the result alone: with no image selected nothing changes at all;
    when grabbing the video frame throws, the tool reports
    "Failed to capture video frame." and is not left processing. *)
Theorem analysis_without_image_archives_nothing
    (grab : FrameGrab) (taskId : string) (perfNow : Q) (now : Z)
    (response : Gemini.Response) (timestamp : string) (endTime : Q) (later : Z)
    (w : World) :
  let w' := analyze grab taskId perfNow now response timestamp endTime later w in
  (selectedImage w = None -> w' = w)
  /\ (selectedImage w <> None -> grabFails (mediaType w) grab = true ->
      tasks w' = tasks w /\ result w' = result w
      /\ error w' = Some "Failed to capture video frame."%string
      /\ isProcessing w' = false).
Proof.
  cbv zeta. unfold analyze, handleAnalyze_begin. split.
  - intros ->. reflexivity.
  - intros Hsel Hgrab. destruct (selectedImage w) as [selected|]; [|contradiction].
    cbv zeta.
    change (mediaType (setShowSuccess false (setError None (setIsProcessing true w))))
      with (mediaType w).
    destruct (mediaType w), grab; try discriminate.
    split_and?; reflexivity.
Qed.


Local Open Scope Q_scope.

Lemma progressTick_bounds (p r : Q) :
  0 <= r -> p <= 90 ->
  p <= progressTick p r /\ progressTick p r <= 90.
Proof.
  intros Hr Hp. unfold progressTick. cbv zeta. unfold JS.gtb.
  destruct (JS.ltb 90 (p + r * 12)) eqn:E.
  - apply ltb_true in E. lra.
  - apply ltb_false in E. lra.
Qed.

Lemma progressAfter_snoc (randoms : list Q) (r : Q) :
  progressAfter (randoms ++ [r]) = progressTick (progressAfter randoms) r.
Proof. unfold progressAfter. rewrite fold_left_app. reflexivity. Qed.

Lemma progressAfter_bounds (randoms : list Q) :
  Forall (fun r => 0 <= r) randoms ->
  0 <= progressAfter randoms /\ progressAfter randoms <= 90.
Proof.
  induction randoms as [|r randoms IH] using rev_ind; intro H.
  - unfold progressAfter. cbn. lra.
  - apply Forall_app in H as [H1 H2]. inversion H2; subst.
    destruct (IH H1) as (A & B).
    rewrite progressAfter_snoc.
    destruct (progressTick_bounds (progressAfter randoms) r) as (C & D); auto.
    lra.
Qed.

(** X29. The simulated upload progress never goes backwards and never shows
    more than 90 % before the file has been read: after any number of ticks
    with non-negative random draws, the progress is between 0 and 90, the
    percentage shown is between 0 and 90, and one more tick does not lower
    it. *)
Theorem upload_progress_capped (randoms : list Q) (r : Q) :
  Forall (fun x => 0 <= x) randoms -> 0 <= r ->
  0 <= progressAfter randoms /\ progressAfter randoms <= 90
  /\ (0 <= shownProgress (progressAfter randoms) <= 90)%Z
  /\ progressAfter randoms <= progressAfter (randoms ++ [r])
  /\ (shownProgress (progressAfter randoms)
      <= shownProgress (progressAfter (randoms ++ [r])))%Z.
Proof.
  intros H Hr. destruct (progressAfter_bounds randoms H) as (A & B).
  rewrite progressAfter_snoc.
  destruct (progressTick_bounds (progressAfter randoms) r Hr B) as (C & D).
  set (p := progressAfter randoms) in *.
  set (p' := progressTick p r) in *.
  unfold shownProgress, JS.Math_round.
  split_and?; try assumption.
  - change 0%Z with (Qfloor 0). apply Qfloor_resp_le. lra.
  - assert (X : p + (1 # 2) <= 90 + (1 # 2)) by lra.
    apply Qfloor_resp_le in X. exact X.
  - apply Qfloor_resp_le. lra.
Qed.

Lemma upload_progress_capped_witness :
  0 <= progressAfter [1 # 2; 9 # 10] /\ progressAfter [1 # 2; 9 # 10] <= 90
  /\ (0 <= shownProgress (progressAfter [1 # 2; 9 # 10]) <= 90)%Z
  /\ progressAfter [1 # 2; 9 # 10] <= progressAfter ([1 # 2; 9 # 10] ++ [3 # 10])
  /\ (shownProgress (progressAfter [1 # 2; 9 # 10])
      <= shownProgress (progressAfter ([1 # 2; 9 # 10] ++ [3 # 10])))%Z.
Proof.
  apply (upload_progress_capped [1 # 2; 9 # 10] (3 # 10)).
  - repeat constructor; vm_compute; discriminate.
  - vm_compute. discriminate.
Defined.

(** * Pagination of the task archive *)

Local Open Scope Z_scope.

Lemma totalPages_bounds {A : Type} (l : list A) :
  let n := Z.of_nat (length l) in
  0 <= TaskHistory.totalPages l
  /\ n <= 10 * TaskHistory.totalPages l
  /\ 10 * (TaskHistory.totalPages l - 1) < n.
Proof.
  cbv zeta. unfold TaskHistory.totalPages, TaskHistory.itemsPerPage.
  set (n := Z.of_nat (length l)).
  assert (Hn : (0 <= inject_Z n)%Q).
  { change 0%Q with (inject_Z 0). rewrite <- Zle_Qle. subst n. lia. }
  set (x := (inject_Z n / inject_Z 10)%Q).
  pose proof (Qle_ceiling x) as Hc.
  pose proof (Qceiling_lt x) as Hl.
  assert (E : (x == inject_Z n * (1 # 10))%Q) by (subst x; reflexivity).
  set (c := Qceiling x) in *.
  assert (G : (inject_Z (10 * (c - 1)) == 10 * (inject_Z c - 1))%Q).
  { rewrite inject_Z_mult. unfold Z.sub. rewrite inject_Z_plus. reflexivity. }
  assert (G2 : (inject_Z (10 * c) == 10 * inject_Z c)%Q).
  { rewrite inject_Z_mult. reflexivity. }
  assert (G3 : (inject_Z (c - 1) == inject_Z c - 1)%Q).
  { unfold Z.sub. rewrite inject_Z_plus. reflexivity. }
  rewrite G3 in Hl.
  split_and?.
  - assert (L : (inject_Z (-1) < inject_Z c)%Q).
    { change (inject_Z (-1)) with (-1)%Q. lra. }
    rewrite <- Zlt_Qlt in L. lia.
  - rewrite Zle_Qle, G2. lra.
  - rewrite Zlt_Qlt, G. lra.
Qed.

Lemma currentTasks_chunk {A : Type} (l : list A) (p : Z) :
  1 <= p ->
  TaskHistory.currentTasks l p = firstn 10 (skipn (10 * (Z.to_nat p - 1)) l).
Proof.
  intro Hp. unfold TaskHistory.currentTasks, TaskHistory.slice,
    TaskHistory.itemsPerPage. cbv zeta.
  set (len := Z.of_nat (length l)).
  destruct ((p - 1) * 10 <? 0) eqn:E1; [apply Z.ltb_lt in E1; lia|].
  destruct (p * 10 <? 0) eqn:E2; [apply Z.ltb_lt in E2; lia|].
  replace (10 * (Z.to_nat p - 1))%nat with (Z.to_nat ((p - 1) * 10)) by lia.
  destruct (Z_le_gt_dec len ((p - 1) * 10)) as [Hge|Hlt].
  - rewrite Z.min_r by lia.
    rewrite (skipn_all2 l) by (subst len; lia).
    rewrite (skipn_all2 l) by (subst len; lia).
    rewrite !firstn_nil. reflexivity.
  - rewrite (Z.min_l ((p - 1) * 10)) by lia.
    set (rest := skipn (Z.to_nat ((p - 1) * 10)) l).
    assert (Hr : length rest = (length l - Z.to_nat ((p - 1) * 10))%nat)
      by (subst rest; apply length_skipn).
    destruct (Z_le_gt_dec (p * 10) len) as [Hfull|Hpart].
    + rewrite Z.min_l by lia. f_equal. lia.
    + rewrite Z.min_r by lia.
      rewrite !firstn_all2; [reflexivity| |]; subst len; lia.
Qed.

Lemma chunks_concat {A : Type} (n : nat) (l : list A) :
  (length l <= 10 * n)%nat ->
  concat (map (fun i => firstn 10 (skipn (10 * i) l)) (seq 0 n)) = l.
Proof.
  revert l. induction n as [|n IH]; intros l Hl.
  - destruct l; [reflexivity|cbn in Hl; lia].
  - cbn [seq map concat]. rewrite <- seq_shift, map_map.
    transitivity (firstn 10 l ++ skipn 10 l); [|apply firstn_skipn].
    f_equal.
    rewrite <- (IH (skipn 10 l)) by (rewrite length_skipn; lia).
    f_equal. apply map_ext. intro i.
    rewrite skipn_skipn. do 2 f_equal. lia.
Qed.

(** X30. The pages of the task table partition the list: read in order from
    page 1 to the last page they give back the whole list; every page from 1
    to the last holds between 1 and 10 tasks, every page after the last is
    empty; and from a page in range the Previous and Next buttons stay in
    range. *)
Theorem pages_partition_the_archive {A : Type} (l : list A) :
  concat (TaskHistory.allPages l) = l
  /\ (forall p, 1 <= p <= TaskHistory.totalPages l ->
      (1 <= length (TaskHistory.currentTasks l p) <= 10)%nat)
  /\ (forall p, TaskHistory.totalPages l < p -> TaskHistory.currentTasks l p = [])
  /\ (forall p, 1 <= p <= TaskHistory.totalPages l ->
      1 <= TaskHistory.previousPage p <= TaskHistory.totalPages l
      /\ 1 <= TaskHistory.nextPage l p <= TaskHistory.totalPages l).
Proof.
  destruct (totalPages_bounds l) as (T0 & T1 & T2).
  set (tp := TaskHistory.totalPages l) in *.
  split_and?.
  - unfold TaskHistory.allPages. fold tp.
    rewrite <- seq_shift, map_map.
    transitivity (concat (map (fun i => firstn 10 (skipn (10 * i) l))
                              (seq 0 (Z.to_nat tp))));
      [|apply chunks_concat; lia].
    f_equal. apply map_ext. intro i.
    rewrite currentTasks_chunk by lia. do 2 f_equal. lia.
  - intros p Hp. rewrite currentTasks_chunk by lia.
    rewrite length_firstn, length_skipn. lia.
  - intros p Hp. rewrite currentTasks_chunk by lia.
    rewrite skipn_all2 by lia. apply firstn_nil.
  - intros p Hp. unfold TaskHistory.previousPage, TaskHistory.nextPage. fold tp. lia.
Qed.
